(** * Public-funeral scraper: a shallow embedding and its properties

    The first part embeds the code, module by module:
    - [Py]           : the Python idioms the modules share (join, dict.get,
                       str.replace, exceptions as values, a state-and-error
                       monad)
    - [GptAnalyzer]  : services/gpt_analyzer.py (clean_analyzed_data)
    - [Config]       : config.py (district tables, message templates)
    - [Telegram]     : services/telegram.py
    - [HttpClient]   : core/http_client.py
    - [Scraper]      : scrapers/base.py (BaseScraper)
    - [Store]        : the record store behind services/pocketbase.py
    - [Migration]    : migration/json_to_pocketbase.py

    The second part states and proves the properties.  Dictionaries that are
    read in insertion order are association lists; keyword arguments and
    hash sets are stdpp finite maps and sets.  The network, the Bot API and
    the clock are parameters that thread a world; every call that leaves the
    process is recorded in a trace. *)

From Stdlib Require Import ZArith Lia.
From stdpp Require Import base option list strings pretty gmap.

Local Open Scope Z_scope.

#[local] Set Warnings "-register-all".

(** ** Python helpers shared by the modules *)

Module Py.

(** The line feed of Python's "\n". *)
Definition NL : string := String (Ascii.ascii_of_nat 10) EmptyString.

(** [sep.join(parts)] *)
Fixpoint join (sep : string) (parts : list string) : string :=
  match parts with
  | [] => ""
  | [p] => p
  | p :: rest => p +:+ sep +:+ join sep rest
  end.

(** [d.get(key)] on a dictionary kept in insertion order. *)
Fixpoint dict_get {V : Type} (d : list (string * V)) (key : string) : option V :=
  match d with
  | [] => None
  | (k, v) :: rest => if decide (k = key) then Some v else dict_get rest key
  end.

(** [x in xs] for strings. *)
Definition str_in (x : string) (xs : list string) : bool :=
  bool_decide (x ∈ xs).

(** [sub in s] for strings. *)
Fixpoint is_prefix (p s : string) : bool :=
  match p, s with
  | EmptyString, _ => true
  | String a p', String b s' => if decide (a = b) then is_prefix p' s' else false
  | String _ _, EmptyString => false
  end.

Fixpoint contains (sub s : string) : bool :=
  is_prefix sub s ||
  match s with
  | EmptyString => false
  | String _ s' => contains sub s'
  end.

(** [s.replace(old, new)]: scan left to right, and after a match skip the
    rest of the matched text; an empty [old] matches between all characters. *)
Fixpoint replace_go (old new s : string) (skip : nat) : string :=
  match s with
  | EmptyString => EmptyString
  | String c s' =>
      match skip with
      | S k => replace_go old new s' k
      | O =>
          if is_prefix old s
          then new +:+ replace_go old new s' (String.length old - 1)%nat
          else String c (replace_go old new s' 0%nat)
      end
  end.

Fixpoint interleave (new s : string) : string :=
  match s with
  | EmptyString => new
  | String c s' => new +:+ String c (interleave new s')
  end.

Definition replace (old new s : string) : string :=
  match old with
  | EmptyString => interleave new s
  | _ => replace_go old new s 0%nat
  end.

(** Exceptions are values: a call either returns or raises. *)
Inductive result (E A : Type) : Type :=
| Ok (a : A)
| Raise (e : E).
Arguments Ok {E A} a.
Arguments Raise {E A} e.

Definition is_ok {E A} (r : result E A) : bool :=
  match r with Ok _ => true | Raise _ => false end.

(** A computation that reads and updates a state [S] and may raise. *)
Definition prog (S E A : Type) : Type := S → result E A * S.

Definition ret {S E A} (a : A) : prog S E A := λ st, (Ok a, st).

Definition raise {S E A} (e : E) : prog S E A := λ st, (Raise e, st).

(** A call that touches no state: it returns or raises. *)
Definition lift {S E A} (r : result E A) : prog S E A := λ st, (r, st).

Definition bind {S E A B} (c : prog S E A) (k : A → prog S E B) : prog S E B :=
  λ st, match c st with
        | (Ok a, st') => k a st'
        | (Raise e, st') => (Raise e, st')
        end.

(** [try: c  except ... as e: handler(e)] *)
Definition try_except {S E A} (c : prog S E A) (handler : E → prog S E A)
  : prog S E A :=
  λ st, match c st with
        | (Ok a, st') => (Ok a, st')
        | (Raise e, st') => handler e st'
        end.

Notation "'let*' x ':=' c 'in' k" := (bind c (λ x, k))
  (at level 10, x name, c at level 100, k at level 200).
Notation "c ';;' k" := (bind c (λ _, k))
  (at level 100, k at level 200, right associativity).

(** The exceptions of [requests] the client tells apart, the parser's
    rejection of a document, and the rest. *)
Inductive exn : Type :=
| HTTPError (response_status : option Z)
| ConnectionError
| RequestException
| ParserRejectedMarkup.

End Py.

(** ** services/gpt_analyzer.py *)

Module GptAnalyzer.
Import Py.

(** A value decoded by [json.loads].  A float is carried by the text Python
    prints for it, which is all the cleaner ever does with one. *)
Inductive json : Type :=
| JNull
| JBool (b : bool)
| JInt (z : Z)
| JFloat (shown : string)
| JStr (s : string)
| JList (items : list json)
| JDict (items : list (string * json)).

Definition TAGS : list string :=
  ["이름"; "생년월일"; "거주지"; "사망일시"; "사망장소";
   "장례일정"; "장례장소"; "발인일시"; "화장일시"].

Definition FAILED : string := "추출 실패".

(** The strings the cleaner treats as "no value" (the [None] of the source
    list never equals a string). *)
Definition EMPTY_VALUES : list string := ["그 외의 사항"; ""; "없음"].

Section Clean.

(** Python's [repr] of a [str] (quote choice and escapes), used by [str] only
    for strings nested inside a list or dict that is itself a list item. *)
Variable repr_str : string → string.

(** [repr(v)] *)
Fixpoint py_repr (v : json) : string :=
  match v with
  | JNull => "None"
  | JBool true => "True"
  | JBool false => "False"
  | JInt z => pretty z
  | JFloat shown => shown
  | JStr s => repr_str s
  | JList items => "[" +:+ join ", " (map py_repr items) +:+ "]"
  | JDict items =>
      "{" +:+ join ", " (map (λ kv, repr_str (fst kv) +:+ ": " +:+ py_repr (snd kv)) items)
          +:+ "}"
  end.

(** [str(v)]: a string is itself, everything else prints as its [repr]. *)
Definition py_str (v : json) : string :=
  match v with
  | JStr s => s
  | _ => py_repr v
  end.

(** The nested [convert_value] of [clean_analyzed_data]. *)
Fixpoint convert_value (value : json) : string :=
  match value with
  | JDict items =>
      join NL (map (λ kv, fst kv +:+ ":" +:+ convert_value (snd kv)) items)
  | JList items => join ", " (map py_str items)
  | JNull => FAILED
  | _ => py_str value
  end.

(** The loop body: look the tag up with the sentinel as default, convert,
    and replace an empty value by the sentinel. *)
Definition clean_tag (content : list (string * json)) (tag : string) : string :=
  let value := default (JStr FAILED) (dict_get content tag) in
  let converted := convert_value value in
  if str_in converted EMPTY_VALUES then FAILED else converted.

(** [clean_analyzed_data(data)].  [data.get("content", {})] must be a dict:
    [.get] on anything else raises AttributeError. *)
Definition clean_analyzed_data (data : list (string * json))
  : result unit (list (string * string)) :=
  match default (JDict []) (dict_get data "content") with
  | JDict content => Ok (map (λ tag, (tag, clean_tag content tag)) TAGS)
  | _ => Raise ()
  end.

(** What [GPTAnalyzer.analyze_raw_data] returns: the content is the dict
    decoded from the model's reply. *)
Definition analyze_raw_data_result (url : string) (updated : Z)
    (extracted : list (string * json)) : list (string * json) :=
  [("url", JStr url); ("updated", JInt updated); ("content", JDict extracted)].

End Clean.

(** A reply used to exercise the cleaner. *)
Definition demo_content : list (string * json) :=
  [("이름", JStr "홍길동"); ("거주지", JNull); ("생년월일", JStr "없음");
   ("사망일시", JList [JInt 3; JStr "a"]);
   ("장례일정", JDict [("a", JStr "b"); ("c", JInt (-4))]);
   ("기타", JStr "x")].

End GptAnalyzer.

(** ** config.py: the district tables and the message templates *)

Module Config.
Import Py.

Definition DISTRICT_NAMES_ENG_TO_KOR : list (string * string) :=
  [("BUKGU", "북구"); ("DONGGU", "동구"); ("DONGNAE", "동래구");
   ("GANGSEO", "강서구"); ("GEUMJEONG", "금정구"); ("GIJANG", "기장군");
   ("HAEUNDAE", "해운대구"); ("JINGU", "부산진구"); ("JUNGGU", "중구");
   ("NAMGU", "남구"); ("SAHA", "사하구"); ("SASANG", "사상구");
   ("SEOGU", "서구"); ("SUYEONG", "수영구"); ("YEONGDOGU", "영도구");
   ("YEONJE", "연제구")].

(** [{v: k for k, v in DISTRICT_NAMES_ENG_TO_KOR.items()}] *)
Definition DISTRICT_NAMES_KOR_TO_ENG : list (string * string) :=
  map (λ kv, (snd kv, fst kv)) DISTRICT_NAMES_ENG_TO_KOR.

Definition DISTRICT_CHANNEL_IDS : gmap string string :=
  list_to_map
    [("BUKGU", "-4130128744"); ("DONGGU", "-4165065871");
     ("DONGNAE", "-4178400896"); ("GANGSEO", "-4104549484");
     ("GEUMJEONG", "-4199264402"); ("GIJANG", "-4158955899");
     ("HAEUNDAE", "-4158535154"); ("JINGU", "-4178316252");
     ("JUNGGU", "-4178873706"); ("NAMGU", "-4155333786");
     ("SAHA", "-4158043390"); ("SASANG", "-4153235935");
     ("SEOGU", "-4162434773"); ("SUYEONG", "-4120218199");
     ("YEONGDOGU", "-4193340992"); ("YEONJE", "-4104969591")].

(** [MessageTemplates] with its default strings; each [str.format] call is
    written out as the concatenation it performs. *)
Definition funeral_new (district : string) : string :=
  "<b>🔔 [" +:+ district +:+ "] 새로운 부고가 게시되었습니다.</b>".

Definition funeral_updated (district : string) (version : Z) : string :=
  "<b>🔔 [" +:+ district +:+ "] 부고가 수정되었습니다(ver. " +:+ pretty version +:+ ")</b>".

Definition funeral_info_item (num key value : string) : string :=
  num +:+ " " +:+ key +:+ " : " +:+ value.

Definition funeral_link (url : string) : string :=
  NL +:+ "<a href='" +:+ url +:+ "'>부고 게시물 확인</a>".

Definition numbered_markers : list string :=
  ["①"; "②"; "③"; "④"; "⑤"; "⑥"; "⑦"; "⑧"; "⑨"; "⑩"].

Definition format_funeral_title (district : string) (update_count : Z) : string :=
  if decide (update_count = 0) then funeral_new district
  else funeral_updated district update_count.

(** The enumerate loop: item [i] gets marker [i] while [i < len(markers)];
    later items are dropped. *)
Fixpoint format_funeral_lines (markers : list string) (data : list (string * string))
  : list string :=
  match markers, data with
  | num :: markers', (key, value) :: data' =>
      funeral_info_item num key value :: format_funeral_lines markers' data'
  | _, _ => []
  end.

Definition format_funeral_info (data : list (string * string)) : string :=
  join NL (format_funeral_lines numbered_markers data).

Record TelegramConfig := {
  bot_token : string;
  error_channel : string;
  general_channel : string;
  funeral_main : string;
  (** a district whose value is None ([TELEGRAM_TEST_CHANNEL] unset in test
      mode) reads like a missing key through [.get] *)
  district_channels : gmap string string
}.

Record TorConfig := {
  enabled : bool;
  host : string;
  port : Z
}.

Definition proxy_url (tor : TorConfig) : string :=
  "socks5://" +:+ host tor +:+ ":" +:+ pretty (port tor).

Definition proxies (tor : TorConfig) : list (string * string) :=
  [("http", proxy_url tor); ("https", proxy_url tor)].

End Config.

(** ** services/telegram.py *)

Module Telegram.
Import Py Config.

(** [html.escape(s)] with its default [quote=True]. *)
Definition escape_char (c : Ascii.ascii) : string :=
  match Ascii.nat_of_ascii c with
  | 38%nat => "&amp;"
  | 60%nat => "&lt;"
  | 62%nat => "&gt;"
  | 34%nat => "&quot;"
  | 39%nat => "&#x27;"
  | _ => String c EmptyString
  end.

Fixpoint html_escape (s : string) : string :=
  match s with
  | EmptyString => EmptyString
  | String c s' => escape_char c +:+ html_escape s'
  end.

(** [datetime.time]: compared field by field, hour first. *)
Record time := mk_time {
  hour : Z;
  minute : Z;
  second : Z;
  microsecond : Z
}.

Definition time_lt (a b : time) : bool :=
  (hour a <? hour b) ||
  ((hour a =? hour b) &&
   ((minute a <? minute b) ||
    ((minute a =? minute b) &&
     ((second a <? second b) ||
      ((second a =? second b) && (microsecond a <? microsecond b)))))).

Definition time_ge (a b : time) : bool := negb (time_lt a b).

Definition US_PER_SECOND : Z := 1000000.
Definition US_PER_DAY : Z := 86400 * US_PER_SECOND.

(** [KST = timezone(timedelta(hours=9))] *)
Definition KST_OFFSET_US : Z := 9 * 3600 * US_PER_SECOND.

(** [datetime.now(KST).time()] for a clock reading in microseconds since the
    epoch (UTC). *)
Definition now_kst_time (posix_us : Z) : time :=
  let us := (posix_us + KST_OFFSET_US) `mod` US_PER_DAY in
  {| hour := us `div` (3600 * US_PER_SECOND);
     minute := (us `div` (60 * US_PER_SECOND)) `mod` 60;
     second := (us `div` US_PER_SECOND) `mod` 60;
     microsecond := us `mod` US_PER_SECOND |}.

(** The comparison of [_is_night_time] on the time already read. *)
Definition is_night (t : time) : bool :=
  time_ge t (mk_time 20 0 0 0) || time_lt t (mk_time 7 0 0 0).

(** What the Bot API call can come to: [requests.get] raises (no
    connection, timeout), or a response arrives whose body is either not
    JSON ([body_ok = None]; [response.json()] then raises the JSONDecodeError
    of requests, a RequestException) or a JSON object whose "ok" is truthy
    or not. *)
Inductive api_outcome : Type :=
| RequestFailed
| Responded (status_code : Z) (body_ok : option bool).

(** One call of [sendMessage] as it leaves the process. *)
Record send_event := mk_send {
  ev_chat_id : string;
  ev_text : string;
  ev_parse_mode : string;
  ev_disable_notification : bool
}.

(** TELEGRAM_RATE_LIMIT_DELAY, in milliseconds. *)
Definition TELEGRAM_RATE_LIMIT_DELAY_MS : Z := 1000.

(** [response.raise_for_status()] raises for 4xx and 5xx. *)
Definition is_error_status (status_code : Z) : bool :=
  (400 <=? status_code) && (status_code <? 600).

(** An answer of the Bot API that [_send_message] counts as a delivery. *)
Definition delivered (o : api_outcome) : bool :=
  match o with
  | Responded status_code (Some true) => negb (is_error_status status_code)
  | _ => false
  end.

(** The destination of a district, when the name table and the channel
    table both have a non-empty entry for it. *)
Definition resolve_channel (config : TelegramConfig) (district_kor : string)
  : option string :=
  match dict_get DISTRICT_NAMES_KOR_TO_ENG district_kor with
  | None => None
  | Some district_eng =>
      if decide (district_eng = "") then None
      else match district_channels config !! district_eng with
           | Some channel_id => if decide (channel_id = "") then None else Some channel_id
           | None => None
           end
  end.

Section Service.

(** The outside world: the Bot API, the process clock and [time.sleep]. *)
Variable World : Type.
Variable requests_get : World → send_event → api_outcome * World.
Variable clock_us : World → Z.
Variable sleep_ms : Z → World → World.

(** The world together with the trace of the calls made so far. *)
Definition state : Type := World * list send_event.

Definition _send_message (chat_id text : string) (disable_notification : bool)
    (st : state) : bool * state :=
  let ev := mk_send chat_id text "HTML" disable_notification in
  let '(outcome, w) := requests_get (fst st) ev in
  let trace := snd st ++ [ev] in
  match outcome with
  | RequestFailed => (false, (w, trace))
  | Responded _ None => (false, (w, trace))
  | Responded status_code (Some ok) =>
      if negb ok then (false, (w, trace))
      else if is_error_status status_code then (false, (w, trace))
      else (true, (sleep_ms TELEGRAM_RATE_LIMIT_DELAY_MS w, trace))
  end.

Definition _is_night_time (st : state) : bool :=
  is_night (now_kst_time (clock_us (fst st))).

(** The message text of a funeral notification. *)
Definition funeral_message (district_kor url : string) (update_count : Z)
    (analyzed_data : list (string * string)) : string :=
  let title := format_funeral_title district_kor update_count in
  let escaped_data := map (λ kv, (fst kv, html_escape (snd kv))) analyzed_data in
  let info_text := format_funeral_info escaped_data in
  let url_text := funeral_link (replace "&>&" "&" url) in
  title +:+ NL +:+ info_text +:+ url_text.

Definition send_funeral_notification (config : TelegramConfig)
    (district_kor url : string) (update_count : Z)
    (analyzed_data : list (string * string)) (st : state) : bool * state :=
  match dict_get DISTRICT_NAMES_KOR_TO_ENG district_kor with
  | None => (false, st)
  | Some district_eng =>
      if decide (district_eng = "") then (false, st)
      else
        match district_channels config !! district_eng with
        | None => (false, st)
        | Some channel_id =>
            if decide (channel_id = "") then (false, st)
            else
              let message :=
                funeral_message district_kor url update_count analyzed_data in
              let is_night := _is_night_time st in
              let '(success1, st1) := _send_message channel_id message is_night st in
              let '(success2, st2) :=
                _send_message (funeral_main config) message is_night st1 in
              (success1 && success2, st2)
        end
  end.

(** *** Vocabulary of the statements about the service *)

(** The world after one send: the API has answered and, after a delivery,
    the rate-limit pause has passed. *)
Definition world_after_send (w : World) (ev : send_event) : World :=
  let '(o, w') := requests_get w ev in
  if delivered o then sleep_ms TELEGRAM_RATE_LIMIT_DELAY_MS w' else w'.

End Service.

(** *** A Bot API used to exercise the service: the chat "down" cannot be
    reached, every other chat accepts the message; the clock stands at the
    given reading. *)
Module Mock.

Definition requests_get (w : unit) (ev : send_event) : api_outcome * unit :=
  if decide (ev_chat_id ev = "down") then (RequestFailed, w)
  else (Responded 200 (Some true), w).

Definition sleep_ms (ms : Z) (w : unit) : unit := w.

Definition config (main : string) : TelegramConfig :=
  {| bot_token := "token"; error_channel := "errors"; general_channel := "general";
     funeral_main := main; district_channels := DISTRICT_CHANNEL_IDS |}.

Definition send_funeral_notification (posix_us : Z) (main district_kor : string)
  : bool * state unit :=
  Telegram.send_funeral_notification unit requests_get (λ _, posix_us) sleep_ms
    (config main) district_kor "http://gu/a" 0 [("이름", "홍길동")] ((), []).

End Mock.

End Telegram.

(** ** core/http_client.py *)

Module HttpClient.
Import Py Config.

(** Values passed as keyword arguments. *)
Inductive kwval : Type :=
| KNone
| KBool (b : bool)
| KInt (z : Z)
| KStr (s : string)
| KDict (d : list (string * string)).

(** Python truthiness on these values. *)
Definition truthy (v : kwval) : bool :=
  match v with
  | KNone => false
  | KBool b => b
  | KInt z => negb (z =? 0)
  | KStr s => negb (bool_decide (s = ""))
  | KDict d => negb (bool_decide (d = []))
  end.

Inductive http_method : Type := GET | POST.

(** One call of [session.get] / [session.post], with the keyword arguments
    it carries. *)
Record request := mk_request {
  req_method : http_method;
  req_url : string;
  req_kwargs : gmap string kwval
}.

Record response := mk_response {
  status_code : Z;
  content : string;
  encoding : string
}.

(** [Retry(total=3, backoff_factor=0.5, status_forcelist=[500, 502, 504])];
    the factor is kept in milliseconds.  The retries themselves happen inside
    the mounted adapter, that is inside one session call. *)
Record Retry := mk_retry {
  total : Z;
  backoff_factor_ms : Z;
  status_forcelist : list Z
}.

Definition session_retry : Retry := mk_retry 3 500 [500; 502; 504].

Definition BLOCKED_STATUS_CODES : list Z := [403; 429; 503].

Definition DEFAULT_TIMEOUT : Z := 30.
Definition TOR_TIMEOUT : Z := 60.

(** [kwargs.setdefault(key, value)] *)
Definition setdefault (key : string) (value : kwval) (kwargs : gmap string kwval)
  : gmap string kwval :=
  match kwargs !! key with
  | Some _ => kwargs
  | None => <[key := value]> kwargs
  end.

(** A named parameter with a default, bound from the keyword arguments of a
    call; what is left over is the callee's [**kwargs]. *)
Definition param (call : gmap string kwval) (name : string) (dflt : kwval) : kwval :=
  default dflt (call !! name).

Section Client.

(** The network as the session sees it, [TorConfig], and the decoding of a
    body under a given encoding ([response.text]). *)
Variable World : Type.
Variable session_request : World → request → result exn response * World.
Variable tor_config : TorConfig.
Variable decode : string → string → string.

Definition state : Type := World * list request.

Definition M (A : Type) : Type := prog state exn A.

(** [self.session.get(url, **kwargs)] / [self.session.post(...)]: the call is
    appended to the trace and answered by the network. *)
Definition session_call (m : http_method) (url : string)
    (kwargs : gmap string kwval) : M response :=
  λ st,
    let req := mk_request m url kwargs in
    let '(r, w) := session_request (fst st) req in
    (r, (w, snd st ++ [req])).

Definition raise_for_status (r : response) : M unit :=
  if (400 <=? status_code r) && (status_code r <? 600)
  then raise (HTTPError (Some (status_code r)))
  else ret ().

Definition _is_blocked (response_status : option Z) : bool :=
  match response_status with
  | Some code => bool_decide (code ∈ BLOCKED_STATUS_CODES)
  | None => false
  end.

Definition _get_with_tor (url : string) (kwargs : gmap string kwval) : M response :=
  let kwargs := <["proxies" := KDict (proxies tor_config)]> kwargs in
  let kwargs := setdefault "timeout" (KInt TOR_TIMEOUT) kwargs in
  let* response := session_call GET url kwargs in
  raise_for_status response;;
  ret response.

Definition _post_with_tor (url : string) (data params : kwval)
    (kwargs : gmap string kwval) : M response :=
  let kwargs := <["proxies" := KDict (proxies tor_config)]> kwargs in
  let kwargs := setdefault "timeout" (KInt TOR_TIMEOUT) kwargs in
  let* response :=
    session_call POST url (<["data" := data]> (<["params" := params]> kwargs)) in
  raise_for_status response;;
  ret response.

(** [get(url, force_tor=False, timeout=30, **kwargs)]; [call] holds every
    keyword argument of the call. *)
Definition get (url : string) (call : gmap string kwval) : M response :=
  let force_tor := param call "force_tor" (KBool false) in
  let timeout := param call "timeout" (KInt DEFAULT_TIMEOUT) in
  let kwargs := delete "force_tor" (delete "timeout" call) in
  let kwargs := setdefault "verify" (KBool false) kwargs in
  let kwargs := setdefault "timeout" timeout kwargs in
  if truthy force_tor then _get_with_tor url kwargs
  else
    try_except
      (let* response := session_call GET url kwargs in
       raise_for_status response;;
       ret response)
      (λ e,
         match e with
         | HTTPError response_status =>
             if _is_blocked response_status && enabled tor_config
             then _get_with_tor url kwargs
             else raise e
         | ConnectionError =>
             if enabled tor_config then _get_with_tor url kwargs else raise e
         | _ => raise e
         end).

(** [post(url, data=None, params=None, force_tor=False, timeout=30, **kwargs)] *)
Definition post (url : string) (call : gmap string kwval) : M response :=
  let data := param call "data" KNone in
  let params := param call "params" KNone in
  let force_tor := param call "force_tor" (KBool false) in
  let timeout := param call "timeout" (KInt DEFAULT_TIMEOUT) in
  let kwargs :=
    delete "data" (delete "params" (delete "force_tor" (delete "timeout" call))) in
  let kwargs := setdefault "verify" (KBool false) kwargs in
  let kwargs := setdefault "timeout" timeout kwargs in
  if truthy force_tor then _post_with_tor url data params kwargs
  else
    try_except
      (let* response :=
         session_call POST url (<["data" := data]> (<["params" := params]> kwargs)) in
       raise_for_status response;;
       ret response)
      (λ e,
         match e with
         | HTTPError response_status =>
             if _is_blocked response_status && enabled tor_config
             then _post_with_tor url data params kwargs
             else raise e
         | ConnectionError =>
             if enabled tor_config
             then _post_with_tor url data params kwargs
             else raise e
         | _ => raise e
         end).

(** [response.encoding = encoding; return response.text] *)
Definition text_as (enc : string) (r : response) : string :=
  decode enc (content r).

Definition encoding_of (v : kwval) : string :=
  match v with KStr s => s | _ => "utf-8" end.

(** [get_text(url, encoding="utf-8", **kwargs)] *)
Definition get_text (url : string) (call : gmap string kwval) : M string :=
  let enc := param call "encoding" (KStr "utf-8") in
  let kwargs := delete "encoding" call in
  let* response := get url kwargs in
  ret (text_as (encoding_of enc) response).

(** [post_text(url, data=None, params=None, encoding="utf-8", **kwargs)] *)
Definition post_text (url : string) (call : gmap string kwval) : M string :=
  let params := param call "params" KNone in
  let enc := param call "encoding" (KStr "utf-8") in
  let kwargs := delete "data" (delete "params" (delete "encoding" call)) in
  let* response := get url (<["params" := params]> kwargs) in
  ret (text_as (encoding_of enc) response).

(** *** Vocabulary of the statements about the client *)

(** One session call followed by its status check, the block every path of
    [get] and [post] runs. *)
Definition request_once (m : http_method) (url : string)
    (kwargs : gmap string kwval) : M response :=
  let* response := session_call m url kwargs in
  raise_for_status response;;
  ret response.

(** The keyword arguments [get] ends up with after its two [setdefault]. *)
Definition get_kwargs (call : gmap string kwval) : gmap string kwval :=
  setdefault "timeout" (param call "timeout" (KInt DEFAULT_TIMEOUT))
    (setdefault "verify" (KBool false)
       (delete "force_tor" (delete "timeout" call))).

(** The same for [post], and the [data]/[params] it passes by name. *)
Definition post_kwargs (call : gmap string kwval) : gmap string kwval :=
  setdefault "timeout" (param call "timeout" (KInt DEFAULT_TIMEOUT))
    (setdefault "verify" (KBool false)
       (delete "data" (delete "params" (delete "force_tor" (delete "timeout" call))))).

Definition with_body (call kwargs : gmap string kwval) : gmap string kwval :=
  <["data" := param call "data" KNone]>
    (<["params" := param call "params" KNone]> kwargs).

(** What [_get_with_tor] / [_post_with_tor] do to the keyword arguments. *)
Definition tor_kwargs (kwargs : gmap string kwval) : gmap string kwval :=
  setdefault "timeout" (KInt TOR_TIMEOUT)
    (<["proxies" := KDict (proxies tor_config)]> kwargs).

(** The errors of the direct attempt after which the proxy is tried. *)
Definition falls_back (e : exn) : bool :=
  match e with
  | HTTPError response_status => _is_blocked response_status && enabled tor_config
  | ConnectionError => enabled tor_config
  | _ => false
  end.

(** The requests a computation adds to the trace. *)
Definition issued {A : Type} (c : M A) (st : state) : list request :=
  drop (length (snd st)) (snd (snd (c st))).

End Client.

(** *** A network used to exercise the client: direct requests are answered
    403, requests through the proxy are answered 200. *)
Module Mock.

Definition session_request (w : unit) (req : request) : result exn response * unit :=
  match req_kwargs req !! "proxies" with
  | Some _ => (Ok (mk_response 200 "body" "utf-8"), w)
  | None => (Ok (mk_response 403 "" "utf-8"), w)
  end.

Definition tor_config : TorConfig :=
  {| enabled := true; host := "127.0.0.1"; port := 9050 |}.

Definition get (url : string) (call : gmap string kwval) : M unit response :=
  HttpClient.get unit session_request tor_config url call.

End Mock.

End HttpClient.

(** ** scrapers/base.py: BaseScraper *)

Module Scraper.
Import Py.

(** A parsed document as BeautifulSoup exposes it to the scraper: text
    nodes and tags with attributes and children. *)
Inductive node : Type :=
| Text (s : string)
| Element (name : string) (attrs : list (string * string)) (children : list node).

(** All tags and strings below a node, in document order. *)
Fixpoint descendants (n : node) : list node :=
  match n with
  | Text _ => []
  | Element _ _ children => concat (map (λ c, c :: descendants c) children)
  end.

(** [tag.get(attr)] *)
Definition attr_get (n : node) (attr : string) : option string :=
  match n with
  | Text _ => None
  | Element _ attrs _ => dict_get attrs attr
  end.

(** [container.find_all("a", href=True)] *)
Definition is_link (n : node) : bool :=
  match n with
  | Element name _ _ => bool_decide (name = "a") && bool_decide (is_Some (attr_get n "href"))
  | Text _ => false
  end.

Definition find_all_links (container : node) : list node :=
  filter (λ n, is_link n = true) (descendants container).

(** [tag.get_text()] *)
Fixpoint get_text (n : node) : string :=
  match n with
  | Text s => s
  | Element _ _ children => join "" (map get_text children)
  end.

(** [re.search(r'startPage=([0-9]{1,5})', s)]: the leftmost place where the
    literal is followed by a digit, capturing up to five digits. *)
Definition is_digit (c : Ascii.ascii) : bool :=
  let n := Ascii.nat_of_ascii c in (48 <=? n)%nat && (n <=? 57)%nat.

Fixpoint take_digits (n : nat) (s : string) : string :=
  match n, s with
  | S k, String c s' => if is_digit c then String c (take_digits k s') else EmptyString
  | _, _ => EmptyString
  end.

Fixpoint drop_chars (n : nat) (s : string) : string :=
  match n, s with
  | S k, String _ s' => drop_chars k s'
  | _, _ => s
  end.

Definition PAGE_PARAM_LITERAL : string := "startPage=".

Definition match_page_param_here (s : string) : option string :=
  if is_prefix PAGE_PARAM_LITERAL s then
    match take_digits 5 (drop_chars (String.length PAGE_PARAM_LITERAL) s) with
    | EmptyString => None
    | digits => Some digits
    end
  else None.

Fixpoint search_page_param (s : string) : option string :=
  match match_page_param_here s with
  | Some digits => Some digits
  | None =>
      match s with
      | EmptyString => None
      | String _ s' => search_page_param s'
      end
  end.

(** [int(digits)] for a run of ASCII digits. *)
Fixpoint int_of_digits (acc : Z) (digits : string) : Z :=
  match digits with
  | EmptyString => acc
  | String c rest =>
      int_of_digits (10 * acc + (Z.of_nat (Ascii.nat_of_ascii c) - 48)) rest
  end.

(** The abstract properties every district scraper supplies.  The list URL
    template is kept as the function [page ↦ template.format(page=page)]. *)
Class Site := {
  district : string;
  base_url : string;
  list_url_template : Z → string;
  list_selector : string;
  content_selector : string;
  pagination_selector : string;
  br_tag : string;
  force_tor : bool
}.

(** What a run leaves behind: the calls of [client.get], tagged with the
    statement that made them, and the logger's warnings and errors. *)
Inductive purpose : Type :=
| Discover
| Listing (page : Z)
| Detail.

Inductive event : Type :=
| Fetch (why : purpose) (url : string) (via_tor : bool)
| LogWarning (msg : string)
| LogError (url : string) (e : exn).

(** One scraped posting, [{"url": url, "content": content}]. *)
Record item := mk_item {
  item_url : string;
  item_content : string
}.

Section BaseScraper.

Context {site : Site}.

(** The HTTP client handed to the scraper, the decoding of a body, and the
    parts of the libraries that are not modelled: the HTML parser, the CSS
    selector engine and [str.strip]. *)
Variable World : Type.
Variable client_get : string → bool → World → result exn HttpClient.response * World.
Variable decode : string → string → string.
Variable BeautifulSoup : string → result exn node.
Variable select_one : node → string → option node.
Variable strip : string → string.

Definition state : Type := World * list event.

Definition M (A : Type) : Type := prog state exn A.

Definition log (e : event) : M unit := λ st, (Ok (), (fst st, snd st ++ [e])).

(** [response = self.client.get(url, force_tor=self.force_tor);
     response.encoding = "utf-8"; response.text] *)
Definition client_get_text (why : purpose) (url : string) : M string :=
  λ st,
    let '(r, w) := client_get url force_tor (fst st) in
    let st' := (w, snd st ++ [Fetch why url force_tor]) in
    match r with
    | Ok response => (Ok (decode "utf-8" (HttpClient.content response)), st')
    | Raise e => (Raise e, st')
    end.

Definition soup (html : string) : M node := lift (BeautifulSoup html).

Definition get_list_url (page : Z) : string := list_url_template page.

Definition parse_urls (html : string) : M (list string) :=
  let* root := soup html in
  match select_one root list_selector with
  | None =>
      log (LogWarning (district +:+ ": 목록 컨테이너를 찾을 수 없음"));;
      ret []
  | Some container =>
      let links := find_all_links container in
      ret (map (λ link, base_url +:+ default "" (attr_get link "href")) links)
  end.

Definition parse_content (html : string) : M string :=
  let html := replace br_tag NL html in
  let* root := soup html in
  match select_one root content_selector with
  | None =>
      log (LogWarning (district +:+ ": 본문 컨테이너를 찾을 수 없음"));;
      ret ""
  | Some container => ret (strip (get_text container))
  end.

Definition get_last_page_num (html : string) : result exn Z :=
  match BeautifulSoup html with
  | Raise e => Raise e
  | Ok root =>
      match select_one root pagination_selector with
      | None => Ok 1
      | Some pagination =>
          match last (find_all_links pagination) with
          | None => Ok 1
          | Some last_link =>
              let last_href := default "" (attr_get last_link "href") in
              match search_page_param last_href with
              | Some digits => Ok (int_of_digits 0 digits)
              | None => Ok 1
              end
          end
      end
  end.

Definition fetch_urls (page : Z) : M (list string) :=
  let url := get_list_url page in
  let* html := client_get_text (Listing page) url in
  parse_urls html.

Definition fetch_content (url : string) : M string :=
  let* html := client_get_text Detail url in
  parse_content html.

(** The inner loop of [scrape]: [for url in urls: try ... except Exception]. *)
Fixpoint scrape_urls (urls : list string) (results : list item) : M (list item) :=
  match urls with
  | [] => ret results
  | url :: rest =>
      let* results' :=
        try_except
          (let* content := fetch_content url in
           ret (results ++ [mk_item url content]))
          (λ e, log (LogError url e);; ret results) in
      scrape_urls rest results'
  end.

(** The outer loop: [for page in range(1, last_page + 1)]. *)
Fixpoint scrape_pages (pages : list Z) (results : list item) : M (list item) :=
  match pages with
  | [] => ret results
  | page :: rest =>
      let* urls := fetch_urls page in
      let* results' := scrape_urls urls results in
      scrape_pages rest results'
  end.

(** [range(1, stop)] *)
Definition range_from_1 (stop : Z) : list Z := seqZ 1 (stop - 1).

Definition scrape (max_page : Z) : M (list item) :=
  let first_url := get_list_url 1 in
  let* html := client_get_text Discover first_url in
  let* last_page := lift (get_last_page_num html) in
  let last_page := if max_page <? last_page then max_page else last_page in
  scrape_pages (range_from_1 (last_page + 1)) [].

(** *** Vocabulary of the statements about a run *)

(** [c] started in [st] comes to [r], leaves the world [w'] and adds [evs]
    to the trace. *)
Definition runs {A : Type} (c : M A) (st : state) (r : result exn A)
    (w' : World) (evs : list event) : Prop :=
  c st = (r, (w', snd st ++ evs)).

(** The text of a response as the scraper reads it. *)
Definition text (response : HttpClient.response) : string :=
  decode "utf-8" (HttpClient.content response).

(** [href] of every link of a container, prefixed as [parse_urls] does. *)
Definition link_urls (container : node) : list string :=
  map (λ link, base_url +:+ default "" (attr_get link "href"))
      (find_all_links container).

End BaseScraper.

(** The listing pages fetched by [fetch_urls], the detail urls fetched, the
    urls logged as failed, and all fetches, each in the order of the trace. *)
Definition listing_pages (evs : list event) : list Z :=
  omap (λ e, match e with Fetch (Listing page) _ _ => Some page | _ => None end) evs.

Definition detail_urls (evs : list event) : list string :=
  omap (λ e, match e with Fetch Detail url _ => Some url | _ => None end) evs.

Definition error_urls (evs : list event) : list string :=
  omap (λ e, match e with LogError url _ => Some url | _ => None end) evs.

Definition fetches (evs : list event) : list (purpose * string) :=
  omap (λ e, match e with Fetch why url _ => Some (why, url) | _ => None end) evs.

Definition is_warning (e : event) : Prop :=
  match e with LogWarning _ => True | _ => False end.

(** *** A small site used to exercise the scraper

    The network is a table from urls to bodies, a body is the name of its
    parsed document, and a selector picks the first tag of that name. *)
Module Mock.

Definition listing (pagination_href : string) (hrefs : list string) : node :=
  Element "html" []
    [Element "ul" [] (map (λ h, Element "a" [("href", h)] [Text "notice"]) hrefs);
     Element "nav" []
       [Element "a" [("href", "?startPage=1")] [Text "1"];
        Element "a" [("href", pagination_href)] [Text "last"]]].

Definition detail (body : string) : node :=
  Element "html" [] [Element "article" [] [Text body]].

Definition documents : list (string * node) :=
  [("list-1", listing "?startPage=3" ["/a"; "/b"]);
   ("list-2", listing "?startPage=3" ["/c"]);
   ("list-3", listing "?startPage=3" ["/d"]);
   ("doc-a", detail "A"); ("doc-b", detail "B");
   ("doc-c", detail "C"); ("doc-d", detail "D")].

Definition BeautifulSoup (html : string) : result exn node :=
  match dict_get documents html with
  | Some root => Ok root
  | None => Raise ParserRejectedMarkup
  end.

Definition has_name (name : string) (n : node) : bool :=
  match n with
  | Element name' _ _ => bool_decide (name' = name)
  | Text _ => false
  end.

Definition select_one (root : node) (selector : string) : option node :=
  head (filter (λ n, has_name selector n = true) (descendants root)).

#[local] Instance site : Site := {|
  district := "북구";
  base_url := "http://gu";
  list_url_template := λ page, "http://gu/list?startPage=" +:+ pretty page;
  list_selector := "ul";
  content_selector := "article";
  pagination_selector := "nav";
  br_tag := "<br/>";
  force_tor := false
|}.

Definition served (body : string) : HttpClient.response :=
  HttpClient.mk_response 200 body "utf-8".

(** Every page of the site answers. *)
Definition web : list (string * string) :=
  [("http://gu/list?startPage=1", "list-1");
   ("http://gu/list?startPage=2", "list-2");
   ("http://gu/list?startPage=3", "list-3");
   ("http://gu/a", "doc-a"); ("http://gu/b", "doc-b");
   ("http://gu/c", "doc-c"); ("http://gu/d", "doc-d")].

(** The same site while the second listing page and one posting cannot
    be reached. *)
Definition web_page2_down : list (string * string) :=
  [("http://gu/list?startPage=1", "list-1");
   ("http://gu/list?startPage=3", "list-3");
   ("http://gu/a", "doc-a");
   ("http://gu/c", "doc-c"); ("http://gu/d", "doc-d")].

Definition client_get (table : list (string * string)) (url : string)
    (via_tor : bool) (w : unit) : result exn HttpClient.response * unit :=
  match dict_get table url with
  | Some body => (Ok (served body), w)
  | None => (Raise ConnectionError, w)
  end.

Definition decode (enc body : string) : string := body.

Definition strip (s : string) : string := s.

Definition scrape (table : list (string * string)) (max_page : Z)
  : M unit (list item) :=
  Scraper.scrape unit (client_get table) decode BeautifulSoup select_one strip max_page.

Definition scrape_urls (table : list (string * string)) (urls : list string)
  : M unit (list item) :=
  Scraper.scrape_urls unit (client_get table) decode BeautifulSoup select_one strip urls [].

End Mock.

End Scraper.

(** ** services/pocketbase.py: the record store behind the migration *)

Module Store.

Record RawRecord := mk_raw {
  raw_content : string;
  raw_content_hash : string;
  raw_district : string;
  raw_url : string;
  raw_update_count : Z
}.

Record AnalyzedRecord := mk_analyzed {
  an_raw : string;
  an_content_hash : string;
  an_district : string;
  an_url : string;
  an_update_count : Z;
  an_fields : list (string * string)
}.

Record Db := mk_db {
  funeral_raw : list RawRecord;
  funeral_analyzed : list AnalyzedRecord;
  funeral_sent : list string
}.

Section Hashed.

(** The deterministic digest of a posting's text. *)
Variable content_hash : string → string.

(** Modelled from the spec: [PocketbaseClient.raw_exists] (services/pocketbase.py
    is not part of the sources); an existence check keyed by content hash and
    district. *)
Definition raw_exists (db : Db) (content district : string) : bool :=
  existsb
    (λ r, bool_decide (raw_content_hash r = content_hash content)
          && bool_decide (raw_district r = district))
    (funeral_raw db).

(** Modelled from the spec: [PocketbaseClient.add_raw], the insert of a
    [funeral_raw] record (content, content_hash, district, url, update_count);
    it returns the stored record. *)
Definition add_raw (db : Db) (district url content : string) (update_count : Z)
  : option RawRecord * Db :=
  let r := mk_raw content (content_hash content) district url update_count in
  (Some r, mk_db (funeral_raw db ++ [r]) (funeral_analyzed db) (funeral_sent db)).

(** Modelled from the spec: [PocketbaseClient.add_analyzed], the insert of a
    [funeral_analyzed] record. *)
Definition add_analyzed (db : Db) (r : AnalyzedRecord) : option AnalyzedRecord * Db :=
  (Some r, mk_db (funeral_raw db) (funeral_analyzed db ++ [r]) (funeral_sent db)).

(** Modelled from the spec: [PocketbaseClient.get_analyzed_hashes], the
    hash-listing query of [funeral_analyzed]. *)
Definition get_analyzed_hashes (db : Db) : list string :=
  map an_content_hash (funeral_analyzed db).

(** Modelled from the spec: [PocketbaseClient.get_sent_hashes], the
    hash-listing query of [funeral_sent]. *)
Definition get_sent_hashes (db : Db) : list string := funeral_sent db.

(** Modelled from the spec: [PocketbaseClient.mark_as_sent], the insert of a
    [funeral_sent] record {content_hash}. *)
Definition mark_as_sent (db : Db) (h : string) : bool * Db :=
  (true, mk_db (funeral_raw db) (funeral_analyzed db) (funeral_sent db ++ [h])).

(** Modelled from the spec: isAlreadyAnalyzed(contentHash), the existence
    check of the analysis stage, keyed by content hash alone. *)
Definition is_already_analyzed (db : Db) (h : string) : bool :=
  bool_decide (h ∈ get_analyzed_hashes db).

(** Modelled from the spec: isAlreadySent(contentHash), the existence check
    of the notification stage, keyed by content hash alone. *)
Definition is_already_sent (db : Db) (h : string) : bool :=
  bool_decide (h ∈ get_sent_hashes db).

(** Modelled from the spec: the check-then-write of the analysis stage (the
    pipeline is not part of the sources); analysis is skipped for a hash that
    is already analyzed. *)
Definition record_analyzed (db : Db) (r : AnalyzedRecord) : Db :=
  if is_already_analyzed db (an_content_hash r) then db
  else snd (add_analyzed db r).

(** Modelled from the spec: the check-then-write of the notification stage;
    a hash that is already marked sent is not marked again. *)
Definition record_sent (db : Db) (h : string) : Db :=
  if is_already_sent db h then db else snd (mark_as_sent db h).

End Hashed.

(** *** Vocabulary of the statements about the store *)

(** What identifies a raw record for the duplicate check. *)
Definition raw_key (r : RawRecord) : string * string :=
  (raw_content_hash r, raw_district r).

Definition raw_keys (db : Db) : list (string * string) :=
  map raw_key (funeral_raw db).

End Store.

(** ** migration/json_to_pocketbase.py *)

Module Migration.
Import Store.

(** An entry of DB_RAW.json; a key that is missing reads as its default
    through [item.get]. *)
Record raw_item := mk_raw_item {
  j_url : option string;
  j_content : option string;
  j_updated : option Z
}.

Section Migrate.

Variable content_hash : string → string.

(** The body of the inner loop of [migrate_raw_data], for one item. *)
Definition migrate_raw_item (district : string) (it : raw_item) (acc : Z * Db)
  : Z * Db :=
  let '(count, db) := acc in
  let url := default "" (j_url it) in
  let content := default "" (j_content it) in
  let updated := default 0 (j_updated it) in
  if raw_exists content_hash db content district then (count, db)
  else
    match add_raw content_hash db district url content updated with
    | (Some _, db') => (count + 1, db')
    | (None, db') => (count, db')
    end.

(** [for district, items in data.items(): for item in items: ...] *)
Definition migrate_raw_district (acc : Z * Db) (entry : string * list raw_item)
  : Z * Db :=
  fold_left (λ acc it, migrate_raw_item (fst entry) it acc) (snd entry) acc.

Definition migrate_raw_data (data : list (string * list raw_item)) (db : Db)
  : Z * Db :=
  match data with
  | [] => (0, db)
  | _ => fold_left migrate_raw_district data (0, db)
  end.

(** [migrate_sent_data] on [hashes = data.get("data", [])]: the hashes not
    yet in the store are marked one after the other. *)
Definition mark_all (to_migrate : list string) (acc : Z * Db) : Z * Db :=
  fold_left
    (λ acc h,
       let '(count, db) := acc in
       let '(result, db') := mark_as_sent db h in
       if result then (count + 1, db') else (count, db'))
    to_migrate acc.

Definition migrate_sent_data (hashes : list string) (db : Db) : Z * Db :=
  let existing_sent : gset string := list_to_set (get_sent_hashes db) in
  let to_migrate := filter (λ h, h ∉ existing_sent) hashes in
  mark_all to_migrate (0, db).

End Migrate.

End Migration.

(** ** More small worlds for the client, and words for its statements *)

Module Worlds.
Import Py HttpClient.

(** A server that answers every request with the same status. *)
Definition always (code : Z) (w : unit) (req : request) : result exn response * unit :=
  (Ok (mk_response code "body" "utf-8"), w).

Definition tor_on : Config.TorConfig :=
  {| Config.enabled := true; Config.host := "127.0.0.1"; Config.port := 9050 |}.

(** The statuses for which [raise_for_status] raises. *)
Definition is_error (r : response) : bool :=
  (400 <=? status_code r) && (status_code r <? 600).

End Worlds.

(** ** Words for the statements about the scraper, and a bare site *)

Module ScraperWords.
Import Py Scraper.

(** Every character is an ASCII digit. *)
Fixpoint all_digits (s : string) : bool :=
  match s with
  | EmptyString => true
  | String c s' => is_digit c && all_digits s'
  end.

(** A parser for which every page is plain text: no container is ever
    found in what it returns. *)
Definition plain_soup (html : string) : result exn node :=
  Ok (Element "html" [] [Text html]).

Definition scrape_urls_plain (table : list (string * string)) (urls : list string)
  : M unit (list item) :=
  Scraper.scrape_urls (site := Mock.site) unit (Mock.client_get table) Mock.decode
    plain_soup Mock.select_one Mock.strip urls [].

Definition get_last_page_num (html : string) : result exn Z :=
  Scraper.get_last_page_num (site := Mock.site) Mock.BeautifulSoup Mock.select_one html.

Definition parse_urls (html : string) : M unit (list string) :=
  Scraper.parse_urls (site := Mock.site) unit Mock.BeautifulSoup Mock.select_one html.

End ScraperWords.

(** ** services/gpt_analyzer.py: from the model's reply to the normalized
    dict *)

Module Analyze.
Import Py GptAnalyzer.

(** [d[key] = value] on a dictionary kept in insertion order: a key that is
    already there keeps its place and takes the new value. *)
Fixpoint dict_set {V : Type} (d : list (string * V)) (key : string) (value : V)
  : list (string * V) :=
  match d with
  | [] => [(key, value)]
  | (k, v) :: rest =>
      if decide (k = key) then (k, value) :: rest
      else (k, v) :: dict_set rest key value
  end.

(** [key.replace(" ", "")] *)
Definition strip_spaces (key : string) : string := replace " " "" key.

(** The key normalization of [analyze]:
    [for key, value in result.items(): normalized[key.replace(" ", "")] = value] *)
Definition normalize_keys (result : list (string * json)) : list (string * json) :=
  fold_left (λ normalized kv, dict_set normalized (strip_spaces (fst kv)) (snd kv))
            result [].

(** [content.replace(",", ".")], the text put into the prompt. *)
Definition prompt_text (content : string) : string := replace "," "." content.

Definition PROMPT_HEAD : string :=
  "아래의 <공영장례 정보>에서 [이름, 생년월일, 거주지, 사망일시, 사망장소, 장례일정, 장례장소, 발인일시, 화장일시]을 JSON 형태로 추출해줘. 단, 그외의 사항은 [그 외의 사항]으로 분류해주면 돼.(없는 값은 억지로 찾지마. 그러면 혼난다.)"
  +:+ NL +:+ "<공영장례 정보>" +:+ NL.

(** [PROMPT_TEMPLATE.format(content=content.replace(",", "."))] *)
Definition prompt (content : string) : string := PROMPT_HEAD +:+ prompt_text content.

(** The exceptions [analyze] can end with. *)
Inductive analyze_error : Type :=
| RequestError
| KeyError
| IndexError
| TypeError
| JSONDecodeError
| AttributeError.

(** [v[key]] for a string key. *)
Definition subscript (v : json) (key : string) : result analyze_error json :=
  match v with
  | JDict items =>
      match dict_get items key with
      | Some x => Ok x
      | None => Raise KeyError
      end
  | _ => Raise TypeError
  end.

(** The bytes of the first character of a UTF-8 text. *)
Definition first_char (s : string) : string :=
  match s with
  | EmptyString => EmptyString
  | String c rest =>
      let n := Ascii.nat_of_ascii c in
      let more := if (n <? 192)%nat then 0%nat
                  else if (n <? 224)%nat then 1%nat
                  else if (n <? 240)%nat then 2%nat else 3%nat in
      String c (String.substring 0 more rest)
  end.

(** [v[0]]; a dict decoded from JSON has no key 0. *)
Definition subscript_0 (v : json) : result analyze_error json :=
  match v with
  | JList (x :: _) => Ok x
  | JList [] => Raise IndexError
  | JDict _ => Raise KeyError
  | JStr EmptyString => Raise IndexError
  | JStr s => Ok (JStr (first_char s))
  | _ => Raise TypeError
  end.

Section Reply.

(** [json.loads] on a text. *)
Variable json_loads : string → option json.

(** What [analyze] does with the decoded body [data] of the API response:
    [data["choices"][0]["message"]["content"]], [json.loads] of it, and the
    key normalization over [result.items()]. *)
Definition analyze_reply (data : json) : result analyze_error (list (string * json)) :=
  match subscript data "choices" with
  | Raise e => Raise e
  | Ok choices =>
      match subscript_0 choices with
      | Raise e => Raise e
      | Ok choice =>
          match subscript choice "message" with
          | Raise e => Raise e
          | Ok message =>
              match subscript message "content" with
              | Raise e => Raise e
              | Ok (JStr result_text) =>
                  match json_loads result_text with
                  | None => Raise JSONDecodeError
                  | Some (JDict result) => Ok (normalize_keys result)
                  | Some _ => Raise AttributeError
                  end
              | Ok _ => Raise TypeError
              end
          end
      end
  end.

End Reply.

(** A cleaned mapping put back where the cleaner reads its input. *)
Definition as_content (cleaned : list (string * string)) : list (string * json) :=
  [("content", JDict (map (λ kv, (fst kv, JStr (snd kv))) cleaned))].

End Analyze.

(** ** Words for the statements about message texts *)

Module TextWords.

(** The character occurs in the text. *)
Fixpoint has_char (c : Ascii.ascii) (s : string) : bool :=
  match s with
  | EmptyString => false
  | String x s' => bool_decide (x = c) || has_char c s'
  end.

(** The characters [html.escape] replaces: & < > and the two quotes. *)
Definition MARKUP_CHARS : list Ascii.ascii :=
  map Ascii.ascii_of_nat [38; 60; 62; 34; 39]%nat.

(** The values of a cleaned mapping as [send_funeral_notification] escapes
    them. *)
Definition escaped (data : list (string * string)) : list (string * string) :=
  map (λ kv, (fst kv, Telegram.html_escape (snd kv))) data.

(** A configuration with the channel table of config.py. *)
Definition default_channels (config : Config.TelegramConfig) : Prop :=
  Config.district_channels config = Config.DISTRICT_CHANNEL_IDS.

End TextWords.

(** ** The shortening of long messages (services/telegram.py,
    utils/logger.py)

    [len] and slices count characters, so a message is the list of its
    characters (code points). *)

Module Shorten.

(** The characters of the marker put in place of the middle. *)
Definition ELLIPSIS : list N := [10; 10; 40; 46; 46; 46; 41; 10; 10]%N.

(** [s[-n:]] for a positive [n] *)
Definition last_chars (n : nat) (s : list N) : list N := drop (length s - n) s.

(** [send_error_notification] and [_send_telegram_error]:
    [if len(m) > 1000: m = m[:500] + marker + m[-500:]] *)
Definition shorten_error_message (error_message : list N) : list N :=
  if (1000 <? length error_message)%nat
  then take 500 error_message ++ ELLIPSIS ++ last_chars 500 error_message
  else error_message.

(** [html.escape] on code points: & < > and the two quotes are replaced by
    their entities, everything else stays. *)
Definition escape_code_point (c : N) : list N :=
  match c with
  | 38 => [38; 97; 109; 112; 59]
  | 60 => [38; 108; 116; 59]
  | 62 => [38; 103; 116; 59]
  | 34 => [38; 113; 117; 111; 116; 59]
  | 39 => [38; 35; 120; 50; 55; 59]
  | _ => [c]
  end%N.

Definition escape_text (s : list N) : list N := concat (map escape_code_point s).

(** What both functions put into the notification for the error message:
    [html.escape] of the shortened message. *)
Definition error_text (error_message : list N) : list N :=
  escape_text (shorten_error_message error_message).

(** [TelegramHandler.emit], on the escaped record:
    [if len(msg) > 4000: msg = msg[:2000] + marker + msg[-1500:]] *)
Definition shorten_log_message (msg : list N) : list N :=
  if (4000 <? length msg)%nat
  then take 2000 msg ++ ELLIPSIS ++ last_chars 1500 msg
  else msg.

(** The text [emit] sends: the shortened record between code tags. *)
Definition CODE_OPEN : list N := [60; 99; 111; 100; 101; 62]%N.
Definition CODE_CLOSE : list N := [60; 47; 99; 111; 100; 101; 62]%N.

Definition emit_text (escaped_msg : list N) : list N :=
  CODE_OPEN ++ shorten_log_message escaped_msg ++ CODE_CLOSE.

End Shorten.

(** ** scrapers/base.py: BlogStyleScraper *)

Module BlogStyle.
Import Py Scraper.

Section Blog.

Context {site : Site}.

(** As for the base scraper, and of BeautifulSoup also
    [link.find("span", content_class)]; [content_class] is a property of the
    scraper ("stxt" unless overridden). *)
Variable World : Type.
Variable client_get : string → bool → World → result exn HttpClient.response * World.
Variable decode : string → string → string.
Variable BeautifulSoup : string → result exn node.
Variable select_one : node → string → option node.
Variable strip : string → string.
Variable content_class : string.
Variable find_span : node → string → option node.

(** The loop body of [parse_list_items] for one link: the item, or nothing
    when the content is empty. *)
Definition list_item (link : node) : option item :=
  let url := base_url +:+ "/board/" +:+ default "" (attr_get link "href") in
  let content :=
    match find_span link content_class with
    | Some content_elem => strip (get_text content_elem)
    | None => ""
    end in
  if decide (content = "") then None else Some (mk_item url content).

Definition parse_list_items (html : string) : M World (list item) :=
  let* root := soup World BeautifulSoup html in
  match select_one root list_selector with
  | None =>
      log World (LogWarning (district +:+ ": 목록 컨테이너를 찾을 수 없음"));;
      ret []
  | Some container => ret (omap list_item (find_all_links container))
  end.

(** The loop of [scrape]: each listing page is fetched and its items are
    appended; there is no [try] around it. *)
Fixpoint scrape_pages (pages : list Z) (results : list item) : M World (list item) :=
  match pages with
  | [] => ret results
  | page :: rest =>
      let* html :=
        client_get_text World client_get decode (Listing page) (get_list_url page) in
      let* items := parse_list_items html in
      scrape_pages rest (results ++ items)
  end.

Definition scrape (max_page : Z) : M World (list item) :=
  let first_url := get_list_url 1 in
  let* html := client_get_text World client_get decode Discover first_url in
  let* last_page := lift (get_last_page_num BeautifulSoup select_one html) in
  let last_page := if max_page <? last_page then max_page else last_page in
  scrape_pages (range_from_1 (last_page + 1)) [].

End Blog.

(** *** A blog-style site: two postings on its only page, one of them
    without text. *)
Module Mock.

Definition posting (href text : string) : node :=
  Element "a" [("href", href)] [Element "span" [("class", "stxt")] [Text text]].

Definition documents : list (string * node) :=
  [("blog-1",
    Element "html" []
      [Element "ul" [] [posting "view?id=1" "first"; posting "view?id=2" ""]])].

Definition BeautifulSoup (html : string) : result exn node :=
  match dict_get documents html with
  | Some root => Ok root
  | None => Raise ParserRejectedMarkup
  end.

Definition find_span (link : node) (class : string) : option node :=
  head (filter (λ n, Scraper.Mock.has_name "span" n = true) (descendants link)).

Definition web : list (string * string) :=
  [("http://gu/list?startPage=1", "blog-1")].

Definition scrape (max_page : Z) : M unit (list item) :=
  BlogStyle.scrape (site := Scraper.Mock.site) unit (Scraper.Mock.client_get web)
    Scraper.Mock.decode BeautifulSoup Scraper.Mock.select_one Scraper.Mock.strip
    "stxt" find_span max_page.

End Mock.

End BlogStyle.

(** * Properties *)

(** ** The cleaner of analysis results *)

Module GptAnalyzerFacts.
Import Py GptAnalyzer.

Lemma TAGS_NoDup : NoDup TAGS.
Proof. refine (bool_decide_unpack _ _). vm_compute. exact I. Qed.

Lemma FAILED_not_empty : FAILED ∉ EMPTY_VALUES.
Proof. refine (bool_decide_unpack _ _). vm_compute. exact I. Qed.

Lemma contains_colon_prefixed (k rest : string) :
  contains ":" (k +:+ ":" +:+ rest) = true.
Proof.
  induction k as [|c k IH]; simpl.
  - reflexivity.
  - rewrite IH. apply orb_true_r.
Qed.

Lemma empty_value_has_no_colon (s : string) :
  s ∈ EMPTY_VALUES → contains ":" s = false.
Proof.
  unfold EMPTY_VALUES. rewrite !elem_of_cons, elem_of_nil.
  intros [-> | [-> | [-> | []]]]; reflexivity.
Qed.

Lemma append_assoc (a b c : string) : (a +:+ b) +:+ c = a +:+ (b +:+ c).
Proof.
  induction a as [|x a IH]; [reflexivity|].
  change (String x ((a +:+ b) +:+ c) = String x (a +:+ (b +:+ c))).
  by rewrite IH.
Qed.

(** A dict with at least one entry flattens to a text containing a colon. *)
Lemma join_lines_has_colon (sep k v : string) (more : list string) :
  contains ":" (join sep ((k +:+ ":" +:+ v) :: more)) = true.
Proof.
  destruct more as [|m more]; simpl join.
  - apply contains_colon_prefixed.
  - rewrite !append_assoc. apply contains_colon_prefixed.
Qed.

Lemma dict_get_tabulate {V : Type} (f : string → V) (keys : list string) (key : string) :
  key ∈ keys → dict_get (map (λ k, (k, f k)) keys) key = Some (f key).
Proof.
  induction keys as [|k keys IH]; intros Hin.
  - by apply elem_of_nil in Hin.
  - simpl. destruct (decide (k = key)) as [->|Hne]; [reflexivity|].
    apply IH. apply elem_of_cons in Hin as [->|Hin]; [done|exact Hin].
Qed.

(** The decimal text of a number starts with an ASCII character. *)
Lemma pretty_N_go_head (x : N) : ∀ s,
  (∃ c rest, s = String c rest ∧ (Ascii.nat_of_ascii c <? 128)%nat = true) →
  ∃ c rest, pretty_N_go x s = String c rest ∧ (Ascii.nat_of_ascii c <? 128)%nat = true.
Proof.
  induction (N.lt_wf_0 x) as [x _ IH]; intros s Hs.
  destruct (decide (x = 0%N)) as [->|Hx].
  - by rewrite pretty_N_go_0.
  - rewrite pretty_N_go_step by lia. apply IH; [apply N.div_lt; lia|].
    eexists _, _. split; [reflexivity|].
    generalize (x `mod` 10)%N. intros n. unfold pretty_N_char.
    repeat case_match; reflexivity.
Qed.

Lemma pretty_Z_head (z : Z) :
  ∃ c rest, pretty z = String c rest ∧ (Ascii.nat_of_ascii c <? 128)%nat = true.
Proof.
  destruct z as [|p|p].
  - eexists _, _. split; reflexivity.
  - change (pretty (Z.pos p)) with (pretty_N_go (N.pos p) "").
    rewrite pretty_N_go_step by lia. apply pretty_N_go_head.
    eexists _, _. split; [reflexivity|].
    generalize (N.pos p `mod` 10)%N. intros n. unfold pretty_N_char.
    repeat case_match; reflexivity.
  - eexists _, _. split; reflexivity.
Qed.

Lemma pretty_Z_not_empty_value (z : Z) : pretty z ∉ EMPTY_VALUES.
Proof.
  destruct (pretty_Z_head z) as (c & rest & -> & Hc).
  unfold EMPTY_VALUES. rewrite !elem_of_cons, elem_of_nil.
  intros [H|[H|[H|[]]]]; [|discriminate H|];
    injection H as -> _; vm_compute in Hc; discriminate Hc.
Qed.

Section CleanFacts.

Variable repr_str : string → string.

Local Abbreviation convert_value := (convert_value repr_str).
Local Abbreviation py_str := (py_str repr_str).
Local Abbreviation py_repr := (py_repr repr_str).
Local Abbreviation clean_tag := (clean_tag repr_str).

Lemma clean_tag_never_empty content tag : clean_tag content tag ∉ EMPTY_VALUES.
Proof.
  unfold clean_tag, str_in. cbv zeta. case_bool_decide as Hin.
  - apply FAILED_not_empty.
  - exact Hin.
Qed.

Lemma clean_tag_missing content tag :
  dict_get content tag = None → clean_tag content tag = FAILED.
Proof. intros H. unfold clean_tag. rewrite H. reflexivity. Qed.

Lemma clean_tag_null content tag :
  dict_get content tag = Some JNull → clean_tag content tag = FAILED.
Proof. intros H. unfold clean_tag. rewrite H. reflexivity. Qed.

Lemma clean_tag_empty_string content tag e :
  dict_get content tag = Some (JStr e) → e ∈ EMPTY_VALUES →
  clean_tag content tag = FAILED.
Proof.
  intros H He. unfold clean_tag, str_in. rewrite H. simpl.
  by rewrite bool_decide_eq_true_2.
Qed.

Lemma clean_tag_string content tag v :
  dict_get content tag = Some (JStr v) → v ∉ EMPTY_VALUES → clean_tag content tag = v.
Proof.
  intros H Hv. unfold clean_tag, str_in. rewrite H. simpl.
  by rewrite bool_decide_eq_false_2.
Qed.

Lemma clean_tag_int content tag z :
  dict_get content tag = Some (JInt z) → clean_tag content tag = pretty z.
Proof.
  intros H. unfold clean_tag, str_in. rewrite H. simpl.
  rewrite bool_decide_eq_false_2; [reflexivity|apply pretty_Z_not_empty_value].
Qed.

Lemma clean_tag_bool content tag (b : bool) :
  dict_get content tag = Some (JBool b) →
  clean_tag content tag = if b then "True" else "False".
Proof. intros H. unfold clean_tag. rewrite H. by destruct b. Qed.

Lemma clean_tag_float content tag shown :
  dict_get content tag = Some (JFloat shown) → shown ∉ EMPTY_VALUES →
  clean_tag content tag = shown.
Proof.
  intros H Hv. unfold clean_tag, str_in. rewrite H. simpl.
  by rewrite bool_decide_eq_false_2.
Qed.

Lemma clean_tag_dict content tag items :
  dict_get content tag = Some (JDict items) →
  clean_tag content tag =
    match items with
    | [] => FAILED
    | _ => join NL (map (λ kv, fst kv +:+ ":" +:+ convert_value (snd kv)) items)
    end.
Proof.
  intros H. unfold clean_tag, str_in. rewrite H. cbv zeta.
  destruct items as [|[k v] items]; [reflexivity|].
  rewrite bool_decide_eq_false_2; [reflexivity|].
  intros Hin. apply empty_value_has_no_colon in Hin.
  pose proof (join_lines_has_colon NL k (convert_value v)
                (map (λ kv, fst kv +:+ ":" +:+ convert_value (snd kv)) items)) as Hc.
  change (contains ":"
            (join NL ((k +:+ ":" +:+ convert_value v)
               :: map (λ kv, fst kv +:+ ":" +:+ convert_value (snd kv)) items))
          = false) in Hin.
  congruence.
Qed.

Lemma clean_tag_list content tag items :
  dict_get content tag = Some (JList items) →
  clean_tag content tag =
    let flat := join ", " (map py_str items) in
    if str_in flat EMPTY_VALUES then FAILED else flat.
Proof. intros H. unfold clean_tag. rewrite H. reflexivity. Qed.

Lemma clean_tag_fields content tag (fields : list (string * string)) :
  dict_get content tag = Some (JDict (map (λ kv, (fst kv, JStr (snd kv))) fields)) →
  clean_tag content tag =
    match fields with
    | [] => FAILED
    | _ => join NL (map (λ kv, fst kv +:+ ":" +:+ snd kv) fields)
    end.
Proof.
  intros H. rewrite (clean_tag_dict _ _ _ H).
  destruct fields as [|kv fields]; [reflexivity|].
  rewrite map_map. reflexivity.
Qed.

Lemma clean_tag_texts content tag (texts : list string) :
  dict_get content tag = Some (JList (map JStr texts)) →
  clean_tag content tag =
    if str_in (join ", " texts) EMPTY_VALUES then FAILED else join ", " texts.
Proof.
  intros H. rewrite (clean_tag_list _ _ _ H). cbv zeta.
  assert (Hmap : map py_str (map JStr texts) = texts).
  { clear H. induction texts as [|x texts IH]; [reflexivity|].
    simpl. by rewrite IH. }
  by rewrite Hmap.
Qed.

(** C1.  On every analysis result (a dictionary whose "content" is the dict
    decoded from the model's reply, or is missing) [clean_analyzed_data]
    returns, and the keys of what it returns are exactly the nine tags, in
    order and without repetition.  Every tag is bound to a string that is
    never an empty value: the sentinel "추출 실패" when the tag is missing,
    None, or one of the empty strings; the value itself for any other
    string, the decimal text of an integer, "True" or "False" for a boolean;
    for a dict its "key:value" lines joined by a line feed (the sentinel for
    an empty dict); for a list its items' [str] joined by ", " (the sentinel
    when that text is an empty value).  The text of a nested value is fixed
    case by case: inside a dict a value is converted again (None becoming
    the sentinel), inside a list it is printed by [str] (None printing as
    "None", a nested list or dict as its [repr]). *)
Theorem clean_analyzed_data_fixed_tags (data content : list (string * json)) :
  default (JDict []) (dict_get data "content") = JDict content →
  (∃ result,
    clean_analyzed_data repr_str data = Ok result ∧
    map fst result = TAGS ∧ NoDup (map fst result) ∧ length result = 9%nat ∧
    ∀ tag, tag ∈ TAGS →
      ∃ s, dict_get result tag = Some s ∧ (s ∉ EMPTY_VALUES) ∧
        (dict_get content tag = None → s = FAILED) ∧
        (dict_get content tag = Some JNull → s = FAILED) ∧
        (∀ e, dict_get content tag = Some (JStr e) → e ∈ EMPTY_VALUES → s = FAILED) ∧
        (∀ v, dict_get content tag = Some (JStr v) → v ∉ EMPTY_VALUES → s = v) ∧
        (∀ z, dict_get content tag = Some (JInt z) → s = pretty z) ∧
        (∀ b, dict_get content tag = Some (JBool b) →
           s = if b then "True" else "False") ∧
        (∀ shown, dict_get content tag = Some (JFloat shown) →
           shown ∉ EMPTY_VALUES → s = shown) ∧
        (∀ fields : list (string * string),
           dict_get content tag
           = Some (JDict (map (λ kv, (fst kv, JStr (snd kv))) fields)) →
           s = match fields with
               | [] => FAILED
               | _ => join NL (map (λ kv, fst kv +:+ ":" +:+ snd kv) fields)
               end) ∧
        (∀ texts : list string,
           dict_get content tag = Some (JList (map JStr texts)) →
           s = if str_in (join ", " texts) EMPTY_VALUES then FAILED
               else join ", " texts) ∧
        (∀ items, dict_get content tag = Some (JDict items) →
           s = match items with
               | [] => FAILED
               | _ => join NL (map (λ kv, fst kv +:+ ":" +:+ convert_value (snd kv)) items)
               end) ∧
        (∀ items, dict_get content tag = Some (JList items) →
           s = let flat := join ", " (map py_str items) in
               if str_in flat EMPTY_VALUES then FAILED else flat)) ∧
  ((∀ v, convert_value (JStr v) = v) ∧
   (∀ z, convert_value (JInt z) = pretty z) ∧
   (∀ b, convert_value (JBool b) = if b then "True" else "False") ∧
   (∀ shown, convert_value (JFloat shown) = shown) ∧
   convert_value JNull = FAILED ∧
   (∀ items, convert_value (JDict items)
             = join NL (map (λ kv, fst kv +:+ ":" +:+ convert_value (snd kv)) items)) ∧
   (∀ items, convert_value (JList items) = join ", " (map py_str items))) ∧
  ((∀ v, py_str (JStr v) = v) ∧
   (∀ z, py_str (JInt z) = pretty z) ∧
   (∀ b, py_str (JBool b) = if b then "True" else "False") ∧
   (∀ shown, py_str (JFloat shown) = shown) ∧
   py_str JNull = "None" ∧
   (∀ items, py_str (JList items) = "[" +:+ join ", " (map py_repr items) +:+ "]") ∧
   (∀ items, py_str (JDict items)
             = "{" +:+ join ", " (map (λ kv, repr_str (fst kv) +:+ ": " +:+ py_repr (snd kv))
                                      items) +:+ "}") ∧
   (∀ v, py_repr (JStr v) = repr_str v) ∧
   (∀ v, (∀ x, v ≠ JStr x) → py_repr v = py_str v)).
Proof.
  intros Hcontent. split; [|split].
  - unfold clean_analyzed_data. rewrite Hcontent.
    eexists. split; [reflexivity|].
    assert (Hkeys : map fst (map (λ tag, (tag, clean_tag content tag)) TAGS) = TAGS).
    { reflexivity. }
    split; [exact Hkeys|]. split; [rewrite Hkeys; apply TAGS_NoDup|].
    split; [by rewrite length_map|].
    intros tag Htag. exists (clean_tag content tag).
    split; [by apply (dict_get_tabulate (clean_tag content))|].
    split; [apply clean_tag_never_empty|].
    split; [apply clean_tag_missing|].
    split; [apply clean_tag_null|].
    split; [apply clean_tag_empty_string|].
    split; [apply clean_tag_string|].
    split; [apply clean_tag_int|].
    split; [apply clean_tag_bool|].
    split; [apply clean_tag_float|].
    split; [apply clean_tag_fields|].
    split; [apply clean_tag_texts|].
    split; [apply clean_tag_dict|apply clean_tag_list].
  - repeat split; try reflexivity; intros []; reflexivity.
  - repeat split; try reflexivity; try (intros []; reflexivity).
    intros v Hv. destruct v; try reflexivity. by destruct (Hv s).
Qed.

End CleanFacts.

Example clean_demo :
  clean_analyzed_data (λ s, s) (analyze_raw_data_result "u" 0 demo_content)
  = Ok [("이름", "홍길동"); ("생년월일", "추출 실패"); ("거주지", "추출 실패");
        ("사망일시", "3, a"); ("사망장소", "추출 실패");
        ("장례일정", "a:b" +:+ NL +:+ "c:-4"); ("장례장소", "추출 실패");
        ("발인일시", "추출 실패"); ("화장일시", "추출 실패")].
Proof. vm_compute. reflexivity. Qed.

Lemma clean_analyzed_data_fixed_tags_witness :
  ∃ result,
    clean_analyzed_data (λ s, s) (analyze_raw_data_result "u" 0 demo_content)
      = Ok result ∧ map fst result = TAGS ∧
    dict_get result "이름" = Some "홍길동" ∧
    dict_get result "생년월일" = Some "추출 실패" ∧
    dict_get result "거주지" = Some "추출 실패" ∧
    dict_get result "사망장소" = Some "추출 실패" ∧
    dict_get result "사망일시" = Some "3, a" ∧
    dict_get result "장례일정" = Some ("a:b" +:+ NL +:+ "c:-4").
Proof.
  destruct (clean_analyzed_data_fixed_tags (λ s, s)
              (analyze_raw_data_result "u" 0 demo_content) demo_content eq_refl)
    as [(result & Hrun & Hkeys & _ & _ & Htags) _].
  exists result. split; [exact Hrun|]. split; [exact Hkeys|].
  split; [|split; [|split; [|split; [|split]]]].
  - destruct (Htags "이름" ltac:(refine (bool_decide_unpack _ _); vm_compute; exact I))
      as (s & -> & _ & _ & _ & _ & Hstr & _).
    f_equal. apply Hstr; [reflexivity|].
    unfold EMPTY_VALUES. rewrite !elem_of_cons, elem_of_nil.
    intros [H|[H|[H|[]]]]; discriminate H.
  - destruct (Htags "생년월일" ltac:(refine (bool_decide_unpack _ _); vm_compute; exact I))
      as (s & -> & _ & _ & _ & Hempty & _).
    f_equal. apply (Hempty "없음"); [reflexivity|].
    unfold EMPTY_VALUES. rewrite !elem_of_cons. tauto.
  - destruct (Htags "거주지" ltac:(refine (bool_decide_unpack _ _); vm_compute; exact I)) as (s & -> & _ & _ & Hnull & _).
    f_equal. by apply Hnull.
  - destruct (Htags "사망장소" ltac:(refine (bool_decide_unpack _ _); vm_compute; exact I)) as (s & -> & _ & Hmissing & _).
    f_equal. by apply Hmissing.
  - destruct (Htags "사망일시" ltac:(refine (bool_decide_unpack _ _); vm_compute; exact I))
      as (s & -> & _ & _ & _ & _ & _ & _ & _ & _ & _ & _ & _ & Hlist).
    f_equal. by rewrite (Hlist [JInt 3; JStr "a"] eq_refl).
  - destruct (Htags "장례일정" ltac:(refine (bool_decide_unpack _ _); vm_compute; exact I))
      as (s & -> & _ & _ & _ & _ & _ & _ & _ & _ & _ & _ & Hdict & _).
    f_equal. by rewrite (Hdict [("a", JStr "b"); ("c", JInt (-4))] eq_refl).
Defined.

End GptAnalyzerFacts.

(** ** The notifier *)

Module TelegramFacts.
Import Py Config Telegram.

Lemma time_lt_on_the_hour (t : time) (h : Z) :
  0 <= minute t → 0 <= second t → 0 <= microsecond t →
  time_lt t (mk_time h 0 0 0) = bool_decide (hour t < h).
Proof.
  intros Hm Hs Hu. unfold time_lt. simpl.
  destruct (Z.ltb_spec (hour t) h) as [Hlt|Hge].
  - by rewrite bool_decide_eq_true_2.
  - rewrite bool_decide_eq_false_2 by lia. simpl.
    destruct (Z.ltb_spec (minute t) 0); [lia|].
    destruct (Z.ltb_spec (second t) 0); [lia|].
    destruct (Z.ltb_spec (microsecond t) 0); [lia|].
    simpl. rewrite !andb_false_r. reflexivity.
Qed.

Lemma is_night_by_hour (t : time) :
  0 <= minute t → 0 <= second t → 0 <= microsecond t →
  is_night t = true ↔ 20 <= hour t ∨ hour t < 7.
Proof.
  intros Hm Hs Hu. unfold is_night, time_ge.
  rewrite !time_lt_on_the_hour by assumption.
  rewrite orb_true_iff, negb_true_iff, bool_decide_eq_false, bool_decide_eq_true.
  lia.
Qed.

Lemma now_kst_time_fields (posix_us : Z) :
  let t := now_kst_time posix_us in
  let us := (posix_us + KST_OFFSET_US) `mod` US_PER_DAY in
  0 <= minute t ∧ 0 <= second t ∧ 0 <= microsecond t ∧
  (20 <= hour t ↔ 20 * 3600 * US_PER_SECOND <= us) ∧
  (hour t < 7 ↔ us < 7 * 3600 * US_PER_SECOND).
Proof.
  unfold now_kst_time, US_PER_DAY, KST_OFFSET_US, US_PER_SECOND. simpl.
  set (us := (posix_us + 9 * 3600 * 1000000) `mod` (86400 * 1000000)).
  assert (0 <= us < 86400 * 1000000) by (apply Z.mod_pos_bound; lia).
  repeat split; try (apply Z.mod_pos_bound; lia);
    intros; Z.to_euclidean_division_equations; lia.
Qed.

Section ServiceFacts.

Variable World : Type.
Variable requests_get : World → send_event → api_outcome * World.
Variable clock_us : World → Z.
Variable sleep_ms : Z → World → World.

Local Abbreviation _send_message := (_send_message World requests_get sleep_ms).
Local Abbreviation _is_night_time := (_is_night_time World clock_us).
Local Abbreviation send_funeral_notification :=
  (send_funeral_notification World requests_get clock_us sleep_ms).
Local Abbreviation world_after_send := (world_after_send World requests_get sleep_ms).

(** One send: the call is traced whatever happens, and the result is
    exactly whether the API's answer counts as a delivery. *)
Lemma send_message_spec chat_id text silent (st : state World) :
  let ev := mk_send chat_id text "HTML" silent in
  _send_message chat_id text silent st
  = (delivered (fst (requests_get (fst st) ev)),
     (world_after_send (fst st) ev, snd st ++ [ev])).
Proof.
  unfold Telegram._send_message, Telegram.world_after_send. cbv zeta.
  destruct (requests_get (fst st) _) as [o w].
  destruct o as [|status_code [[|]|]]; simpl; try reflexivity.
  destruct (is_error_status status_code); reflexivity.
Qed.

(** The two sends of a notification whose district resolves to a channel. *)
Lemma send_funeral_notification_resolved config district_kor url update_count
    analyzed_data (st : state World) channel_id :
  resolve_channel config district_kor = Some channel_id →
  let message := funeral_message district_kor url update_count analyzed_data in
  let night := _is_night_time st in
  let ev1 := mk_send channel_id message "HTML" night in
  let ev2 := mk_send (funeral_main config) message "HTML" night in
  let w1 := world_after_send (fst st) ev1 in
  send_funeral_notification config district_kor url update_count analyzed_data st
  = (delivered (fst (requests_get (fst st) ev1))
       && delivered (fst (requests_get w1 ev2)),
     (world_after_send w1 ev2, snd st ++ [ev1; ev2])).
Proof.
  unfold resolve_channel, Telegram.send_funeral_notification.
  destruct (dict_get _ district_kor) as [district_eng|]; [|discriminate].
  destruct (decide (district_eng = "")); [discriminate|].
  destruct (district_channels config !! district_eng) as [ch|]; [|discriminate].
  destruct (decide (ch = "")); [discriminate|].
  intros [= ->]. cbv zeta.
  rewrite send_message_spec. cbv zeta.
  rewrite send_message_spec. cbv zeta. simpl fst. simpl snd.
  rewrite <- app_assoc. reflexivity.
Qed.

Lemma send_funeral_notification_unresolved config district_kor url update_count
    analyzed_data (st : state World) :
  resolve_channel config district_kor = None →
  send_funeral_notification config district_kor url update_count analyzed_data st
  = (false, st).
Proof.
  unfold resolve_channel, Telegram.send_funeral_notification.
  destruct (dict_get _ district_kor) as [district_eng|]; [|reflexivity].
  destruct (decide (district_eng = "")); [reflexivity|].
  destruct (district_channels config !! district_eng) as [ch|]; [|reflexivity].
  destruct (decide (ch = "")); [reflexivity|discriminate].
Qed.

(** C2.  [send_funeral_notification] returns true exactly when the district
    resolves to a channel and both the send to that channel and the send to
    the combined channel are delivered; when the district resolves, both
    sends are made whatever the first one comes to, and the result is the
    conjunction of the two deliveries, so one failed send makes it false
    even though the other channel got the message. *)
Theorem send_funeral_notification_iff_both config district_kor url update_count
    analyzed_data (st : state World) :
  let message := funeral_message district_kor url update_count analyzed_data in
  let night := _is_night_time st in
  let ev1 channel_id := mk_send channel_id message "HTML" night in
  let ev2 := mk_send (funeral_main config) message "HTML" night in
  let first channel_id := delivered (fst (requests_get (fst st) (ev1 channel_id))) in
  let second channel_id :=
    delivered (fst (requests_get (world_after_send (fst st) (ev1 channel_id)) ev2)) in
  let run :=
    send_funeral_notification config district_kor url update_count analyzed_data st in
  (fst run = true ↔
     ∃ channel_id, resolve_channel config district_kor = Some channel_id ∧
                   first channel_id = true ∧ second channel_id = true) ∧
  (∀ channel_id, resolve_channel config district_kor = Some channel_id →
     snd (snd run) = snd st ++ [ev1 channel_id; ev2] ∧
     fst run = first channel_id && second channel_id ∧
     (first channel_id = false ∨ second channel_id = false → fst run = false)).
Proof.
  cbv zeta. split.
  - destruct (resolve_channel config district_kor) as [ch|] eqn:Hres.
    + rewrite (send_funeral_notification_resolved _ _ _ _ _ _ ch Hres). simpl fst.
      rewrite andb_true_iff. split.
      * intros [H1 H2]. exists ch. done.
      * intros (ch' & [= <-] & H1 & H2). done.
    + rewrite (send_funeral_notification_unresolved _ _ _ _ _ _ Hres). simpl.
      split; [discriminate|]. intros (ch' & [=] & _).
  - intros ch Hres.
    rewrite (send_funeral_notification_resolved _ _ _ _ _ _ ch Hres). simpl.
    split; [reflexivity|]. split; [reflexivity|].
    intros [-> | ->]; [reflexivity | apply andb_false_r].
Qed.

(** C9.  When the Korean district name has no entry in the name table, or
    the district it maps to has no channel (none, or an empty one), the
    result is false and neither the world nor the trace of sends changes:
    no send is attempted. *)
Theorem send_funeral_notification_without_channel config district_kor url
    update_count analyzed_data (st : state World) :
  (dict_get DISTRICT_NAMES_KOR_TO_ENG district_kor = None ∨
   ∃ district_eng,
     dict_get DISTRICT_NAMES_KOR_TO_ENG district_kor = Some district_eng ∧
     (district_channels config !! district_eng = None ∨
      district_channels config !! district_eng = Some "")) →
  send_funeral_notification config district_kor url update_count analyzed_data st
  = (false, st).
Proof.
  intros H. apply send_funeral_notification_unresolved. unfold resolve_channel.
  destruct H as [-> | (district_eng & -> & Hch)]; [reflexivity|].
  destruct (decide (district_eng = "")); [reflexivity|].
  destruct Hch as [-> | ->]; reflexivity.
Qed.

(** C7.  The comparison of [_is_night_time] holds exactly when the KST time
    of day is at or after 20:00 or before 07:00; 19:59:59 and 07:00:00 are
    not night, 20:00:00 and 06:59:59 are.  Both sends of a notification carry
    that flag as [disable_notification]; chat, text and parse mode do not
    depend on it, and whether a send counts as delivered is decided by the
    API's answer alone. *)
Theorem night_time_marks_sends_silent :
  (∀ posix_us,
     is_night (now_kst_time posix_us) = true ↔
     let us := (posix_us + KST_OFFSET_US) `mod` US_PER_DAY in
     20 * 3600 * US_PER_SECOND <= us ∨ us < 7 * 3600 * US_PER_SECOND) ∧
  (is_night (mk_time 19 59 59 0) = false ∧ is_night (mk_time 19 59 59 999999) = false ∧
   is_night (mk_time 20 0 0 0) = true ∧
   is_night (mk_time 6 59 59 0) = true ∧ is_night (mk_time 6 59 59 999999) = true ∧
   is_night (mk_time 7 0 0 0) = false) ∧
  (∀ config district_kor url update_count analyzed_data (st : state World) channel_id,
     resolve_channel config district_kor = Some channel_id →
     let silent := is_night (now_kst_time (clock_us (fst st))) in
     let message := funeral_message district_kor url update_count analyzed_data in
     snd (snd (send_funeral_notification config district_kor url update_count
                 analyzed_data st))
     = snd st ++ [mk_send channel_id message "HTML" silent;
                  mk_send (funeral_main config) message "HTML" silent]) ∧
  (∀ chat_id text silent (st : state World),
     fst (_send_message chat_id text silent st)
     = delivered (fst (requests_get (fst st) (mk_send chat_id text "HTML" silent)))).
Proof.
  split; [|split; [|split]].
  - intros posix_us. cbv zeta.
    destruct (now_kst_time_fields posix_us) as (Hm & Hs & Hu & H20 & H7).
    rewrite is_night_by_hour by assumption. rewrite H20, H7. reflexivity.
  - repeat split; reflexivity.
  - intros config district_kor url update_count analyzed_data st ch Hres. cbv zeta.
    rewrite (send_funeral_notification_resolved _ _ _ _ _ _ ch Hres). reflexivity.
  - intros chat_id text silent st. rewrite send_message_spec. reflexivity.
Qed.

End ServiceFacts.

End TelegramFacts.

(** ** The HTTP client *)

Module HttpClientFacts.
Import Py Config HttpClient.

Lemma setdefault_lookup (key : string) (value : kwval) (kwargs : gmap string kwval)
    (k : string) :
  setdefault key value kwargs !! k
  = if decide (key = k) then Some (default value (kwargs !! key)) else kwargs !! k.
Proof.
  unfold setdefault. destruct (kwargs !! key) as [v|] eqn:E.
  - case_decide; subst; simpl; done.
  - case_decide; subst; simpl.
    + by rewrite lookup_insert_eq.
    + by rewrite lookup_insert_ne.
Qed.

Ltac lookup_kwargs :=
  repeat (rewrite ?setdefault_lookup, ?lookup_insert, ?lookup_delete;
          try (case_decide; try discriminate)); simpl; try done.

Section ClientFacts.

Variable World : Type.
Variable session_request : World → request → result exn response * World.
Variable tor_config : TorConfig.
Variable decode : string → string → string.

Local Abbreviation M := (prog (state World) exn).
Local Abbreviation request_once := (request_once World session_request).
Local Abbreviation get := (get World session_request tor_config).
Local Abbreviation post := (post World session_request tor_config).
Local Abbreviation get_text := (get_text World session_request tor_config decode).
Local Abbreviation post_text := (post_text World session_request tor_config decode).
Local Abbreviation tor_kwargs := (tor_kwargs tor_config).
Local Abbreviation falls_back := (falls_back tor_config).
Local Abbreviation issued := (issued World).

Lemma get_kwargs_verify call :
  get_kwargs call !! "verify" = Some (param call "verify" (KBool false)).
Proof. unfold get_kwargs, param. lookup_kwargs. Qed.

Lemma get_kwargs_timeout call :
  get_kwargs call !! "timeout" = Some (param call "timeout" (KInt DEFAULT_TIMEOUT)).
Proof. unfold get_kwargs, param. lookup_kwargs. Qed.

Lemma get_kwargs_params call : get_kwargs call !! "params" = call !! "params".
Proof. unfold get_kwargs. lookup_kwargs. Qed.

Lemma post_kwargs_verify call :
  with_body call (post_kwargs call) !! "verify" = Some (param call "verify" (KBool false)).
Proof. unfold with_body, post_kwargs, param. lookup_kwargs. Qed.

Lemma post_kwargs_timeout call :
  with_body call (post_kwargs call) !! "timeout"
  = Some (param call "timeout" (KInt DEFAULT_TIMEOUT)).
Proof. unfold with_body, post_kwargs, param. lookup_kwargs. Qed.

Lemma tor_kwargs_lookup kwargs k :
  tor_kwargs kwargs !! k
  = if decide (k = "proxies") then Some (KDict (proxies tor_config))
    else if decide (k = "timeout") then Some (default (KInt TOR_TIMEOUT) (kwargs !! "timeout"))
    else kwargs !! k.
Proof.
  unfold HttpClient.tor_kwargs. rewrite setdefault_lookup, !lookup_insert.
  repeat case_decide; subst; simpl; try done.
Qed.

Lemma tor_kwargs_verify call :
  tor_kwargs (get_kwargs call) !! "verify" = Some (param call "verify" (KBool false)).
Proof. rewrite tor_kwargs_lookup. simpl. apply get_kwargs_verify. Qed.

(** The timeout of the proxied request is the one the direct request
    carries: [get] has always set it before [_get_with_tor] asks for 60. *)
Lemma tor_kwargs_timeout call :
  tor_kwargs (get_kwargs call) !! "timeout"
  = Some (param call "timeout" (KInt DEFAULT_TIMEOUT)).
Proof. rewrite tor_kwargs_lookup. simpl. by rewrite get_kwargs_timeout. Qed.

Lemma request_once_trace m url kwargs (st : state World) :
  snd (snd (request_once m url kwargs st)) = snd st ++ [mk_request m url kwargs].
Proof.
  unfold HttpClient.request_once, bind, session_call, raise_for_status.
  destruct (session_request (fst st) _) as [[r|e] w]; simpl; [|reflexivity].
  destruct (_ && _); reflexivity.
Qed.

(** [get] written by cases: forced through the proxy, or a direct attempt
    followed, after an error that counts as blocking, by one proxied attempt. *)
Lemma get_cases url call (st : state World) :
  get url call st
  = if truthy (param call "force_tor" (KBool false))
    then request_once GET url (tor_kwargs (get_kwargs call)) st
    else match request_once GET url (get_kwargs call) st with
         | (Ok r, st1) => (Ok r, st1)
         | (Raise e, st1) =>
             if falls_back e
             then request_once GET url (tor_kwargs (get_kwargs call)) st1
             else (Raise e, st1)
         end.
Proof.
  unfold HttpClient.get. fold (get_kwargs call).
  destruct (truthy _); [reflexivity|].
  unfold try_except. fold (request_once GET url (get_kwargs call)).
  destruct (request_once GET url (get_kwargs call) st) as [[r|e] st1]; [reflexivity|].
  unfold HttpClient.falls_back.
  destruct e as [status| | |]; try reflexivity.
  - destruct (_ && _); reflexivity.
  - destruct (enabled tor_config); reflexivity.
Qed.

Lemma post_cases url call (st : state World) :
  post url call st
  = if truthy (param call "force_tor" (KBool false))
    then request_once POST url (with_body call (tor_kwargs (post_kwargs call))) st
    else match request_once POST url (with_body call (post_kwargs call)) st with
         | (Ok r, st1) => (Ok r, st1)
         | (Raise e, st1) =>
             if falls_back e
             then request_once POST url (with_body call (tor_kwargs (post_kwargs call))) st1
             else (Raise e, st1)
         end.
Proof.
  unfold HttpClient.post. fold (post_kwargs call).
  destruct (truthy _); [reflexivity|].
  unfold try_except.
  fold (with_body call (post_kwargs call)).
  fold (request_once POST url (with_body call (post_kwargs call))).
  destruct (request_once POST url (with_body call (post_kwargs call)) st)
    as [[r|e] st1]; [reflexivity|].
  unfold HttpClient.falls_back.
  destruct e as [status| | |]; try reflexivity.
  - destruct (_ && _); reflexivity.
  - destruct (enabled tor_config); reflexivity.
Qed.

Lemma issued_request_once m url kwargs (st : state World) :
  issued (request_once m url kwargs) st = [mk_request m url kwargs].
Proof.
  unfold HttpClient.issued. rewrite request_once_trace. apply drop_app_length.
Qed.

Lemma issued_two m url k1 k2 (st st1 : state World) (r : result exn response) :
  snd st1 = snd st ++ [mk_request m url k1] →
  drop (length (snd st)) (snd (snd (request_once m url k2 st1)))
  = [mk_request m url k1; mk_request m url k2].
Proof.
  intros H. rewrite request_once_trace, H, <- app_assoc. apply drop_app_length.
Qed.

(** The requests of one [get]: the direct one, the proxied one, or the
    direct one followed by the proxied one. *)
Lemma get_issued url call (st : state World) :
  let direct := mk_request GET url (get_kwargs call) in
  let proxied := mk_request GET url (tor_kwargs (get_kwargs call)) in
  snd (snd (get url call st)) = snd st ++ issued (get url call) st ∧
  (issued (get url call) st = [direct] ∨ issued (get url call) st = [proxied] ∨
   issued (get url call) st = [direct; proxied]).
Proof.
  cbv zeta. unfold HttpClient.issued. rewrite get_cases.
  destruct (truthy _).
  { rewrite request_once_trace, drop_app_length. split; [reflexivity|]. right. by left. }
  pose proof (request_once_trace GET url (get_kwargs call) st) as Hd.
  destruct (request_once GET url (get_kwargs call) st) as [[r|e] st1]; simpl in Hd |- *.
  - rewrite Hd, drop_app_length. split; [reflexivity|]. by left.
  - destruct (falls_back e).
    + rewrite (issued_two GET url _ _ st st1 (Raise e) Hd).
      rewrite request_once_trace, Hd, <- app_assoc. split; [reflexivity|].
      right. by right.
    + simpl. rewrite Hd, drop_app_length. split; [reflexivity|]. by left.
Qed.

Lemma post_issued url call (st : state World) :
  let direct := mk_request POST url (with_body call (post_kwargs call)) in
  let proxied := mk_request POST url (with_body call (tor_kwargs (post_kwargs call))) in
  snd (snd (post url call st)) = snd st ++ issued (post url call) st ∧
  (issued (post url call) st = [direct] ∨ issued (post url call) st = [proxied] ∨
   issued (post url call) st = [direct; proxied]).
Proof.
  cbv zeta. unfold HttpClient.issued. rewrite post_cases.
  destruct (truthy _).
  { rewrite request_once_trace, drop_app_length. split; [reflexivity|]. right. by left. }
  pose proof (request_once_trace POST url (with_body call (post_kwargs call)) st) as Hd.
  destruct (request_once POST url (with_body call (post_kwargs call)) st)
    as [[r|e] st1]; simpl in Hd |- *.
  - rewrite Hd, drop_app_length. split; [reflexivity|]. by left.
  - destruct (falls_back e).
    + rewrite (issued_two POST url _ _ st st1 (Raise e) Hd).
      rewrite request_once_trace, Hd, <- app_assoc. split; [reflexivity|].
      right. by right.
    + simpl. rewrite Hd, drop_app_length. split; [reflexivity|]. by left.
Qed.

Lemma post_tor_kwargs_verify call :
  with_body call (tor_kwargs (post_kwargs call)) !! "verify"
  = Some (param call "verify" (KBool false)).
Proof.
  unfold with_body. rewrite !lookup_insert_ne by discriminate.
  rewrite tor_kwargs_lookup. simpl.
  unfold post_kwargs, param. lookup_kwargs.
Qed.

(** C10.  Every request [get] or [post] hands to the session, direct or
    through the proxy, carries [verify]: the caller's value when the call
    gave one, False otherwise; and each of them issues at least one
    request. *)
Theorem every_request_defaults_verify_to_false url call (st : state World) :
  let verify := Some (param call "verify" (KBool false)) in
  (issued (get url call) st ≠ [] ∧
   Forall (λ req, req_kwargs req !! "verify" = verify) (issued (get url call) st)) ∧
  (issued (post url call) st ≠ [] ∧
   Forall (λ req, req_kwargs req !! "verify" = verify) (issued (post url call) st)).
Proof.
  cbv zeta. split.
  - destruct (get_issued url call st) as [_ [-> | [-> | ->]]];
      (split; [discriminate|]); repeat constructor; simpl;
      auto using get_kwargs_verify, tor_kwargs_verify.
  - destruct (post_issued url call st) as [_ [-> | [-> | ->]]];
      (split; [discriminate|]); repeat constructor; simpl;
      auto using post_kwargs_verify, post_tor_kwargs_verify.
Qed.

(** With the proxy disabled a [get] that is not forced is the direct
    attempt alone: its error, if any, reaches the caller. *)
Lemma get_without_proxy url call (st : state World) :
  enabled tor_config = false →
  truthy (param call "force_tor" (KBool false)) = false →
  get url call st = request_once GET url (get_kwargs call) st.
Proof.
  intros Hoff Hdirect. rewrite get_cases, Hdirect.
  destruct (request_once GET url (get_kwargs call) st) as [[r|e] st1]; [reflexivity|].
  destruct e as [status| | |]; simpl; rewrite ?Hoff, ?andb_false_r; reflexivity.
Qed.

(** After a blocked status or a connection error, with the proxy enabled,
    the same request goes out once more through the proxy, and what that
    attempt comes to is the result. *)
Lemma get_falls_back_once url call (st st1 : state World) e :
  truthy (param call "force_tor" (KBool false)) = false →
  request_once GET url (get_kwargs call) st = (Raise e, st1) →
  enabled tor_config = true →
  (e = ConnectionError ∨ ∃ code, e = HTTPError (Some code) ∧ code ∈ BLOCKED_STATUS_CODES) →
  get url call st = request_once GET url (tor_kwargs (get_kwargs call)) st1 ∧
  issued (get url call) st
  = [mk_request GET url (get_kwargs call);
     mk_request GET url (tor_kwargs (get_kwargs call))] ∧
  tor_kwargs (get_kwargs call) !! "proxies" = Some (KDict (proxies tor_config)).
Proof.
  intros Hdirect Hrun Hon He.
  assert (Hfb : falls_back e = true).
  { destruct He as [-> | (code & -> & Hcode)]; simpl; rewrite Hon; [reflexivity|].
    by rewrite bool_decide_eq_true_2. }
  pose proof (request_once_trace GET url (get_kwargs call) st) as Hd.
  rewrite Hrun in Hd. simpl in Hd.
  split; [|split].
  - rewrite get_cases, Hdirect, Hrun, Hfb. reflexivity.
  - unfold HttpClient.issued. rewrite get_cases, Hdirect, Hrun, Hfb.
    apply (issued_two GET url _ _ st st1 (Raise e) Hd).
  - rewrite tor_kwargs_lookup. reflexivity.
Qed.

(** C6, at the input where the code departs from it.  Every request of a
    [get], the proxied one included, carries the timeout of the call (30
    unless the caller gave one): the 60 of [_get_with_tor] is never used.  In
    particular a default [get] answered by a blocked status, with the proxy
    enabled, issues the direct request and then one proxied request whose
    timeout is still 30. *)
Theorem tor_retry_keeps_direct_timeout :
  (∀ url call (st : state World),
     Forall (λ req, req_kwargs req !! "timeout"
                    = Some (param call "timeout" (KInt DEFAULT_TIMEOUT)))
       (issued (get url call) st)) ∧
  (∀ url (st : state World) code body enc w1,
     enabled tor_config = true →
     code ∈ BLOCKED_STATUS_CODES →
     session_request (fst st) (mk_request GET url (get_kwargs ∅))
       = (Ok (mk_response code body enc), w1) →
     ∃ proxied,
       issued (get url ∅) st = [mk_request GET url (get_kwargs ∅); proxied] ∧
       req_kwargs proxied !! "proxies" = Some (KDict (proxies tor_config)) ∧
       req_kwargs proxied !! "timeout" = Some (KInt 30)).
Proof.
  split.
  - intros url call st.
    destruct (get_issued url call st) as [_ [-> | [-> | ->]]];
      repeat constructor; simpl; auto using get_kwargs_timeout, tor_kwargs_timeout.
  - intros url st code body enc w1 Hon Hcode Hnet.
    assert (Herr : (400 <=? code) && (code <? 600) = true).
    { unfold BLOCKED_STATUS_CODES in Hcode.
      rewrite !elem_of_cons, elem_of_nil in Hcode.
      destruct Hcode as [-> | [-> | [-> | []]]]; reflexivity. }
    assert (Hrun : request_once GET url (get_kwargs ∅) st
                   = (Raise (HTTPError (Some code)),
                      (w1, snd st ++ [mk_request GET url (get_kwargs ∅)]))).
    { unfold HttpClient.request_once, bind, session_call, raise_for_status.
      rewrite Hnet. simpl. rewrite Herr. reflexivity. }
    assert (Hdirect : truthy (param ∅ "force_tor" (KBool false)) = false).
    { unfold param. rewrite lookup_empty. reflexivity. }
    destruct (get_falls_back_once url ∅ st _ _ Hdirect Hrun Hon) as (_ & Hissued & Hprox).
    { right. exists code. done. }
    eexists. split; [exact Hissued|]. split; [exact Hprox|].
    simpl. rewrite (tor_kwargs_timeout ∅). unfold param.
    rewrite lookup_empty. reflexivity.
Qed.

Lemma post_text_kwargs (call : gmap string kwval) :
  <["params" := param call "params" KNone]>
    (delete "data" (delete "params" (delete "encoding" call)))
  = delete "encoding" (<["params" := param call "params" KNone]> (delete "data" call)).
Proof.
  apply map_eq. intros k.
  rewrite !lookup_insert, !lookup_delete, !lookup_insert, !lookup_delete.
  repeat case_decide; subst; try done.
Qed.

(** C8.  [post_text] is [get_text] on the same url with the same
    [params] and [encoding] (its [data] plays no part): same result, same
    world, same trace.  Every request it issues is a GET carrying [params]. *)
Theorem post_text_is_get_text url call (st : state World) :
  post_text url call st
  = get_text url (<["params" := param call "params" KNone]> (delete "data" call)) st ∧
  issued (post_text url call) st ≠ [] ∧
  Forall (λ req, req_method req = GET ∧ req_url req = url ∧
                 req_kwargs req !! "params" = Some (param call "params" KNone))
    (issued (post_text url call) st).
Proof.
  assert (Heq : post_text url call st
    = get_text url (<["params" := param call "params" KNone]> (delete "data" call)) st).
  { unfold HttpClient.post_text, HttpClient.get_text.
    rewrite post_text_kwargs.
    replace (param (<["params":=param call "params" KNone]> (delete "data" call))
               "encoding" (KStr "utf-8"))
      with (param call "encoding" (KStr "utf-8")); [reflexivity|].
    unfold param. rewrite lookup_insert_ne by discriminate.
    rewrite lookup_delete_ne by discriminate. reflexivity. }
  split; [exact Heq|].
  set (kw := <["params" := param call "params" KNone]>
               (delete "data" (delete "params" (delete "encoding" call)))).
  assert (Hiss : issued (post_text url call) st = issued (get url kw) st).
  { unfold HttpClient.issued, HttpClient.post_text, bind. fold kw.
    destruct (get url kw st) as [[r|e] st1]; reflexivity. }
  assert (Hp : get_kwargs kw !! "params" = Some (param call "params" KNone)).
  { rewrite get_kwargs_params. unfold kw. by rewrite lookup_insert_eq. }
  assert (Hpt : tor_kwargs (get_kwargs kw) !! "params" = Some (param call "params" KNone)).
  { rewrite tor_kwargs_lookup. simpl. exact Hp. }
  rewrite Hiss.
  destruct (get_issued url kw st) as [_ [-> | [-> | ->]]];
    (split; [discriminate|]); repeat constructor; simpl; auto.
Qed.

End ClientFacts.

End HttpClientFacts.

(** ** The scraper *)

Module ScraperFacts.
Import Py Scraper.

Lemma warnings_are_silent (evs : list event) :
  Forall is_warning evs →
  listing_pages evs = [] ∧ detail_urls evs = [] ∧ error_urls evs = [] ∧ fetches evs = [].
Proof.
  induction 1 as [|e evs He _ IH]; [done|].
  destruct e; first [done | exact IH].
Qed.

Lemma listing_pages_app (a b : list event) :
  listing_pages (a ++ b) = listing_pages a ++ listing_pages b.
Proof. apply omap_app. Qed.

Lemma detail_urls_app (a b : list event) :
  detail_urls (a ++ b) = detail_urls a ++ detail_urls b.
Proof. apply omap_app. Qed.

Lemma error_urls_app (a b : list event) :
  error_urls (a ++ b) = error_urls a ++ error_urls b.
Proof. apply omap_app. Qed.

Lemma fetches_app (a b : list event) : fetches (a ++ b) = fetches a ++ fetches b.
Proof. apply omap_app. Qed.

Section BaseScraperFacts.

Context {site : Site}.
Variable World : Type.
Variable client_get : string → bool → World → result exn HttpClient.response * World.
Variable decode : string → string → string.
Variable BeautifulSoup : string → result exn node.
Variable select_one : node → string → option node.
Variable strip : string → string.

Local Abbreviation M := (prog (state World) exn).
Local Abbreviation runs := (runs World).
Local Abbreviation text := (text decode).
Local Abbreviation client_get_text := (client_get_text World client_get decode).
Local Abbreviation parse_urls := (parse_urls World BeautifulSoup select_one).
Local Abbreviation parse_content := (parse_content World BeautifulSoup select_one strip).
Local Abbreviation get_last_page_num := (get_last_page_num BeautifulSoup select_one).
Local Abbreviation fetch_urls := (fetch_urls World client_get decode BeautifulSoup select_one).
Local Abbreviation fetch_content :=
  (fetch_content World client_get decode BeautifulSoup select_one strip).
Local Abbreviation scrape_urls :=
  (scrape_urls World client_get decode BeautifulSoup select_one strip).
Local Abbreviation scrape_pages :=
  (scrape_pages World client_get decode BeautifulSoup select_one strip).
Local Abbreviation scrape :=
  (scrape World client_get decode BeautifulSoup select_one strip).

Lemma client_get_text_runs why url (st : state World) :
  runs (client_get_text why url) st
    (match fst (client_get url force_tor (fst st)) with
     | Ok response => Ok (text response)
     | Raise e => Raise e
     end)
    (snd (client_get url force_tor (fst st)))
    [Fetch why url force_tor].
Proof.
  unfold Scraper.runs, Scraper.client_get_text.
  destruct (client_get url force_tor (fst st)) as [[response|e] w]; reflexivity.
Qed.

(** A listing page: without its container the link list is empty and a
    warning is logged; with it, the links are those of the container. *)
Lemma parse_urls_runs html (st : state World) :
  ∃ r evs,
    runs (parse_urls html) st r (fst st) evs ∧ Forall is_warning evs ∧
    match BeautifulSoup html with
    | Raise e => r = Raise e
    | Ok root =>
        match select_one root list_selector with
        | None => r = Ok [] ∧ ∃ msg, evs = [LogWarning msg]
        | Some container => r = Ok (link_urls container) ∧ evs = []
        end
    end.
Proof.
  unfold Scraper.runs, Scraper.parse_urls, soup, bind, lift.
  destruct (BeautifulSoup html) as [root|e].
  - destruct (select_one root list_selector) as [container|].
    + exists (Ok (link_urls container)), []. rewrite app_nil_r.
      destruct st. repeat split; auto.
    + eexists (Ok []), [_]. simpl. repeat split; eauto.
      repeat constructor.
  - exists (Raise e), []. rewrite app_nil_r. destruct st. repeat split; auto.
Qed.

(** A detail page: without its container the content is the empty string
    and a warning is logged. *)
Lemma parse_content_runs html (st : state World) :
  ∃ r evs,
    runs (parse_content html) st r (fst st) evs ∧ Forall is_warning evs ∧
    match BeautifulSoup (replace br_tag NL html) with
    | Raise e => r = Raise e
    | Ok root =>
        match select_one root content_selector with
        | None => r = Ok "" ∧ ∃ msg, evs = [LogWarning msg]
        | Some container => r = Ok (strip (get_text container)) ∧ evs = []
        end
    end.
Proof.
  unfold Scraper.runs, Scraper.parse_content, soup, bind, lift.
  destruct (BeautifulSoup _) as [root|e].
  - destruct (select_one root content_selector) as [container|].
    + exists (Ok (strip (get_text container))), []. rewrite app_nil_r.
      destruct st. repeat split; auto.
    + eexists (Ok ""), [_]. simpl. repeat split; eauto.
      repeat constructor.
  - exists (Raise e), []. rewrite app_nil_r. destruct st. repeat split; auto.
Qed.

Lemma fetch_content_runs url (st : state World) :
  ∃ r w' evs,
    runs (fetch_content url) st r w' (Fetch Detail url force_tor :: evs) ∧
    Forall is_warning evs.
Proof.
  unfold Scraper.fetch_content, Scraper.runs, bind.
  rewrite (client_get_text_runs Detail url st).
  destruct (fst (client_get url force_tor (fst st))) as [response|e].
  - destruct (parse_content_runs (text response)
                (snd (client_get url force_tor (fst st)),
                 snd st ++ [Fetch Detail url force_tor]))
      as (r & evs & Hrun & Hwarn & _).
    exists r, (snd (client_get url force_tor (fst st))), evs.
    split; [|exact Hwarn]. rewrite Hrun. simpl. by rewrite <- app_assoc.
  - eexists _, _, []. split; [reflexivity|constructor].
Qed.

Lemma fetch_urls_runs page (st : state World) :
  ∃ r w' evs,
    runs (fetch_urls page) st r w'
      (Fetch (Listing page) (get_list_url page) force_tor :: evs) ∧
    Forall is_warning evs.
Proof.
  unfold Scraper.fetch_urls, Scraper.runs, bind.
  rewrite (client_get_text_runs (Listing page) (get_list_url page) st).
  destruct (fst (client_get _ force_tor (fst st))) as [response|e].
  - destruct (parse_urls_runs (text response)
                (snd (client_get (get_list_url page) force_tor (fst st)),
                 snd st ++ [Fetch (Listing page) (get_list_url page) force_tor]))
      as (r & evs & Hrun & Hwarn & _).
    exists r, (snd (client_get (get_list_url page) force_tor (fst st))), evs.
    split; [|exact Hwarn]. rewrite Hrun. simpl. by rewrite <- app_assoc.
  - eexists _, _, []. split; [reflexivity|constructor].
Qed.

(** One turn of the inner loop: the item is appended, or the error is
    logged and the results stay as they were; the loop goes on either way. *)
Lemma scrape_urls_cons url rest results (st : state World) :
  scrape_urls (url :: rest) results st
  = match fetch_content url st with
    | (Ok content, st1) => scrape_urls rest (results ++ [mk_item url content]) st1
    | (Raise e, st1) => scrape_urls rest results (fst st1, snd st1 ++ [LogError url e])
    end.
Proof.
  simpl. unfold bind, try_except, ret, log.
  destruct (fetch_content url st) as [[content|e] st1]; reflexivity.
Qed.

(** The inner loop never raises.  It fetches every url of the page, in
    order; each url ends up either as an item of the result or in an error
    line of the log, and the items keep the order of the urls. *)
Lemma scrape_urls_runs urls : ∀ results (st : state World),
  ∃ kept w' evs,
    runs (scrape_urls urls results) st (Ok (results ++ kept)) w' evs ∧
    listing_pages evs = [] ∧ detail_urls evs = urls ∧
    map item_url kept `sublist_of` urls ∧
    urls ≡ₚ map item_url kept ++ error_urls evs.
Proof.
  induction urls as [|url rest IH]; intros results st.
  - exists [], (fst st), []. unfold Scraper.runs. simpl. rewrite !app_nil_r.
    destruct st. done.
  - destruct (fetch_content_runs url st) as (r & w1 & evs1 & Hrun & Hwarn).
    destruct (warnings_are_silent evs1 Hwarn) as (Hl1 & Hd1 & He1 & _).
    unfold Scraper.runs in *. rewrite scrape_urls_cons, Hrun.
    destruct r as [content|e].
    + destruct (IH (results ++ [mk_item url content])
                  (w1, snd st ++ Fetch Detail url force_tor :: evs1))
        as (kept & w' & evs & Hrest & Hl & Hd & Hsub & Hperm).
      exists (mk_item url content :: kept), w', (Fetch Detail url force_tor :: evs1 ++ evs).
      rewrite Hrest. simpl.
      split; [by rewrite <- !app_assoc|].
      split; [by rewrite listing_pages_app, Hl1, Hl|].
      split; [by rewrite detail_urls_app, Hd1, Hd|].
      split; [by apply sublist_skip|].
      rewrite error_urls_app, He1. by apply Permutation_skip.
    + destruct (IH results
                  (w1, (snd st ++ Fetch Detail url force_tor :: evs1) ++ [LogError url e]))
        as (kept & w' & evs & Hrest & Hl & Hd & Hsub & Hperm).
      exists kept, w', (Fetch Detail url force_tor :: evs1 ++ LogError url e :: evs).
      simpl fst. simpl snd. rewrite Hrest. simpl.
      split; [by rewrite <- !app_assoc|].
      split; [by rewrite listing_pages_app, Hl1|].
      split; [by rewrite detail_urls_app, Hd1; simpl; rewrite Hd|].
      split; [by apply sublist_cons|].
      rewrite error_urls_app, He1. simpl.
      rewrite Hperm. apply Permutation_middle.
Qed.

(** One turn of the outer loop: an error of [fetch_urls] ends the loop
    with that error; otherwise the page's urls are scraped and the loop goes
    on with the next page. *)
Lemma scrape_pages_cons page rest results (st : state World) :
  scrape_pages (page :: rest) results st
  = match fetch_urls page st with
    | (Ok urls, st1) =>
        match scrape_urls urls results st1 with
        | (Ok results', st2) => scrape_pages rest results' st2
        | (Raise e, st2) => (Raise e, st2)
        end
    | (Raise e, st1) => (Raise e, st1)
    end.
Proof.
  simpl. unfold bind.
  destruct (fetch_urls page st) as [[urls|e] st1]; reflexivity.
Qed.

Lemma scrape_pages_runs pages : ∀ results (st : state World),
  ∃ r w' evs,
    runs (scrape_pages pages results) st r w' evs ∧
    listing_pages evs `prefix_of` pages ∧
    (∀ results', r = Ok results' →
       listing_pages evs = pages ∧
       ∃ kept, results' = results ++ kept ∧
               map item_url kept `sublist_of` detail_urls evs ∧
               detail_urls evs ≡ₚ map item_url kept ++ error_urls evs) ∧
    (∀ e, r = Raise e →
       ∃ page st0, page ∈ pages ∧
                   fetch_urls page st0 = (Raise e, (w', snd st ++ evs))).
Proof.
  induction pages as [|page rest IH]; intros results st.
  - exists (Ok results), (fst st), []. unfold Scraper.runs. simpl.
    rewrite app_nil_r. destruct st. split; [done|]. split; [done|].
    split; [|discriminate].
    intros results' [= <-]. split; [done|]. exists []. by rewrite app_nil_r.
  - destruct (fetch_urls_runs page st) as (r1 & w1 & evs1 & Hrun1 & Hwarn).
    destruct (warnings_are_silent evs1 Hwarn) as (Hl1 & Hd1 & He1 & _).
    unfold Scraper.runs in *. rewrite scrape_pages_cons, Hrun1.
    destruct r1 as [urls|e].
    + destruct (scrape_urls_runs urls results
                  (w1, snd st ++ Fetch (Listing page) (get_list_url page) force_tor :: evs1))
        as (kept1 & w2 & evs2 & Hrun2 & Hl2 & Hd2 & Hsub2 & Hperm2).
      unfold Scraper.runs in Hrun2. rewrite Hrun2.
      destruct (IH (results ++ kept1)
                  (w2, snd (w1, snd st ++ Fetch (Listing page) (get_list_url page) force_tor
                                  :: evs1) ++ evs2))
        as (r & w' & evs3 & Hrun3 & Hpre & Hok & Herr).
      simpl snd in *.
      exists r, w',
        (Fetch (Listing page) (get_list_url page) force_tor :: evs1 ++ evs2 ++ evs3).
      assert (Htrace :
        ((snd st ++ Fetch (Listing page) (get_list_url page) force_tor :: evs1) ++ evs2)
          ++ evs3
        = snd st ++ Fetch (Listing page) (get_list_url page) force_tor
                     :: evs1 ++ evs2 ++ evs3).
      { by rewrite <- !app_assoc. }
      rewrite Htrace in Hrun3. split; [exact Hrun3|].
      assert (Hlist : listing_pages
                        (Fetch (Listing page) (get_list_url page) force_tor
                           :: evs1 ++ evs2 ++ evs3)
                      = page :: listing_pages evs3).
      { change (page :: listing_pages (evs1 ++ evs2 ++ evs3) = page :: listing_pages evs3).
        by rewrite !listing_pages_app, Hl1, Hl2. }
      assert (Hdet : detail_urls
                       (Fetch (Listing page) (get_list_url page) force_tor
                          :: evs1 ++ evs2 ++ evs3)
                     = urls ++ detail_urls evs3).
      { change (detail_urls (evs1 ++ evs2 ++ evs3) = urls ++ detail_urls evs3).
        by rewrite !detail_urls_app, Hd1, Hd2. }
      assert (Herrs : error_urls
                        (Fetch (Listing page) (get_list_url page) force_tor
                           :: evs1 ++ evs2 ++ evs3)
                      = error_urls evs2 ++ error_urls evs3).
      { change (error_urls (evs1 ++ evs2 ++ evs3) = error_urls evs2 ++ error_urls evs3).
        by rewrite !error_urls_app, He1. }
      rewrite Hlist, Hdet, Herrs.
      split; [by apply prefix_cons|]. split.
      * intros results' Hr. destruct (Hok results' Hr) as (Hall & kept3 & -> & Hsub3 & Hperm3).
        split; [by rewrite Hall|]. exists (kept1 ++ kept3).
        split; [by rewrite app_assoc|]. rewrite map_app.
        split; [by apply sublist_app|].
        rewrite Hperm3, Hperm2. solve_Permutation.
      * intros e Hr. destruct (Herr e Hr) as (page' & st0 & Hin & Hfail).
        exists page', st0. split; [by apply list_elem_of_further|].
        rewrite Hfail, Htrace. reflexivity.
    + exists (Raise e), w1, (Fetch (Listing page) (get_list_url page) force_tor :: evs1).
      split; [reflexivity|].
      change (listing_pages (Fetch (Listing page) (get_list_url page) force_tor :: evs1))
        with (page :: listing_pages evs1).
      rewrite Hl1. split; [apply prefix_cons, prefix_nil|].
      split; [discriminate|].
      intros e' [= <-]. exists page, st. split; [apply list_elem_of_here|exact Hrun1].
Qed.

(** [scrape] after a first page that could be read. *)
Lemma scrape_after_discovery max_page (st : state World) response w1 discovered :
  client_get (get_list_url 1) force_tor (fst st) = (Ok response, w1) →
  get_last_page_num (text response) = Ok discovered →
  scrape max_page st
  = scrape_pages (seqZ 1 (Z.min discovered max_page)) []
      (w1, snd st ++ [Fetch Discover (get_list_url 1) force_tor]).
Proof.
  intros Hget Hnum. unfold Scraper.scrape, bind.
  rewrite (client_get_text_runs Discover (get_list_url 1) st), Hget. simpl.
  unfold lift. fold (text response). rewrite Hnum. unfold range_from_1.
  replace (Z.min discovered max_page)
    with (if max_page <? discovered then max_page else discovered)
    by (destruct (Z.ltb_spec max_page discovered); lia).
  f_equal. f_equal. lia.
Qed.

Lemma fetch_urls_ok page (st : state World) response w' root container :
  client_get (get_list_url page) force_tor (fst st) = (Ok response, w') →
  BeautifulSoup (text response) = Ok root →
  select_one root list_selector = Some container →
  fetch_urls page st
  = (Ok (link_urls container),
     (w', snd st ++ [Fetch (Listing page) (get_list_url page) force_tor])).
Proof.
  intros Hget Hsoup Hsel. unfold Scraper.fetch_urls, bind.
  rewrite (client_get_text_runs (Listing page) (get_list_url page) st), Hget. simpl.
  unfold Scraper.parse_urls, soup, lift, bind. fold (text response).
  rewrite Hsoup, Hsel. reflexivity.
Qed.

Lemma fetch_content_ok url (st : state World) response w' :
  client_get url force_tor (fst st) = (Ok response, w') →
  is_ok (BeautifulSoup (replace br_tag NL (text response))) = true →
  ∃ content evs,
    fetch_content url st
    = (Ok content, (w', snd st ++ Fetch Detail url force_tor :: evs)) ∧
    Forall is_warning evs.
Proof.
  intros Hget Hsoup. unfold Scraper.fetch_content, bind.
  rewrite (client_get_text_runs Detail url st), Hget. simpl.
  destruct (parse_content_runs (text response)
              (w', snd st ++ [Fetch Detail url force_tor]))
    as (r & evs & Hrun & Hwarn & Hcase).
  unfold Scraper.runs in Hrun. fold (text response). rewrite Hrun. simpl.
  destruct (BeautifulSoup _) as [root|e]; [|discriminate].
  assert (∃ content, r = Ok content) as [content ->].
  { destruct (select_one root content_selector); destruct Hcase as [-> _]; eauto. }
  exists content, evs. split; [by rewrite <- app_assoc|exact Hwarn].
Qed.

(** A listing page that answers and parses gives its links, whether or not
    it has the container. *)
Lemma fetch_urls_returns page (st : state World) response w' :
  client_get (get_list_url page) force_tor (fst st) = (Ok response, w') →
  is_ok (BeautifulSoup (text response)) = true →
  ∃ urls st1, fetch_urls page st = (Ok urls, st1).
Proof.
  intros Hget Hsoup. unfold Scraper.fetch_urls, bind.
  rewrite (client_get_text_runs (Listing page) (get_list_url page) st), Hget. simpl.
  destruct (parse_urls_runs (text response)
              (w', snd st ++ [Fetch (Listing page) (get_list_url page) force_tor]))
    as (r & evs & Hrun & _ & Hcase).
  unfold Scraper.runs in Hrun. fold (text response). rewrite Hrun.
  destruct (BeautifulSoup (text response)) as [root|e]; [|discriminate].
  destruct (select_one root list_selector); destruct Hcase as [-> _]; eauto.
Qed.

(** The outer loop over two runs of pages is the loop over the first run
    followed, unless that raised, by the loop over the second. *)
Lemma scrape_pages_app pages1 pages2 : ∀ results (st : state World),
  scrape_pages (pages1 ++ pages2) results st
  = match scrape_pages pages1 results st with
    | (Ok results1, st1) => scrape_pages pages2 results1 st1
    | (Raise e, st1) => (Raise e, st1)
    end.
Proof.
  induction pages1 as [|page rest IH]; intros results st; [reflexivity|].
  rewrite <- app_comm_cons, !scrape_pages_cons.
  destruct (fetch_urls page st) as [[urls|e] st1]; [|reflexivity].
  destruct (scrape_urls urls results st1) as [[results'|e] st2]; [apply IH|reflexivity].
Qed.

(** A listing page that cannot be read ends the loop there, whatever the
    pages before it gave and whatever pages would follow. *)
Lemma scrape_pages_stops done page rest results (st : state World)
    results1 st1 e st2 :
  scrape_pages done results st = (Ok results1, st1) →
  fetch_urls page st1 = (Raise e, st2) →
  scrape_pages (done ++ page :: rest) results st = (Raise e, st2).
Proof.
  intros Hdone Hfail. rewrite scrape_pages_app, Hdone, scrape_pages_cons, Hfail.
  reflexivity.
Qed.

(** The loop raises only in that way. *)
Lemma scrape_pages_raises pages : ∀ results (st : state World) e st',
  scrape_pages pages results st = (Raise e, st') →
  ∃ done page rest results1 st1,
    pages = done ++ page :: rest ∧
    scrape_pages done results st = (Ok results1, st1) ∧
    fetch_urls page st1 = (Raise e, st').
Proof.
  induction pages as [|page rest IH]; intros results st e st' Hrun; [discriminate|].
  rewrite scrape_pages_cons in Hrun.
  destruct (fetch_urls page st) as [[urls|e1] st1] eqn:Hfetch.
  - destruct (scrape_urls_runs urls results st1) as (kept & w2 & evs2 & Hinner & _).
    unfold Scraper.runs in Hinner. rewrite Hinner in Hrun.
    destruct (IH _ _ _ _ Hrun) as (done & page' & rest' & results1 & st2 & -> & Hdone & Hfail).
    exists (page :: done), page', rest', results1, st2.
    split; [reflexivity|]. split; [|exact Hfail].
    by rewrite scrape_pages_cons, Hfetch, Hinner.
  - injection Hrun as <- <-. exists [], page, rest, results, st.
    split; [reflexivity|]. split; [reflexivity|exact Hfetch].
Qed.

(** The loop returns when every listing page answers and parses. *)
Lemma scrape_pages_returns pages : ∀ results (st : state World),
  (∀ page w, page ∈ pages →
     ∃ listed w2, client_get (get_list_url page) force_tor w = (Ok listed, w2) ∧
                  is_ok (BeautifulSoup (text listed)) = true) →
  ∃ results' st', scrape_pages pages results st = (Ok results', st').
Proof.
  induction pages as [|page rest IH]; intros results st Hread.
  - by exists results, st.
  - destruct (Hread page (fst st) ltac:(apply list_elem_of_here))
      as (listed & w2 & Hget & Hsoup).
    destruct (fetch_urls_returns page st listed w2 Hget Hsoup) as (urls & st1 & Hfetch).
    destruct (scrape_urls_runs urls results st1) as (kept & w3 & evs3 & Hinner & _).
    unfold Scraper.runs in Hinner.
    rewrite scrape_pages_cons, Hfetch, Hinner. apply IH.
    intros page' w Hin. apply Hread. by apply list_elem_of_further.
Qed.

(** Where [range(1, n + 1)] splits. *)
Lemma seqZ_split_at (m : Z) (done : list Z) (page : Z) (rest : list Z) :
  seqZ 1 m = done ++ page :: rest →
  1 <= page <= m ∧ done = seqZ 1 (page - 1) ∧ done ++ [page] = seqZ 1 page.
Proof.
  intros Hsplit.
  assert (Hat : seqZ 1 m !! length done = Some page).
  { rewrite Hsplit. by apply list_lookup_middle. }
  apply lookup_seqZ in Hat as [Hpage Hlt].
  assert (Hdone : done = seqZ 1 (page - 1)).
  { assert (Hcut : seqZ 1 m = seqZ 1 (page - 1) ++ seqZ (1 + (page - 1)) (m - (page - 1))).
    { rewrite <- seqZ_app by lia. f_equal. lia. }
    rewrite Hcut in Hsplit.
    assert (Hlen : length (seqZ 1 (page - 1)) = length done).
    { rewrite length_seqZ. lia. }
    by destruct (app_inj_1 _ _ _ _ Hlen Hsplit) as [<- _]. }
  split; [lia|]. split; [exact Hdone|].
  assert (Hupto : seqZ 1 page = seqZ 1 (page - 1) ++ [page]).
  { replace (seqZ 1 page) with (seqZ 1 ((page - 1) + 1)) by (f_equal; lia).
    rewrite (seqZ_app 1 (page - 1) 1) by lia. f_equal.
    rewrite (seqZ_cons (1 + (page - 1)) 1) by lia.
    rewrite (seqZ_nil _ (Z.pred 1)) by lia. f_equal. lia. }
  by rewrite Hupto, <- Hdone.
Qed.

(** The end-to-end scenario: one page allowed, three discovered, two links
    on the first page whose postings can be read. *)
Lemma scrape_first_page_only (st : state World)
    response w1 response1 w2 root container u1 u2 ra w3 rb w4 :
  client_get (get_list_url 1) force_tor (fst st) = (Ok response, w1) →
  get_last_page_num (text response) = Ok 3 →
  client_get (get_list_url 1) force_tor w1 = (Ok response1, w2) →
  BeautifulSoup (text response1) = Ok root →
  select_one root list_selector = Some container →
  link_urls container = [u1; u2] →
  client_get u1 force_tor w2 = (Ok ra, w3) →
  is_ok (BeautifulSoup (replace br_tag NL (text ra))) = true →
  client_get u2 force_tor w3 = (Ok rb, w4) →
  is_ok (BeautifulSoup (replace br_tag NL (text rb))) = true →
  ∃ c1 c2 evs,
    scrape 1 st
    = (Ok [mk_item u1 c1; mk_item u2 c2],
       (w4, snd st ++ Fetch Discover (get_list_url 1) force_tor :: evs)) ∧
    fetches evs = [(Listing 1, get_list_url 1); (Detail, u1); (Detail, u2)].
Proof.
  intros Hget Hnum Hget1 Hsoup Hsel Hlinks Ha Hsa Hb Hsb.
  rewrite (scrape_after_discovery 1 st response w1 3 Hget Hnum).
  change (seqZ 1 (Z.min 3 1)) with [1].
  rewrite scrape_pages_cons.
  set (tr1 := snd st ++ [Fetch Discover (get_list_url 1) force_tor]).
  rewrite (fetch_urls_ok 1 (w1, tr1) response1 w2 root container Hget1 Hsoup Hsel), Hlinks.
  simpl snd. set (tr2 := tr1 ++ [Fetch (Listing 1) (get_list_url 1) force_tor]).
  rewrite scrape_urls_cons.
  destruct (fetch_content_ok u1 (w2, tr2) ra w3 Ha Hsa) as (c1 & evs1 & -> & Hw1).
  simpl snd. rewrite scrape_urls_cons.
  destruct (fetch_content_ok u2 (w3, tr2 ++ Fetch Detail u1 force_tor :: evs1) rb w4 Hb Hsb)
    as (c2 & evs2 & -> & Hw2).
  subst tr2 tr1.
  destruct (warnings_are_silent evs1 Hw1) as (_ & _ & _ & Hf1).
  destruct (warnings_are_silent evs2 Hw2) as (_ & _ & _ & Hf2).
  exists c1, c2,
    (Fetch (Listing 1) (get_list_url 1) force_tor
       :: Fetch Detail u1 force_tor :: evs1 ++ Fetch Detail u2 force_tor :: evs2).
  split.
  - simpl. by rewrite <- !app_assoc.
  - change (fetches (Fetch (Listing 1) (get_list_url 1) force_tor
              :: Fetch Detail u1 force_tor :: evs1 ++ Fetch Detail u2 force_tor :: evs2))
      with ((Listing 1, get_list_url 1) :: (Detail, u1)
              :: fetches (evs1 ++ Fetch Detail u2 force_tor :: evs2)).
    rewrite fetches_app, Hf1.
    change (fetches (Fetch Detail u2 force_tor :: evs2)) with ((Detail, u2) :: fetches evs2).
    by rewrite Hf2.
Qed.

(** C3.  [scrape] fetches listing page 1 and reads the page count off its
    pagination element: the number in the page parameter of the last link of
    that element, and 1 when the element, a link in it or the parameter is
    missing.  With a limit of at least one page, [fetch_urls] is then called
    for pages 1, 2, ... in order and never beyond min(discovered, max_page).
    When every one of these listing pages answers and parses, the run
    returns and has called it for exactly those pages; the items returned
    are the detail urls fetched, less those logged as failed.  The run
    raises only when [fetch_urls] raises at some page, after the pages
    before it went through, and then that page is the last one asked for.
    With a limit of 1, a page count of 3 and two links on page 1 whose
    postings can be read, exactly those two items are returned, and the only
    fetches are page 1 (twice) and the two postings. *)
Theorem scrape_visits_pages_up_to_min max_page (st : state World)
    response w1 discovered :
  1 <= max_page →
  client_get (get_list_url 1) force_tor (fst st) = (Ok response, w1) →
  get_last_page_num (text response) = Ok discovered →
  (∃ root,
     BeautifulSoup (text response) = Ok root ∧
     discovered =
       match select_one root pagination_selector with
       | None => 1
       | Some pagination =>
           match last (find_all_links pagination) with
           | None => 1
           | Some last_link =>
               match search_page_param (default "" (attr_get last_link "href")) with
               | Some digits => int_of_digits 0 digits
               | None => 1
               end
           end
       end) ∧
  ∃ r w' evs,
    runs (scrape max_page) st r w' (Fetch Discover (get_list_url 1) force_tor :: evs) ∧
    listing_pages evs `prefix_of` seqZ 1 (Z.min discovered max_page) ∧
    Forall (λ page, 1 <= page <= Z.min discovered max_page) (listing_pages evs) ∧
    (∀ results, r = Ok results →
       listing_pages evs = seqZ 1 (Z.min discovered max_page) ∧
       map item_url results `sublist_of` detail_urls evs ∧
       detail_urls evs ≡ₚ map item_url results ++ error_urls evs) ∧
    ((∀ page w, 1 <= page <= Z.min discovered max_page →
        ∃ listed w2, client_get (get_list_url page) force_tor w = (Ok listed, w2) ∧
                     is_ok (BeautifulSoup (text listed)) = true) →
     ∃ results, r = Ok results) ∧
    (∀ e, r = Raise e →
       ∃ page results1 st1,
         1 <= page <= Z.min discovered max_page ∧
         listing_pages evs = seqZ 1 page ∧
         scrape_pages (seqZ 1 (page - 1)) []
           (w1, snd st ++ [Fetch Discover (get_list_url 1) force_tor])
         = (Ok results1, st1) ∧
         fetch_urls page st1
         = (Raise e, (w', snd st ++ Fetch Discover (get_list_url 1) force_tor :: evs))) ∧
    (max_page = 1 → discovered = 3 →
     ∀ response1 w2 root container u1 u2 ra w3 rb w4,
       client_get (get_list_url 1) force_tor w1 = (Ok response1, w2) →
       BeautifulSoup (text response1) = Ok root →
       select_one root list_selector = Some container →
       link_urls container = [u1; u2] →
       client_get u1 force_tor w2 = (Ok ra, w3) →
       is_ok (BeautifulSoup (replace br_tag NL (text ra))) = true →
       client_get u2 force_tor w3 = (Ok rb, w4) →
       is_ok (BeautifulSoup (replace br_tag NL (text rb))) = true →
       (∃ c1 c2, r = Ok [mk_item u1 c1; mk_item u2 c2]) ∧
       fetches evs = [(Listing 1, get_list_url 1); (Detail, u1); (Detail, u2)]).
Proof.
  intros Hmax Hget Hnum. split.
  { unfold Scraper.get_last_page_num in Hnum.
    destruct (BeautifulSoup (text response)) as [root|e]; [|discriminate].
    exists root. split; [reflexivity|].
    destruct (select_one root pagination_selector) as [pagination|]; [|congruence].
    destruct (last (find_all_links pagination)) as [last_link|]; [|congruence].
    cbv zeta in Hnum.
    destruct (search_page_param (default "" (attr_get last_link "href"))); congruence. }
  set (st0 := (w1, snd st ++ [Fetch Discover (get_list_url 1) force_tor])).
  destruct (scrape_pages_runs (seqZ 1 (Z.min discovered max_page)) [] st0)
    as (r & w' & evs & Hrun & Hpre & Hok & _).
  assert (Htrace : snd st0 ++ evs
                   = snd st ++ Fetch Discover (get_list_url 1) force_tor :: evs).
  { subst st0. simpl. by rewrite <- app_assoc. }
  unfold Scraper.runs in Hrun. rewrite Htrace in Hrun.
  assert (Hscrape : scrape max_page st
                    = (r, (w', snd st ++ Fetch Discover (get_list_url 1) force_tor :: evs))).
  { rewrite (scrape_after_discovery max_page st response w1 discovered Hget Hnum).
    exact Hrun. }
  exists r, w', evs. split; [exact Hscrape|]. split; [exact Hpre|].
  split; [|split; [|split; [|split]]].
  - apply Forall_forall. intros page Hin.
    assert (Hin' : page ∈ seqZ 1 (Z.min discovered max_page)).
    { destruct Hpre as [more ->]. apply elem_of_app. by left. }
    apply elem_of_seqZ in Hin'. lia.
  - intros results Hr. destruct (Hok results Hr) as (Hall & kept & Hres & Hsub & Hperm).
    simpl in Hres. subst results. done.
  - intros Hread.
    destruct (scrape_pages_returns (seqZ 1 (Z.min discovered max_page)) [] st0)
      as (results & st' & Hreturns).
    { intros page w Hin. apply Hread. apply elem_of_seqZ in Hin. lia. }
    exists results. rewrite Hreturns in Hrun. by injection Hrun as <- _.
  - intros e ->.
    destruct (scrape_pages_raises _ _ _ _ _ Hrun)
      as (done & page & rest & results1 & st1 & Hsplit & Hdone & Hfail).
    destruct (seqZ_split_at _ _ _ _ Hsplit) as (Hpage & Hdone_eq & Hupto).
    exists page, results1, st1. split; [exact Hpage|].
    rewrite <- Hdone_eq. split; [|split; [exact Hdone|exact Hfail]].
    destruct (scrape_pages_runs done [] st0) as (r1 & wd & evs1 & Hrun1 & _ & Hok1 & _).
    unfold Scraper.runs in Hrun1. rewrite Hdone in Hrun1. injection Hrun1 as <- Hst1.
    destruct (Hok1 results1 eq_refl) as [Hlist1 _].
    destruct (fetch_urls_runs page st1) as (r2 & w2 & evs2 & Hrun2 & Hwarn).
    destruct (warnings_are_silent evs2 Hwarn) as (Hl2 & _).
    unfold Scraper.runs in Hrun2. rewrite Hfail in Hrun2.
    injection Hrun2 as _ _ Htr. rewrite Hst1 in Htr. simpl in Htr.
    rewrite <- Htrace, <- app_assoc in Htr. apply app_inv_head in Htr. subst evs.
    rewrite listing_pages_app, Hlist1.
    change (listing_pages (Fetch (Listing page) (get_list_url page) force_tor :: evs2))
      with (page :: listing_pages evs2).
    by rewrite Hl2.
  - intros -> -> response1 w2 root container u1 u2 ra w3 rb w4
      Hget1 Hsoup Hsel Hlinks Ha Hsa Hb Hsb.
    destruct (scrape_first_page_only st response w1 response1 w2 root container
                u1 u2 ra w3 rb w4 Hget Hnum Hget1 Hsoup Hsel Hlinks Ha Hsa Hb Hsb)
      as (c1 & c2 & evs' & Hrun' & Hfetch).
    rewrite Hscrape in Hrun'. injection Hrun' as Hr Hw Htr.
    apply app_inv_head in Htr. injection Htr as ->.
    split; [by exists c1, c2|exact Hfetch].
Qed.

(** C4, as the code has it.  The inner loop never raises: every url of a
    page is fetched, and each one is either kept as an item or logged as an
    error and skipped.  A listing page without its container yields no
    links, a posting without its container yields the empty content, both
    with a warning.  The outer loop returns only after [fetch_urls] has been
    called for every page, and raises only with an error of [fetch_urls],
    right after the call that raised.  Turn by turn: a posting that is read
    is appended with the content read and the loop goes on with the next
    url; a posting whose fetch or parse raises is logged, the results stay
    as they were and the loop goes on with the next url; a listing page that
    is read has its urls scraped and the loop goes on with the next page;
    a listing page whose fetch or parse raises ends the loop, and [scrape],
    with that error right there: the items gathered so far are not returned
    and no later page is asked for. *)
Theorem scrape_skips_failed_details :
  (∀ urls results (st : state World),
     ∃ kept w' evs,
       runs (scrape_urls urls results) st (Ok (results ++ kept)) w' evs ∧
       detail_urls evs = urls ∧
       map item_url kept `sublist_of` urls ∧
       urls ≡ₚ map item_url kept ++ error_urls evs) ∧
  (∀ html root (st : state World),
     BeautifulSoup html = Ok root → select_one root list_selector = None →
     ∃ msg, parse_urls html st = (Ok [], (fst st, snd st ++ [LogWarning msg]))) ∧
  (∀ html root (st : state World),
     BeautifulSoup (replace br_tag NL html) = Ok root →
     select_one root content_selector = None →
     ∃ msg, parse_content html st = (Ok "", (fst st, snd st ++ [LogWarning msg]))) ∧
  (∀ pages results (st : state World),
     ∃ r w' evs,
       runs (scrape_pages pages results) st r w' evs ∧
       (∀ results', r = Ok results' →
          listing_pages evs = pages ∧
          ∃ kept, results' = results ++ kept ∧
                  detail_urls evs ≡ₚ map item_url kept ++ error_urls evs) ∧
       (∀ e, r = Raise e →
          ∃ page st0, page ∈ pages ∧
                      fetch_urls page st0 = (Raise e, (w', snd st ++ evs)))) ∧
  (∀ url rest results (st : state World) content st1,
     fetch_content url st = (Ok content, st1) →
     scrape_urls (url :: rest) results st
     = scrape_urls rest (results ++ [mk_item url content]) st1) ∧
  (∀ url rest results (st : state World) e st1,
     fetch_content url st = (Raise e, st1) →
     scrape_urls (url :: rest) results st
     = scrape_urls rest results (fst st1, snd st1 ++ [LogError url e])) ∧
  (∀ page rest results (st : state World) urls st1,
     fetch_urls page st = (Ok urls, st1) →
     ∃ kept st2,
       scrape_urls urls results st1 = (Ok (results ++ kept), st2) ∧
       scrape_pages (page :: rest) results st = scrape_pages rest (results ++ kept) st2) ∧
  (∀ done page rest results (st : state World) results1 st1 e st2,
     scrape_pages done results st = (Ok results1, st1) →
     fetch_urls page st1 = (Raise e, st2) →
     scrape_pages (done ++ page :: rest) results st = (Raise e, st2)) ∧
  (∀ max_page (st : state World) response w1 discovered page results1 st1 e st2,
     client_get (get_list_url 1) force_tor (fst st) = (Ok response, w1) →
     get_last_page_num (text response) = Ok discovered →
     1 <= page <= Z.min discovered max_page →
     scrape_pages (seqZ 1 (page - 1)) []
       (w1, snd st ++ [Fetch Discover (get_list_url 1) force_tor])
     = (Ok results1, st1) →
     fetch_urls page st1 = (Raise e, st2) →
     scrape max_page st = (Raise e, st2)).
Proof.
  split; [|split; [|split; [|split; [|split; [|split; [|split; [|split]]]]]]].
  - intros urls results st.
    destruct (scrape_urls_runs urls results st)
      as (kept & w' & evs & Hrun & _ & Hd & Hsub & Hperm).
    by exists kept, w', evs.
  - intros html root st Hsoup Hsel.
    destruct (parse_urls_runs html st) as (r & evs & Hrun & _ & Hcase).
    rewrite Hsoup, Hsel in Hcase. destruct Hcase as (-> & msg & ->).
    by exists msg.
  - intros html root st Hsoup Hsel.
    destruct (parse_content_runs html st) as (r & evs & Hrun & _ & Hcase).
    rewrite Hsoup, Hsel in Hcase. destruct Hcase as (-> & msg & ->).
    by exists msg.
  - intros pages results st.
    destruct (scrape_pages_runs pages results st)
      as (r & w' & evs & Hrun & _ & Hok & Herr).
    exists r, w', evs. split; [exact Hrun|]. split; [|exact Herr].
    intros results' Hr. destruct (Hok results' Hr) as (Hall & kept & Hres & _ & Hperm).
    split; [exact Hall|]. by exists kept.
  - intros url rest results st content st1 Hfetch.
    by rewrite scrape_urls_cons, Hfetch.
  - intros url rest results st e st1 Hfetch.
    by rewrite scrape_urls_cons, Hfetch.
  - intros page rest results st urls st1 Hfetch.
    destruct (scrape_urls_runs urls results st1) as (kept & w2 & evs2 & Hinner & _).
    unfold Scraper.runs in Hinner. exists kept, (w2, snd st1 ++ evs2).
    split; [exact Hinner|]. by rewrite scrape_pages_cons, Hfetch, Hinner.
  - intros done page rest results st results1 st1 e st2. apply scrape_pages_stops.
  - intros max_page st response w1 discovered page results1 st1 e st2
      Hget Hnum Hpage Hdone Hfail.
    rewrite (scrape_after_discovery max_page st response w1 discovered Hget Hnum).
    replace (seqZ 1 (Z.min discovered max_page))
      with (seqZ 1 (page - 1) ++ page :: seqZ (page + 1) (Z.min discovered max_page - page)).
    + by apply (scrape_pages_stops _ _ _ _ _ results1 st1).
    + replace (Z.min discovered max_page)
        with ((page - 1) + (Z.min discovered max_page - (page - 1))) at 2 by lia.
      rewrite seqZ_app by lia. f_equal.
      rewrite (seqZ_cons (1 + (page - 1))) by lia. f_equal; [lia|]. f_equal; lia.
Qed.

End BaseScraperFacts.

End ScraperFacts.

(** ** The duplicate checks and the migration *)

Module MigrationFacts.
Import Store Migration.

(** The key of a raw record: its content hash together with its district. *)
Lemma raw_key_eq (r : RawRecord) (h d : string) :
  bool_decide (raw_content_hash r = h) && bool_decide (raw_district r = d) = true
  ↔ raw_key r = (h, d).
Proof.
  unfold raw_key. rewrite andb_true_iff, !bool_decide_eq_true.
  split; [intros [-> ->]; reflexivity | intros [= -> ->]; done].
Qed.

Section MigrateFacts.

Variable content_hash : string → string.

Local Abbreviation raw_exists := (raw_exists content_hash).
Local Abbreviation add_raw := (add_raw content_hash).
Local Abbreviation migrate_raw_item := (migrate_raw_item content_hash).
Local Abbreviation migrate_raw_district := (migrate_raw_district content_hash).
Local Abbreviation migrate_raw_data := (migrate_raw_data content_hash).

Lemma raw_exists_iff db content district :
  raw_exists db content district = true
  ↔ (content_hash content, district) ∈ raw_keys db.
Proof.
  unfold Store.raw_exists, raw_keys.
  induction (funeral_raw db) as [|r rs IH]; simpl.
  - split; [discriminate|]. intros H. by apply elem_of_nil in H.
  - rewrite orb_true_iff, IH, elem_of_cons, raw_key_eq.
    split; (intros [H | H]; [left | right]); done.
Qed.

Lemma raw_keys_add_raw db district url content n :
  raw_keys (snd (add_raw db district url content n))
  = raw_keys db ++ [(content_hash content, district)].
Proof. unfold raw_keys. simpl. by rewrite map_app. Qed.

(** One item of the migration: its key is in the store afterwards, nothing
    is lost, and keys that were distinct stay distinct. *)
Lemma migrate_raw_item_keys district it count db :
  let db' := snd (migrate_raw_item district it (count, db)) in
  let key := (content_hash (default "" (j_content it)), district) in
  key ∈ raw_keys db' ∧
  (∀ k, k ∈ raw_keys db → k ∈ raw_keys db') ∧
  (NoDup (raw_keys db) → NoDup (raw_keys db')).
Proof.
  cbv zeta. unfold Migration.migrate_raw_item.
  destruct (raw_exists db (default "" (j_content it)) district) eqn:Hex.
  - simpl. apply raw_exists_iff in Hex. done.
  - simpl. set (db' := mk_db _ _ _).
    assert (Hk : raw_keys db'
                 = raw_keys db ++ [(content_hash (default "" (j_content it)), district)]).
    { unfold raw_keys, db'. simpl. by rewrite map_app. }
    rewrite Hk. clear Hk.
    assert (Hnew : (content_hash (default "" (j_content it)), district) ∉ raw_keys db).
    { intros Hin. apply raw_exists_iff in Hin. congruence. }
    split; [apply elem_of_app; right; apply list_elem_of_here|].
    split; [intros k Hk; apply elem_of_app; by left|].
    intros Hnd. apply NoDup_app. split; [exact Hnd|].
    split; [|apply NoDup_singleton].
    intros k Hk Hk'. apply list_elem_of_singleton in Hk'. by subst k.
Qed.

Lemma migrate_raw_district_keys district items : ∀ (acc : Z * Db),
  let db' := snd (migrate_raw_district acc (district, items)) in
  (∀ it, it ∈ items →
     (content_hash (default "" (j_content it)), district) ∈ raw_keys db') ∧
  (∀ k, k ∈ raw_keys (snd acc) → k ∈ raw_keys db') ∧
  (NoDup (raw_keys (snd acc)) → NoDup (raw_keys db')).
Proof.
  unfold Migration.migrate_raw_district. cbn [fst snd].
  induction items as [|it items IH]; intros [count db]; cbn [fold_left fst snd].
  - split; [|done]. intros it Hin. by apply elem_of_nil in Hin.
  - destruct (migrate_raw_item_keys district it count db) as (Hkey & Hmono & Hnd).
    destruct (migrate_raw_item district it (count, db)) as [count1 db1] eqn:Hstep.
    cbn [fst snd] in Hkey, Hmono, Hnd.
    destruct (IH (count1, db1)) as (Hall & Hmono' & Hnd'). cbn [fst snd] in Hmono', Hnd'.
    split; [|split].
    + intros it' Hin. apply elem_of_cons in Hin as [-> | Hin]; [|by apply Hall].
      by apply Hmono'.
    + intros k Hk. by apply Hmono', Hmono.
    + intros H. by apply Hnd', Hnd.
Qed.

Lemma migrate_raw_fold_keys data : ∀ (acc : Z * Db),
  let db' := snd (fold_left migrate_raw_district data acc) in
  (∀ district items it, (district, items) ∈ data → it ∈ items →
     (content_hash (default "" (j_content it)), district) ∈ raw_keys db') ∧
  (∀ k, k ∈ raw_keys (snd acc) → k ∈ raw_keys db') ∧
  (NoDup (raw_keys (snd acc)) → NoDup (raw_keys db')).
Proof.
  induction data as [|[district items] data IH]; intros acc; cbn [fold_left].
  - split; [|done]. intros district items it Hin. by apply elem_of_nil in Hin.
  - destruct (migrate_raw_district_keys district items acc) as (Hall & Hmono & Hnd).
    destruct (IH (migrate_raw_district acc (district, items))) as (Hall' & Hmono' & Hnd').
    split; [|split].
    + intros d its it Hin Hit. apply elem_of_cons in Hin as [[= -> ->] | Hin].
      * by apply Hmono', Hall.
      * by apply (Hall' d its).
    + intros k Hk. by apply Hmono', Hmono.
    + intros H. by apply Hnd', Hnd.
Qed.

Lemma migrate_raw_data_keys data db :
  let db' := snd (migrate_raw_data data db) in
  (∀ district items it, (district, items) ∈ data → it ∈ items →
     raw_exists db' (default "" (j_content it)) district = true) ∧
  (NoDup (raw_keys db) → NoDup (raw_keys db')).
Proof.
  cbv zeta. unfold Migration.migrate_raw_data.
  destruct (migrate_raw_fold_keys data (0, db)) as (Hall & _ & Hnd).
  destruct data as [|entry data].
  - simpl. split; [|done]. intros district items it Hin. by apply elem_of_nil in Hin.
  - split; [|exact Hnd].
    intros district items it Hin Hit. apply raw_exists_iff. by apply (Hall district items).
Qed.

Lemma mark_all_sent to_migrate : ∀ count db,
  funeral_sent (snd (mark_all to_migrate (count, db))) = funeral_sent db ++ to_migrate.
Proof.
  unfold mark_all.
  induction to_migrate as [|h rest IH]; intros count db; simpl.
  - by rewrite app_nil_r.
  - rewrite IH. simpl. by rewrite <- app_assoc.
Qed.

(** [migrate_sent_data] marks exactly the given hashes that the store does
    not hold yet, whatever else is stored about them. *)
Lemma migrate_sent_data_sent hashes db :
  funeral_sent (snd (migrate_sent_data hashes db))
  = funeral_sent db ++ filter (λ h, is_already_sent db h = false) hashes.
Proof.
  unfold migrate_sent_data. rewrite mark_all_sent. f_equal.
  apply list_filter_iff. intros h. unfold is_already_sent, get_sent_hashes.
  rewrite elem_of_list_to_set, bool_decide_eq_false. reflexivity.
Qed.

Lemma is_already_analyzed_iff db h :
  is_already_analyzed db h = true
  ↔ ∃ r, r ∈ funeral_analyzed db ∧ an_content_hash r = h.
Proof.
  unfold is_already_analyzed, get_analyzed_hashes.
  rewrite bool_decide_eq_true, list_elem_of_fmap.
  split; intros (r & H1 & H2); exists r; done.
Qed.

Lemma record_sent_unique db h :
  NoDup (funeral_sent db) → NoDup (funeral_sent (record_sent db h)).
Proof.
  intros Hnd. unfold record_sent, is_already_sent, get_sent_hashes.
  case_bool_decide as Hin; [exact Hnd|]. simpl.
  apply NoDup_app. split; [exact Hnd|]. split; [|apply NoDup_singleton].
  intros k Hk Hk'. apply list_elem_of_singleton in Hk'. by subst k.
Qed.

Lemma record_analyzed_unique db r :
  NoDup (get_analyzed_hashes db) → NoDup (get_analyzed_hashes (record_analyzed db r)).
Proof.
  intros Hnd. unfold record_analyzed, is_already_analyzed.
  case_bool_decide as Hin; [exact Hnd|].
  unfold get_analyzed_hashes in *. simpl. rewrite map_app. simpl.
  apply NoDup_app. split; [exact Hnd|]. split; [|apply NoDup_singleton].
  intros k Hk Hk'. apply list_elem_of_singleton in Hk'. by subst k.
Qed.

(** C5.  The raw duplicate check answers by content hash and district: a
    record stored for one district makes the same content a duplicate there
    and leaves the answer for every other district as it was, and the
    migration stores a posting listed under several districts for each of
    them, once per district.  The analyzed and sent checks answer by content
    hash alone, whatever district the stored record names; the migration of
    sent markers adds exactly the hashes not yet marked; and writing behind
    those checks keeps one marker per content hash. *)
Theorem duplicate_checks_keys :
  (∀ db content district,
     raw_exists db content district = true
     ↔ ∃ r, r ∈ funeral_raw db ∧ raw_content_hash r = content_hash content
            ∧ raw_district r = district) ∧
  (∀ db d1 d2 url content n, d1 ≠ d2 →
     let db' := snd (add_raw db d1 url content n) in
     raw_exists db' content d1 = true ∧
     raw_exists db' content d2 = raw_exists db content d2) ∧
  (∀ data db,
     let db' := snd (migrate_raw_data data db) in
     (∀ district items it, (district, items) ∈ data → it ∈ items →
        raw_exists db' (default "" (j_content it)) district = true) ∧
     (NoDup (raw_keys db) → NoDup (raw_keys db'))) ∧
  (∀ db h,
     (is_already_analyzed db h = true
      ↔ ∃ r, r ∈ funeral_analyzed db ∧ an_content_hash r = h) ∧
     (is_already_sent db h = true ↔ h ∈ funeral_sent db)) ∧
  (∀ db r, is_already_analyzed (snd (add_analyzed db r)) (an_content_hash r) = true) ∧
  (∀ hashes db,
     funeral_sent (snd (migrate_sent_data hashes db))
     = funeral_sent db ++ filter (λ h, is_already_sent db h = false) hashes) ∧
  (∀ db h, NoDup (funeral_sent db) → NoDup (funeral_sent (record_sent db h))) ∧
  (∀ db r, NoDup (get_analyzed_hashes db) →
           NoDup (get_analyzed_hashes (record_analyzed db r))).
Proof.
  split; [|split; [|split; [|split; [|split; [|split; [|split]]]]]].
  - intros db content district. rewrite raw_exists_iff. unfold raw_keys.
    rewrite list_elem_of_fmap. unfold raw_key. split.
    + intros (r & [= H1 H2] & Hin). exists r. done.
    + intros (r & Hin & H1 & H2). exists r. by rewrite H1, H2.
  - intros db d1 d2 url content n Hne. cbv zeta. split.
    + apply raw_exists_iff. rewrite raw_keys_add_raw. apply elem_of_app. right.
      apply list_elem_of_here.
    + apply eq_true_iff_eq. rewrite !raw_exists_iff, raw_keys_add_raw, elem_of_app.
      rewrite list_elem_of_singleton. split; [|by left].
      intros [H | [= H]]; [exact H | congruence].
  - apply migrate_raw_data_keys.
  - intros db h. split; [apply is_already_analyzed_iff|].
    unfold is_already_sent, get_sent_hashes. apply bool_decide_eq_true.
  - intros db r. apply is_already_analyzed_iff. exists r. split; [|done].
    simpl. apply elem_of_app. right. apply list_elem_of_here.
  - apply migrate_sent_data_sent.
  - apply record_sent_unique.
  - apply record_analyzed_unique.
Qed.

End MigrateFacts.

End MigrationFacts.

(** ** The statements at work on the small worlds *)

Module Scenarios.
Import Py.

Example notification_to_both_channels :
  fst (Telegram.Mock.send_funeral_notification 0 "main" "북구") = true.
Proof. vm_compute. reflexivity. Qed.

Example notification_at_boundary_times :
  map Telegram.is_night
    [Telegram.mk_time 19 59 59 0; Telegram.mk_time 20 0 0 0;
     Telegram.mk_time 6 59 59 0; Telegram.mk_time 7 0 0 0]
  = [false; true; true; false].
Proof. reflexivity. Qed.

Lemma send_funeral_notification_iff_both_witness :
  fst (Telegram.Mock.send_funeral_notification 0 "down" "북구") = false ∧
  length (snd (snd (Telegram.Mock.send_funeral_notification 0 "down" "북구"))) = 2%nat.
Proof.
  pose proof (TelegramFacts.send_funeral_notification_iff_both unit
                Telegram.Mock.requests_get (λ _, 0) Telegram.Mock.sleep_ms
                (Telegram.Mock.config "down") "북구" "http://gu/a" 0
                [("이름", "홍길동")] ((), [])) as Hspec.
  cbv zeta in Hspec. destruct Hspec as [_ Hboth].
  destruct (Hboth "-4130128744" ltac:(vm_compute; reflexivity)) as (Htrace & _ & Hfalse).
  split.
  - apply Hfalse. right. vm_compute. reflexivity.
  - unfold Telegram.Mock.send_funeral_notification. rewrite Htrace. reflexivity.
Defined.

Lemma send_funeral_notification_without_channel_witness :
  Telegram.Mock.send_funeral_notification 0 "main" "서울" = (false, ((), [])).
Proof.
  apply TelegramFacts.send_funeral_notification_without_channel.
  left. vm_compute. reflexivity.
Defined.

(** 12:00 UTC is 21:00 in Korea. *)
Lemma night_time_marks_sends_silent_witness :
  map Telegram.ev_disable_notification
    (snd (snd (Telegram.Mock.send_funeral_notification 43200000000 "main" "북구")))
  = [true; true].
Proof.
  destruct (TelegramFacts.night_time_marks_sends_silent unit
              Telegram.Mock.requests_get (λ _, 43200000000) Telegram.Mock.sleep_ms)
    as (_ & _ & Hflag & _).
  unfold Telegram.Mock.send_funeral_notification.
  rewrite (Hflag (Telegram.Mock.config "main") "북구" "http://gu/a" 0
             [("이름", "홍길동")] ((), []) "-4130128744" ltac:(vm_compute; reflexivity)).
  reflexivity.
Defined.

Lemma tor_retry_keeps_direct_timeout_witness :
  ∃ proxied,
    HttpClient.issued unit (HttpClient.Mock.get "http://gu" ∅) ((), [])
    = [HttpClient.mk_request HttpClient.GET "http://gu" (HttpClient.get_kwargs ∅); proxied] ∧
    HttpClient.req_kwargs proxied !! "proxies"
    = Some (HttpClient.KDict (Config.proxies HttpClient.Mock.tor_config)) ∧
    HttpClient.req_kwargs proxied !! "timeout" = Some (HttpClient.KInt 30).
Proof.
  destruct (HttpClientFacts.tor_retry_keeps_direct_timeout unit
              HttpClient.Mock.session_request HttpClient.Mock.tor_config)
    as [_ Hblocked].
  apply (Hblocked "http://gu" ((), []) 403 "" "utf-8" ()).
  - reflexivity.
  - apply list_elem_of_here.
  - vm_compute. reflexivity.
Defined.

Example page_param_examples :
  map Scraper.search_page_param
    ["?menu=1&startPage=12&x=3"; "?startPage=1234567"; "?startPage=&startPage=7"; "?page=3"]
  = [Some "12"; Some "12345"; Some "7"; None] ∧
  Scraper.int_of_digits 0 "00042" = 42.
Proof. split; reflexivity. Qed.

Example message_text_examples :
  Telegram.html_escape "a<b>&'c'" = "a&lt;b&gt;&amp;&#x27;c&#x27;" ∧
  replace "&>&" "&" "http://gu/a?x=1&>&y=2" = "http://gu/a?x=1&y=2" ∧
  replace "<br/>" NL "a<br/>b" = "a" +:+ NL +:+ "b" ∧
  Config.format_funeral_title "북구" 2 = "<b>🔔 [북구] 부고가 수정되었습니다(ver. 2)</b>".
Proof. repeat split; reflexivity. Qed.

Example scrape_two_items_of_page_one :
  Scraper.Mock.scrape Scraper.Mock.web 1 ((), [])
  = (Ok [Scraper.mk_item "http://gu/a" "A"; Scraper.mk_item "http://gu/b" "B"],
     ((), [Scraper.Fetch Scraper.Discover "http://gu/list?startPage=1" false;
           Scraper.Fetch (Scraper.Listing 1) "http://gu/list?startPage=1" false;
           Scraper.Fetch Scraper.Detail "http://gu/a" false;
           Scraper.Fetch Scraper.Detail "http://gu/b" false])).
Proof. vm_compute. reflexivity. Qed.

Lemma scrape_visits_pages_up_to_min_witness :
  fst (Scraper.Mock.scrape Scraper.Mock.web 2 ((), []))
  = Ok [Scraper.mk_item "http://gu/a" "A"; Scraper.mk_item "http://gu/b" "B";
        Scraper.mk_item "http://gu/c" "C"] ∧
  Scraper.listing_pages (snd (snd (Scraper.Mock.scrape Scraper.Mock.web 2 ((), []))))
  = [1; 2].
Proof.
  destruct (ScraperFacts.scrape_visits_pages_up_to_min (site := Scraper.Mock.site) unit
              (Scraper.Mock.client_get Scraper.Mock.web) Scraper.Mock.decode
              Scraper.Mock.BeautifulSoup Scraper.Mock.select_one Scraper.Mock.strip
              2 ((), []) (Scraper.Mock.served "list-1") () 3
              ltac:(lia) eq_refl ltac:(vm_compute; reflexivity))
    as (_ & r & w' & evs & Hrun & _ & _ & Hok & Hreturns & _).
  destruct Hreturns as [results ->].
  { intros page [] Hpage.
    assert (page = 1 ∨ page = 2) as [-> | ->] by lia;
      eexists _, _; split; vm_compute; reflexivity. }
  destruct (Hok results eq_refl) as (Hpages & _).
  unfold Scraper.runs in Hrun. unfold Scraper.Mock.scrape. rewrite Hrun.
  split.
  - pose proof Hrun as Hvalue. vm_compute in Hvalue.
    injection Hvalue as Hresults _. simpl. by rewrite <- Hresults.
  - change (Scraper.listing_pages evs = [1; 2]). exact Hpages.
Defined.

(** With the second listing page unreachable the run ends with that error:
    the posting of page 1 that was read is not returned, and page 3, which
    would have answered, is never asked for. *)
Lemma scrape_stops_at_failed_listing_page :
  let run := Scraper.Mock.scrape Scraper.Mock.web_page2_down 3 ((), []) in
  fst run = Raise ConnectionError ∧
  Scraper.listing_pages (snd (snd run)) = [1; 2] ∧
  Scraper.detail_urls (snd (snd run)) = ["http://gu/a"; "http://gu/b"] ∧
  Scraper.error_urls (snd (snd run)) = ["http://gu/b"] ∧
  is_ok (fst (Scraper.Mock.client_get Scraper.Mock.web_page2_down
                "http://gu/list?startPage=3" false ())) = true.
Proof. vm_compute. repeat split; reflexivity. Qed.

(** On the same site the posting that cannot be reached is logged and
    skipped, and the one after it is read and kept. *)
Lemma scrape_skips_failed_details_witness :
  Scraper.Mock.scrape_urls Scraper.Mock.web_page2_down
    ["http://gu/b"; "http://gu/a"] ((), [])
  = (Ok [Scraper.mk_item "http://gu/a" "A"],
     ((), [Scraper.Fetch Scraper.Detail "http://gu/b" false;
           Scraper.LogError "http://gu/b" ConnectionError;
           Scraper.Fetch Scraper.Detail "http://gu/a" false])).
Proof.
  destruct (ScraperFacts.scrape_skips_failed_details (site := Scraper.Mock.site) unit
              (Scraper.Mock.client_get Scraper.Mock.web_page2_down) Scraper.Mock.decode
              Scraper.Mock.BeautifulSoup Scraper.Mock.select_one Scraper.Mock.strip)
    as (_ & _ & _ & _ & Hkeep & Hskip & _).
  unfold Scraper.Mock.scrape_urls.
  rewrite (Hskip "http://gu/b" ["http://gu/a"] [] ((), []) ConnectionError
             ((), [Scraper.Fetch Scraper.Detail "http://gu/b" false])
             ltac:(vm_compute; reflexivity)).
  simpl fst. simpl snd. simpl app.
  rewrite (Hkeep "http://gu/a" [] []
             ((), [Scraper.Fetch Scraper.Detail "http://gu/b" false;
                   Scraper.LogError "http://gu/b" ConnectionError]) "A"
             ((), [Scraper.Fetch Scraper.Detail "http://gu/b" false;
                   Scraper.LogError "http://gu/b" ConnectionError;
                   Scraper.Fetch Scraper.Detail "http://gu/a" false])
             ltac:(vm_compute; reflexivity)).
  reflexivity.
Defined.

Lemma duplicate_checks_keys_witness :
  let db := snd (Store.add_raw (λ c, c) (Store.mk_db [] [] []) "북구" "http://gu/a" "text" 0) in
  Store.raw_exists (λ c, c) db "text" "북구" = true ∧
  Store.raw_exists (λ c, c) db "text" "동구" = false.
Proof.
  destruct (MigrationFacts.duplicate_checks_keys (λ c, c)) as (_ & Hdistrict & _).
  destruct (Hdistrict (Store.mk_db [] [] []) "북구" "동구" "http://gu/a" "text" 0
              ltac:(discriminate)) as [Hsame Hother].
  split; [exact Hsame|]. cbv zeta. rewrite Hother. reflexivity.
Defined.

End Scenarios.

(** ** More about the HTTP client *)

Module ClientPaths.
Import Py Config HttpClient HttpClientFacts Worlds.

Section Paths.

Variable World : Type.
Variable session_request : World → request → result exn response * World.
Variable tor_config : TorConfig.

Local Abbreviation request_once := (request_once World session_request).
Local Abbreviation get := (get World session_request tor_config).
Local Abbreviation post := (post World session_request tor_config).
Local Abbreviation tor_kwargs := (tor_kwargs tor_config).
Local Abbreviation falls_back := (falls_back tor_config).
Local Abbreviation issued := (issued World).

Lemma request_once_ok m url kwargs (st st' : state World) r :
  request_once m url kwargs st = (Ok r, st') → is_error r = false.
Proof.
  unfold HttpClient.request_once, bind, session_call, raise_for_status, is_error.
  destruct (session_request (fst st) _) as [[r0|e] w]; simpl; [|discriminate].
  destruct (_ && _) eqn:E; simpl; [discriminate|].
  intros [= <- _]. exact E.
Qed.

(** X1.  A response that [get] or [post] returns never has a 4xx or 5xx
    status: on every path the status check has passed. *)
Theorem returned_response_is_not_an_error url call (st st' : state World) r :
  get url call st = (Ok r, st') ∨ post url call st = (Ok r, st') →
  is_error r = false.
Proof.
  intros [H | H].
  - rewrite get_cases in H. destruct (truthy _).
    + by eapply request_once_ok.
    + destruct (request_once GET url (get_kwargs call) st) as [[r0|e] st1] eqn:E.
      * injection H as <- _. by eapply request_once_ok.
      * destruct (falls_back e); [by eapply request_once_ok|discriminate].
  - rewrite post_cases in H. destruct (truthy _).
    + by eapply request_once_ok.
    + destruct (request_once POST url (with_body call (post_kwargs call)) st)
        as [[r0|e] st1] eqn:E.
      * injection H as <- _. by eapply request_once_ok.
      * destruct (falls_back e); [by eapply request_once_ok|discriminate].
Qed.

(** X2.  With [force_tor] set, [get] and [post] make no direct attempt:
    the only request goes through the proxy, and its outcome is the
    outcome of the call. *)
Theorem force_tor_makes_no_direct_attempt url call (st : state World) :
  truthy (param call "force_tor" (KBool false)) = true →
  (get url call st = request_once GET url (tor_kwargs (get_kwargs call)) st ∧
   issued (get url call) st = [mk_request GET url (tor_kwargs (get_kwargs call))]) ∧
  (post url call st
   = request_once POST url (with_body call (tor_kwargs (post_kwargs call))) st ∧
   issued (post url call) st
   = [mk_request POST url (with_body call (tor_kwargs (post_kwargs call)))]) ∧
  tor_kwargs (get_kwargs call) !! "proxies" = Some (KDict (proxies tor_config)) ∧
  with_body call (tor_kwargs (post_kwargs call)) !! "proxies"
  = Some (KDict (proxies tor_config)).
Proof.
  intros Hforce. split; [|split; [|split]].
  - unfold HttpClient.issued. rewrite get_cases, Hforce. split; [reflexivity|].
    rewrite request_once_trace. apply drop_app_length.
  - unfold HttpClient.issued. rewrite post_cases, Hforce. split; [reflexivity|].
    rewrite request_once_trace. apply drop_app_length.
  - rewrite tor_kwargs_lookup. reflexivity.
  - unfold with_body. rewrite !lookup_insert_ne by discriminate.
    rewrite tor_kwargs_lookup. reflexivity.
Qed.

(** X3.  An error of the direct attempt that is neither of the
    ConnectionError family nor an HTTPError with a blocked status (a 404, an
    HTTPError without a response, a request exception of another class)
    reaches the caller as it is, after that one request, even with the proxy
    enabled. *)
Theorem other_errors_are_not_retried url call (st st1 : state World) e :
  truthy (param call "force_tor" (KBool false)) = false →
  request_once GET url (get_kwargs call) st = (Raise e, st1) →
  e ≠ ConnectionError →
  (∀ code, e = HTTPError (Some code) → code ∉ BLOCKED_STATUS_CODES) →
  get url call st = (Raise e, st1) ∧
  issued (get url call) st = [mk_request GET url (get_kwargs call)].
Proof.
  intros Hdirect Hrun Hconn Hcode.
  assert (Hfb : falls_back e = false).
  { destruct e as [[code|]| | |]; simpl; try reflexivity; [|done].
    rewrite bool_decide_eq_false_2; [reflexivity|]. by apply Hcode. }
  pose proof (request_once_trace World session_request GET url (get_kwargs call) st) as Htrace.
  rewrite Hrun in Htrace. simpl in Htrace.
  unfold HttpClient.issued. rewrite get_cases, Hdirect, Hrun, Hfb.
  split; [reflexivity|]. simpl. rewrite Htrace. apply drop_app_length.
Qed.

(** X4.  When a call issues two requests, the second is the first one sent
    again through the proxy: same method, same url, and the same keyword
    arguments except for [proxies]. *)
Theorem proxied_request_repeats_the_direct_one url call (st : state World) d p :
  issued (get url call) st = [d; p] ∨ issued (post url call) st = [d; p] →
  req_method p = req_method d ∧ req_url p = req_url d ∧
  req_kwargs p !! "proxies" = Some (KDict (proxies tor_config)) ∧
  ∀ k, k ≠ "proxies" → req_kwargs p !! k = req_kwargs d !! k.
Proof.
  intros [H | H].
  - destruct (get_issued World session_request tor_config url call st) as [_ [H' | [H' | H']]];
      rewrite H' in H; try discriminate.
    injection H as <- <-. simpl. repeat split.
    + rewrite tor_kwargs_lookup. reflexivity.
    + intros k Hk. rewrite tor_kwargs_lookup.
      destruct (decide (k = "proxies")); [done|].
      destruct (decide (k = "timeout")) as [->|]; [|reflexivity].
      by rewrite get_kwargs_timeout.
  - destruct (post_issued World session_request tor_config url call st) as [_ [H' | [H' | H']]];
      rewrite H' in H; try discriminate.
    injection H as <- <-. simpl. repeat split.
    + unfold with_body. rewrite !lookup_insert_ne by discriminate.
      rewrite tor_kwargs_lookup. reflexivity.
    + intros k Hk. unfold with_body. rewrite !lookup_insert.
      destruct (decide ("data" = k)); [reflexivity|].
      destruct (decide ("params" = k)); [reflexivity|].
      rewrite tor_kwargs_lookup.
      destruct (decide (k = "proxies")); [done|].
      destruct (decide (k = "timeout")) as [->|]; [|reflexivity].
      unfold post_kwargs. rewrite setdefault_lookup. simpl. reflexivity.
Qed.

(** X5.  Every request of a [post] is a POST to the url of the call that
    carries the call's [data] and [params] (None when they were not given),
    on the direct path and on the proxied one. *)
Theorem post_carries_data_and_params url call (st : state World) :
  Forall (λ req, req_method req = POST ∧ req_url req = url ∧
                 req_kwargs req !! "data" = Some (param call "data" KNone) ∧
                 req_kwargs req !! "params" = Some (param call "params" KNone))
    (issued (post url call) st).
Proof.
  assert (Hbody : ∀ kwargs,
    with_body call kwargs !! "data" = Some (param call "data" KNone) ∧
    with_body call kwargs !! "params" = Some (param call "params" KNone)).
  { intros kwargs. unfold with_body. split.
    - by rewrite lookup_insert_eq.
    - rewrite lookup_insert_ne by discriminate. by rewrite lookup_insert_eq. }
  destruct (post_issued World session_request tor_config url call st) as [_ [-> | [-> | ->]]];
    repeat constructor; simpl; apply Hbody.
Qed.

(** X6.  A direct attempt that is answered without an error status is the
    whole call: the response is returned and nothing goes through the
    proxy. *)
Theorem direct_success_uses_no_proxy url call (st : state World) r w1 :
  truthy (param call "force_tor" (KBool false)) = false →
  session_request (fst st) (mk_request GET url (get_kwargs call)) = (Ok r, w1) →
  is_error r = false →
  get url call st = (Ok r, (w1, snd st ++ [mk_request GET url (get_kwargs call)])) ∧
  issued (get url call) st = [mk_request GET url (get_kwargs call)] ∧
  get_kwargs call !! "proxies" = call !! "proxies".
Proof.
  intros Hdirect Hnet Hok.
  assert (Hrun : request_once GET url (get_kwargs call) st
                 = (Ok r, (w1, snd st ++ [mk_request GET url (get_kwargs call)]))).
  { unfold HttpClient.request_once, bind, session_call, raise_for_status.
    rewrite Hnet. simpl. unfold is_error in Hok. rewrite Hok. reflexivity. }
  unfold HttpClient.issued. rewrite get_cases, Hdirect, Hrun. simpl.
  split; [reflexivity|]. split; [apply drop_app_length|].
  unfold get_kwargs. lookup_kwargs.
Qed.

End Paths.

Lemma returned_response_is_not_an_error_witness :
  ∃ r st', HttpClient.Mock.get "http://gu" ∅ ((), []) = (Ok r, st') ∧ is_error r = false.
Proof.
  eexists _, _. split; [vm_compute; reflexivity|].
  eapply (returned_response_is_not_an_error unit HttpClient.Mock.session_request
            HttpClient.Mock.tor_config "http://gu" ∅ ((), [])).
  left. vm_compute. reflexivity.
Defined.

Lemma force_tor_makes_no_direct_attempt_witness :
  issued unit (HttpClient.get unit (always 200) tor_on "http://gu"
                 {["force_tor" := KBool true]}) ((), [])
  = [mk_request GET "http://gu"
       (tor_kwargs tor_on (get_kwargs {["force_tor" := KBool true]}))].
Proof.
  apply (force_tor_makes_no_direct_attempt unit (always 200) tor_on "http://gu"
           {["force_tor" := KBool true]} ((), [])).
  vm_compute. reflexivity.
Defined.

Lemma other_errors_are_not_retried_witness :
  fst (HttpClient.get unit (always 404) tor_on "http://gu" ∅ ((), []))
  = Raise (HTTPError (Some 404)) ∧
  length (issued unit (HttpClient.get unit (always 404) tor_on "http://gu" ∅) ((), []))
  = 1%nat.
Proof.
  destruct (other_errors_are_not_retried unit (always 404) tor_on "http://gu" ∅ ((), [])
              ((), [mk_request GET "http://gu" (get_kwargs ∅)]) (HTTPError (Some 404)))
    as [Hrun Hissued].
  - vm_compute. reflexivity.
  - vm_compute. reflexivity.
  - discriminate.
  - intros code [= <-]. unfold BLOCKED_STATUS_CODES.
    rewrite !elem_of_cons, elem_of_nil. lia.
  - rewrite Hrun, Hissued. split; reflexivity.
Defined.

Lemma proxied_request_repeats_the_direct_one_witness :
  ∃ d p, issued unit (HttpClient.Mock.get "http://gu" ∅) ((), []) = [d; p] ∧
         req_url p = req_url d ∧ req_kwargs p !! "verify" = req_kwargs d !! "verify".
Proof.
  eexists _, _. split; [vm_compute; reflexivity|].
  destruct (proxied_request_repeats_the_direct_one unit HttpClient.Mock.session_request
              HttpClient.Mock.tor_config "http://gu" ∅ ((), [])
              (mk_request GET "http://gu" (get_kwargs ∅))
              (mk_request GET "http://gu"
                 (tor_kwargs HttpClient.Mock.tor_config (get_kwargs ∅))))
    as (_ & Hurl & _ & Hsame).
  - left. vm_compute. reflexivity.
  - split; [exact Hurl|]. apply Hsame. discriminate.
Defined.

Lemma direct_success_uses_no_proxy_witness :
  issued unit (HttpClient.get unit (always 200) tor_on "http://gu" ∅) ((), [])
  = [mk_request GET "http://gu" (get_kwargs ∅)].
Proof.
  apply (direct_success_uses_no_proxy unit (always 200) tor_on "http://gu" ∅ ((), [])
           (mk_response 200 "body" "utf-8") ()).
  - vm_compute. reflexivity.
  - reflexivity.
  - reflexivity.
Defined.

End ClientPaths.

(** ** More about the scraper: pagination and edge cases *)

Module ScraperEdges.
Import Py Scraper ScraperFacts ScraperWords.

Lemma is_digit_value (c : Ascii.ascii) :
  is_digit c = true → 0 <= Z.of_nat (Ascii.nat_of_ascii c) - 48 <= 9.
Proof.
  unfold is_digit. cbv zeta. rewrite andb_true_iff, !Nat.leb_le. lia.
Qed.

Lemma take_digits_spec n : ∀ s,
  all_digits (take_digits n s) = true ∧ (String.length (take_digits n s) <= n)%nat.
Proof.
  induction n as [|n IH]; intros s; simpl.
  - destruct s; split; simpl; (reflexivity || lia).
  - destruct s as [|c s]; [split; simpl; (reflexivity || lia)|].
    destruct (is_digit c) eqn:Hc; [|split; simpl; (reflexivity || lia)].
    destruct (IH s) as [Hd Hl]. simpl. rewrite Hc, Hd. split; [reflexivity|lia].
Qed.

Lemma int_of_digits_bounds digits : ∀ acc,
  all_digits digits = true → 0 <= acc →
  acc * 10 ^ Z.of_nat (String.length digits) <= int_of_digits acc digits
  < (acc + 1) * 10 ^ Z.of_nat (String.length digits).
Proof.
  induction digits as [|c digits IH]; intros acc Hd Hacc; simpl.
  - lia.
  - simpl in Hd. apply andb_true_iff in Hd as [Hc Hd].
    pose proof (is_digit_value c Hc) as Hv.
    specialize (IH (10 * acc + (Z.of_nat (Ascii.nat_of_ascii c) - 48)) Hd ltac:(lia)).
    rewrite Nat2Z.inj_succ, Z.pow_succ_r by lia.
    set (p := 10 ^ Z.of_nat (String.length digits)) in *.
    assert (0 < p) by (apply Z.pow_pos_nonneg; lia).
    nia.
Qed.

Lemma search_page_param_takes s digits :
  search_page_param s = Some digits →
  ∃ rest, digits = take_digits 5 rest ∧ digits ≠ "".
Proof.
  induction s as [|c s IH]; simpl; unfold match_page_param_here.
  - simpl. discriminate.
  - destruct (is_prefix PAGE_PARAM_LITERAL (String c s)).
    + destruct (take_digits 5 _) as [|d ds] eqn:E.
      * exact IH.
      * intros [= <-]. eexists. split; [symmetry; exact E|discriminate].
    + exact IH.
Qed.

(** The captured digits, read as a number, stay below 100000. *)
Lemma captured_page_bounds s digits :
  search_page_param s = Some digits → 0 <= int_of_digits 0 digits <= 99999.
Proof.
  intros H. destruct (search_page_param_takes s digits H) as (rest & -> & _).
  destruct (take_digits_spec 5 rest) as [Hd Hl].
  pose proof (int_of_digits_bounds _ 0 Hd ltac:(lia)) as Hb.
  assert (10 ^ Z.of_nat (String.length (take_digits 5 rest)) <= 10 ^ 5)
    by (apply Z.pow_le_mono_r; lia).
  lia.
Qed.

Lemma is_prefix_refl_app (p x : string) : is_prefix p (p +:+ x) = true.
Proof.
  induction p as [|c p IH]; simpl; [reflexivity|].
  destruct (decide (c = c)); [exact IH|done].
Qed.

Lemma take_digits_is_prefix n : ∀ s, is_prefix (take_digits n s) s = true.
Proof.
  induction n as [|n IH]; intros s; simpl.
  - destruct s; reflexivity.
  - destruct s as [|c s]; [reflexivity|].
    destruct (is_digit c); [|reflexivity].
    simpl. destruct (decide (c = c)); [apply IH|done].
Qed.

Lemma is_prefix_extend (p : string) : ∀ s x,
  is_prefix p s = true →
  is_prefix x (drop_chars (String.length p) s) = true →
  is_prefix (p +:+ x) s = true.
Proof.
  induction p as [|c p IH]; intros s x Hp Hx; simpl in *.
  - destruct s; exact Hx.
  - destruct s as [|c' s]; [discriminate|].
    destruct (decide (c = c')); [|discriminate]. by apply IH.
Qed.

Lemma is_prefix_split (p : string) : ∀ s x,
  is_prefix (p +:+ x) s = true →
  is_prefix p s = true ∧ is_prefix x (drop_chars (String.length p) s) = true.
Proof.
  induction p as [|c p IH]; intros s x H; simpl in *.
  - split; [reflexivity|]. destruct s; exact H.
  - destruct s as [|c' s]; [discriminate|].
    destruct (decide (c = c')); [|discriminate]. by apply IH.
Qed.

Section Edges.

Context {site : Site}.
Variable World : Type.
Variable client_get : string → bool → World → result exn HttpClient.response * World.
Variable decode : string → string → string.
Variable BeautifulSoup : string → result exn node.
Variable select_one : node → string → option node.
Variable strip : string → string.

Local Abbreviation text := (text decode).
Local Abbreviation parse_urls := (Scraper.parse_urls World BeautifulSoup select_one).
Local Abbreviation get_last_page_num := (Scraper.get_last_page_num BeautifulSoup select_one).
Local Abbreviation scrape_urls :=
  (scrape_urls World client_get decode BeautifulSoup select_one strip).
Local Abbreviation scrape :=
  (scrape World client_get decode BeautifulSoup select_one strip).

(** X7.  The page count read off a listing page is between 0 and 99999,
    and it is 1 whenever the pagination element is missing, holds no link,
    or its last link carries no page parameter. *)
Theorem last_page_num_is_bounded html discovered :
  get_last_page_num html = Ok discovered →
  0 <= discovered <= 99999 ∧
  ∀ root, BeautifulSoup html = Ok root →
    match select_one root pagination_selector with
    | None => discovered = 1
    | Some pagination =>
        match last (find_all_links pagination) with
        | None => discovered = 1
        | Some last_link =>
            search_page_param (default "" (attr_get last_link "href")) = None →
            discovered = 1
        end
    end.
Proof.
  unfold Scraper.get_last_page_num.
  destruct (BeautifulSoup html) as [root|e]; [|discriminate].
  intros Hnum.
  assert (Hmain :
    0 <= discovered <= 99999 ∧
    match select_one root pagination_selector with
    | None => discovered = 1
    | Some pagination =>
        match last (find_all_links pagination) with
        | None => discovered = 1
        | Some last_link =>
            search_page_param (default "" (attr_get last_link "href")) = None →
            discovered = 1
        end
    end).
  { destruct (select_one root pagination_selector) as [pagination|].
    - destruct (last (find_all_links pagination)) as [last_link|].
      + destruct (search_page_param _) as [digits|] eqn:Hsearch.
        * injection Hnum as <-. split; [by eapply captured_page_bounds|].
          intros [=].
        * injection Hnum as <-. split; [lia|done].
      + injection Hnum as <-. split; [lia|done].
    - injection Hnum as <-. split; [lia|done]. }
  destruct Hmain as [Hbound Hdefault]. split; [exact Hbound|].
  intros root' [= <-]. exact Hdefault.
Qed.

(** X9.  Every url that [parse_urls] returns starts with the base url of
    the site, and there is one for each link of the listing container. *)
Theorem parsed_urls_start_with_base_url html (st st' : state World) urls :
  parse_urls html st = (Ok urls, st') →
  Forall (λ url, is_prefix base_url url = true) urls ∧
  ∀ root container,
    BeautifulSoup html = Ok root → select_one root list_selector = Some container →
    length urls = length (find_all_links container).
Proof.
  intros Hrun.
  destruct (parse_urls_runs World BeautifulSoup select_one html st)
    as (r & evs & Hrun' & _ & Hcase).
  unfold runs in Hrun'. rewrite Hrun in Hrun'. injection Hrun' as <- _.
  destruct (BeautifulSoup html) as [root|e]; [|discriminate].
  destruct (select_one root list_selector) as [container|] eqn:Hsel.
  - destruct Hcase as [[= ->] _]. split.
    + unfold link_urls. apply Forall_forall. intros url Hin.
      apply list_elem_of_fmap in Hin as (link & -> & _). apply is_prefix_refl_app.
    + intros root' container' [= <-] Hsel'. rewrite Hsel in Hsel'.
      injection Hsel' as <-. unfold link_urls. by rewrite length_map.
  - destruct Hcase as [[= ->] _]. split; [constructor|].
    intros root' container' [= <-] Hsel'. rewrite Hsel in Hsel'. discriminate.
Qed.

(** X10.  When the page count found on page 1, clamped by the limit, is
    zero or less (a limit of 0, or a last link that says page 0), [scrape]
    returns no item and fetches nothing after the first page. *)
Theorem scrape_without_pages max_page (st : state World) response w1 discovered :
  client_get (get_list_url 1) force_tor (fst st) = (Ok response, w1) →
  get_last_page_num (text response) = Ok discovered →
  Z.min discovered max_page <= 0 →
  scrape max_page st
  = (Ok [], (w1, snd st ++ [Fetch Discover (get_list_url 1) force_tor])).
Proof.
  intros Hget Hnum Hmin.
  rewrite (scrape_after_discovery World client_get decode BeautifulSoup select_one strip
             max_page st response w1 discovered Hget Hnum).
  rewrite seqZ_nil by lia. reflexivity.
Qed.

(** X11.  When the first listing page cannot be fetched, or cannot be
    parsed, [scrape] raises that error and has made that one request only. *)
Theorem scrape_raises_when_discovery_fails max_page (st : state World) e :
  fst (client_get (get_list_url 1) force_tor (fst st)) = Raise e ∨
  (∃ response, fst (client_get (get_list_url 1) force_tor (fst st)) = Ok response ∧
               get_last_page_num (text response) = Raise e) →
  scrape max_page st
  = (Raise e, (snd (client_get (get_list_url 1) force_tor (fst st)),
               snd st ++ [Fetch Discover (get_list_url 1) force_tor])).
Proof.
  intros H. unfold Scraper.scrape, bind.
  rewrite (client_get_text_runs World client_get decode Discover (get_list_url 1) st).
  destruct H as [-> | (response & -> & Hnum)]; [reflexivity|].
  unfold lift. fold (text response). rewrite Hnum. reflexivity.
Qed.

(** X12.  A posting whose page has no content container is not skipped:
    it is returned as an item with the empty content, with a warning in the
    log and no error. *)
Theorem posting_without_container_is_kept url results (st : state World)
    response w1 root :
  client_get url force_tor (fst st) = (Ok response, w1) →
  BeautifulSoup (replace br_tag NL (text response)) = Ok root →
  select_one root content_selector = None →
  ∃ msg,
    scrape_urls [url] results st
    = (Ok (results ++ [mk_item url ""]),
       (w1, snd st ++ [Fetch Detail url force_tor; LogWarning msg])).
Proof.
  intros Hget Hsoup Hsel.
  rewrite (scrape_urls_cons World client_get decode BeautifulSoup select_one strip).
  unfold Scraper.fetch_content, bind.
  rewrite (client_get_text_runs World client_get decode Detail url st), Hget. simpl.
  unfold Scraper.parse_content, soup, lift, bind. fold (text response).
  rewrite Hsoup, Hsel. eexists. simpl. unfold ret, log, bind. simpl.
  rewrite <- app_assoc. reflexivity.
Qed.

End Edges.

(** X8.  When the page-parameter search finds digits, they are one to five
    ASCII digits and the text holds the literal followed by them; when it
    finds nothing, the literal is nowhere followed by a digit. *)
Theorem page_param_search_is_exact (s : string) :
  match search_page_param s with
  | Some digits =>
      all_digits digits = true ∧ (1 <= String.length digits <= 5)%nat ∧
      contains (PAGE_PARAM_LITERAL +:+ digits) s = true
  | None =>
      ∀ c, is_digit c = true →
           contains (PAGE_PARAM_LITERAL +:+ String c EmptyString) s = false
  end.
Proof.
  induction s as [|c s IH].
  - simpl. intros c Hc. reflexivity.
  - change (search_page_param (String c s))
      with (match match_page_param_here (String c s) with
            | Some digits => Some digits
            | None => search_page_param s
            end).
    unfold match_page_param_here.
    destruct (is_prefix PAGE_PARAM_LITERAL (String c s)) eqn:Hlit.
    + set (rest := drop_chars (String.length PAGE_PARAM_LITERAL) (String c s)) in *.
      destruct (take_digits_spec 5 rest) as [Hd Hl].
      destruct (take_digits 5 rest) as [|d ds] eqn:Htake.
      * (* the literal is here but no digit follows *)
        destruct (search_page_param s) as [digits|].
        -- destruct IH as (Hall & Hlen & Hin). repeat split; try assumption; try lia.
           change (contains ?x (String c s)) with (is_prefix x (String c s) || contains x s).
           rewrite Hin. apply orb_true_r.
        -- intros c0 Hc0.
           change (contains ?x (String c s)) with (is_prefix x (String c s) || contains x s).
           rewrite (IH c0 Hc0), orb_false_r.
           destruct (is_prefix (PAGE_PARAM_LITERAL +:+ String c0 EmptyString) (String c s)) eqn:Hp;
             [|reflexivity].
           apply is_prefix_split in Hp as [_ Hp]. fold rest in Hp.
           destruct rest as [|r rest']; [discriminate|].
           simpl in Hp. destruct (decide (c0 = r)) as [<-|]; [|discriminate].
           simpl in Htake. rewrite Hc0 in Htake. discriminate.
      * split; [exact Hd|]. split; [simpl in *; lia|].
        change (contains ?x (String c s)) with (is_prefix x (String c s) || contains x s).
        rewrite (is_prefix_extend PAGE_PARAM_LITERAL (String c s) (String d ds) Hlit).
        -- reflexivity.
        -- fold rest. rewrite <- Htake. apply take_digits_is_prefix.
    + destruct (search_page_param s) as [digits|].
      * destruct IH as (Hall & Hlen & Hin). repeat split; try assumption; try lia.
        change (contains ?x (String c s)) with (is_prefix x (String c s) || contains x s).
        rewrite Hin. apply orb_true_r.
      * intros c0 Hc0.
        change (contains ?x (String c s)) with (is_prefix x (String c s) || contains x s).
        rewrite (IH c0 Hc0), orb_false_r.
        destruct (is_prefix (PAGE_PARAM_LITERAL +:+ String c0 EmptyString) (String c s)) eqn:Hp;
             [|reflexivity].
        apply is_prefix_split in Hp as [Hp _]. congruence.
Qed.

Lemma last_page_num_is_bounded_witness :
  ScraperWords.get_last_page_num "list-1" = Ok 3 ∧ 0 <= 3 <= 99999.
Proof.
  split; [vm_compute; reflexivity|].
  apply (last_page_num_is_bounded (site := Mock.site) Mock.BeautifulSoup
           Mock.select_one "list-1" 3).
  vm_compute. reflexivity.
Defined.

Lemma parsed_urls_start_with_base_url_witness :
  Forall (λ url, is_prefix "http://gu" url = true) ["http://gu/a"; "http://gu/b"].
Proof.
  apply (parsed_urls_start_with_base_url (site := Mock.site) unit Mock.BeautifulSoup
           Mock.select_one "list-1" ((), []) ((), []) ["http://gu/a"; "http://gu/b"]).
  vm_compute. reflexivity.
Defined.

Lemma scrape_without_pages_witness :
  Mock.scrape Mock.web 0 ((), [])
  = (Ok [], ((), [Fetch Discover "http://gu/list?startPage=1" false])).
Proof.
  apply (scrape_without_pages (site := Mock.site) unit (Mock.client_get Mock.web)
           Mock.decode Mock.BeautifulSoup Mock.select_one Mock.strip
           0 ((), []) (Mock.served "list-1") () 3).
  - reflexivity.
  - vm_compute. reflexivity.
  - vm_compute. discriminate.
Defined.

Lemma scrape_raises_when_discovery_fails_witness :
  fst (Mock.scrape [] 3 ((), [])) = Raise ConnectionError.
Proof.
  unfold Mock.scrape.
  rewrite (scrape_raises_when_discovery_fails (site := Mock.site) unit (Mock.client_get [])
             Mock.decode Mock.BeautifulSoup Mock.select_one Mock.strip
             3 ((), []) ConnectionError); [reflexivity|].
  left. reflexivity.
Defined.

Lemma posting_without_container_is_kept_witness :
  ∃ msg,
    scrape_urls_plain Mock.web ["http://gu/a"] ((), [])
    = (Ok [mk_item "http://gu/a" ""],
       ((), [Fetch Detail "http://gu/a" false; LogWarning msg])).
Proof.
  apply (posting_without_container_is_kept (site := Mock.site) unit
           (Mock.client_get Mock.web) Mock.decode plain_soup Mock.select_one Mock.strip
           "http://gu/a" [] ((), []) (Mock.served "doc-a") ()
           (Element "html" [] [Text "doc-a"])).
  - reflexivity.
  - reflexivity.
  - vm_compute. reflexivity.
Defined.

End ScraperEdges.

(** ** More about the extractor: keys, commas and cleaning twice *)

Module AnalyzeFacts.
Import Py GptAnalyzer GptAnalyzerFacts Analyze.

Lemma dict_get_dict_set {V : Type} (d : list (string * V)) key value k :
  dict_get (dict_set d key value) k
  = if decide (key = k) then Some value else dict_get d k.
Proof.
  induction d as [|[k0 v0] d IH]; simpl.
  - reflexivity.
  - destruct (decide (k0 = key)) as [->|Hne]; simpl.
    + destruct (decide (key = k)); reflexivity.
    + rewrite IH. destruct (decide (k0 = k)) as [->|]; [|reflexivity].
      destruct (decide (key = k)); [congruence|reflexivity].
Qed.

Lemma dict_set_keys {V : Type} (d : list (string * V)) key value :
  map fst (dict_set d key value)
  = if bool_decide (key ∈ map fst d) then map fst d else map fst d ++ [key].
Proof.
  induction d as [|[k0 v0] d IH]; simpl; [reflexivity|].
  destruct (decide (k0 = key)) as [->|Hne]; simpl.
  - rewrite bool_decide_eq_true_2 by apply list_elem_of_here. reflexivity.
  - rewrite IH. case_bool_decide as Hin.
    + rewrite bool_decide_eq_true_2 by (by apply list_elem_of_further). reflexivity.
    + rewrite bool_decide_eq_false_2; [reflexivity|].
      intros H. apply elem_of_cons in H as [->|H]; done.
Qed.

Lemma dict_get_app {V : Type} (a b : list (string * V)) k :
  dict_get (a ++ b) k
  = match dict_get a k with Some v => Some v | None => dict_get b k end.
Proof.
  induction a as [|[k0 v0] a IH]; simpl; [reflexivity|].
  destruct (decide (k0 = k)); [reflexivity|exact IH].
Qed.

(** Removing one character leaves none of it behind. *)
Lemma replace_char_removed (c : Ascii.ascii) (s : string) :
  contains (String c EmptyString) (replace (String c EmptyString) "" s) = false.
Proof.
  unfold replace. induction s as [|x s IH]; [reflexivity|].
  simpl. destruct (decide (c = x)) as [->|Hne]; simpl.
  - exact IH.
  - destruct (decide (c = x)); [done|]. exact IH.
Qed.

Lemma strip_spaces_has_no_space key : contains " " (strip_spaces key) = false.
Proof. apply (replace_char_removed (Ascii.ascii_of_nat 32)). Qed.

Lemma normalize_fold (l : list (string * json)) : ∀ acc,
  let n := fold_left (λ normalized kv, dict_set normalized (strip_spaces (fst kv)) (snd kv))
                     l acc in
  (Forall (λ k, contains " " k = false) (map fst acc) →
   Forall (λ k, contains " " k = false) (map fst n)) ∧
  (NoDup (map fst acc) → NoDup (map fst n)) ∧
  ∀ k, dict_get n k
       = match dict_get (reverse (map (λ kv, (strip_spaces (fst kv), snd kv)) l)) k with
         | Some v => Some v
         | None => dict_get acc k
         end.
Proof.
  induction l as [|[k0 v0] l IH]; intros acc; cbn [fold_left]; cbv zeta.
  - split; [done|]. split; [done|]. reflexivity.
  - destruct (IH (dict_set acc (strip_spaces k0) v0)) as (Hsp & Hnd & Hget).
    cbn [fst snd] in *. split; [|split].
    + intros Hacc. apply Hsp. rewrite dict_set_keys. case_bool_decide; [exact Hacc|].
      apply Forall_app. split; [exact Hacc|]. constructor; [|constructor].
      apply strip_spaces_has_no_space.
    + intros Hacc. apply Hnd. rewrite dict_set_keys. case_bool_decide as Hin; [exact Hacc|].
      apply NoDup_app. split; [exact Hacc|]. split; [|apply NoDup_singleton].
      intros x Hx Hx'. apply list_elem_of_singleton in Hx'. by subst x.
    + intros k. rewrite Hget. simpl map. rewrite reverse_cons, dict_get_app.
      destruct (dict_get (reverse _) k); [reflexivity|].
      rewrite dict_get_dict_set. simpl. destruct (decide (strip_spaces k0 = k)); reflexivity.
Qed.

(** X13.  The keys of the normalized reply hold no space and are pairwise
    different, and a key is bound to the value of the last entry of the
    reply whose key, spaces removed, equals it. *)
Theorem normalized_keys_have_no_space (result : list (string * json)) :
  Forall (λ k, contains " " k = false) (map fst (normalize_keys result)) ∧
  NoDup (map fst (normalize_keys result)) ∧
  ∀ k, dict_get (normalize_keys result) k
       = dict_get (reverse (map (λ kv, (strip_spaces (fst kv), snd kv)) result)) k.
Proof.
  destruct (normalize_fold result []) as (Hsp & Hnd & Hget).
  split; [apply Hsp; constructor|]. split; [apply Hnd; constructor|].
  intros k. unfold normalize_keys. rewrite Hget.
  destruct (dict_get (reverse _) k); reflexivity.
Qed.

Lemma dict_get_absent {V : Type} (l : list (string * V)) (k : string) :
  Forall (λ kv, fst kv ≠ k) l → dict_get l k = None.
Proof.
  induction 1 as [|[k0 v0] l Hne _ IH]; [reflexivity|].
  simpl in *. destruct (decide (k0 = k)); [done|exact IH].
Qed.

(** X14.  A tag that the model spelled with spaces is still found: the
    value of the last reply entry whose key is the tag up to spaces is what
    the cleaner returns for the tag, when it is a string that is not an empty
    value, whatever entries stand before it and whatever entries with other
    keys stand after it. *)
Theorem spaced_tag_is_cleaned (repr_str : string → string)
    (before after : list (string * json)) (k s tag : string) :
  strip_spaces k = tag → s ∉ EMPTY_VALUES →
  Forall (λ kv, strip_spaces (fst kv) ≠ tag) after →
  clean_tag repr_str (normalize_keys (before ++ (k, JStr s) :: after)) tag = s.
Proof.
  intros Hk Hs Hafter. unfold clean_tag.
  destruct (normalize_fold (before ++ (k, JStr s) :: after) []) as (_ & _ & Hget).
  fold (normalize_keys (before ++ (k, JStr s) :: after)) in Hget. rewrite Hget.
  rewrite map_app, reverse_app. cbn [map fst snd].
  rewrite reverse_cons, <- app_assoc, !dict_get_app.
  rewrite dict_get_absent.
  - simpl. rewrite Hk. destruct (decide (tag = tag)); [|done]. simpl.
    unfold str_in. by rewrite bool_decide_eq_false_2.
  - apply Forall_reverse, Forall_map. exact Hafter.
Qed.

Lemma comma_replaced (s : string) :
  contains "," (replace "," "." s) = false ∧
  String.length (replace "," "." s) = String.length s.
Proof.
  change (replace "," "." s) with (replace_go "," "." s 0%nat).
  induction s as [|x s [IHc IHl]]; [done|].
  change (replace_go "," "." (String x s) 0%nat)
    with (if is_prefix "," (String x s)
          then "." +:+ replace_go "," "." s 0%nat
          else String x (replace_go "," "." s 0%nat)).
  change (is_prefix "," (String x s))
    with (if decide (Ascii.ascii_of_nat 44 = x) then true else false).
  destruct (decide (Ascii.ascii_of_nat 44 = x)) as [<-|Hne].
  - split;
      [|change (S (String.length (replace_go "," "." s 0%nat)) = S (String.length s));
        by rewrite IHl].
    change (contains "," ("." +:+ replace_go "," "." s 0%nat))
      with (false || contains "," (replace_go "," "." s 0%nat)).
    exact IHc.
  - split;
      [|change (S (String.length (replace_go "," "." s 0%nat)) = S (String.length s));
        by rewrite IHl].
    change (contains "," (String x (replace_go "," "." s 0%nat)))
      with ((if decide (Ascii.ascii_of_nat 44 = x) then true else false)
            || contains "," (replace_go "," "." s 0%nat)).
    destruct (decide (Ascii.ascii_of_nat 44 = x)); [done|]. exact IHc.
Qed.

(** Character by character, a comma becomes a full stop and every other
    character stays. *)
Lemma comma_replaced_at (s : string) : ∀ i,
  String.get i (replace "," "." s)
  = (λ c, if decide (c = Ascii.ascii_of_nat 44) then Ascii.ascii_of_nat 46 else c)
      <$> String.get i s.
Proof.
  change (replace "," "." s) with (replace_go "," "." s 0%nat).
  induction s as [|x s IH]; intros i; [by destruct i|].
  change (replace_go "," "." (String x s) 0%nat)
    with (if is_prefix "," (String x s)
          then "." +:+ replace_go "," "." s 0%nat
          else String x (replace_go "," "." s 0%nat)).
  change (is_prefix "," (String x s))
    with (if decide (Ascii.ascii_of_nat 44 = x) then true else false).
  destruct (decide (Ascii.ascii_of_nat 44 = x)) as [<-|Hne].
  - change ("." +:+ replace_go "," "." s 0%nat)
      with (String (Ascii.ascii_of_nat 46) (replace_go "," "." s 0%nat)).
    destruct i as [|i]; [reflexivity|]. apply IH.
  - destruct i as [|i]; [|apply IH].
    simpl. destruct (decide (x = Ascii.ascii_of_nat 44)); [congruence|reflexivity].
Qed.

Lemma length_append (a b : string) :
  String.length (a +:+ b) = (String.length a + String.length b)%nat.
Proof. induction a as [|c a IH]; [reflexivity|]. simpl. by rewrite IH. Qed.

(** X15.  The text put into the prompt is the scraped text with each comma
    replaced by a full stop, character by character: no comma is left, the
    length is the same, and every other character stands where it stood.
    The prompt starts with the fixed instruction and grows by exactly the
    length of the scraped text. *)
Theorem prompt_text_has_no_comma (content : string) :
  contains "," (prompt_text content) = false ∧
  String.length (prompt_text content) = String.length content ∧
  (∀ i, String.get i (prompt_text content)
        = (λ c, if decide (c = Ascii.ascii_of_nat 44) then Ascii.ascii_of_nat 46 else c)
            <$> String.get i content) ∧
  is_prefix PROMPT_HEAD (prompt content) = true ∧
  String.length (prompt content)
  = (String.length PROMPT_HEAD + String.length content)%nat.
Proof.
  destruct (comma_replaced content) as [Hc Hl].
  split; [exact Hc|]. split; [exact Hl|]. split; [apply comma_replaced_at|]. split.
  - unfold prompt. generalize (prompt_text content). generalize PROMPT_HEAD.
    intros p x. induction p as [|c p IH]; simpl; [reflexivity|].
    destruct (decide (c = c)); [exact IH|done].
  - unfold prompt. rewrite length_append. unfold prompt_text. by rewrite Hl.
Qed.

Lemma clean_tag_of_cleaned (repr_str : string → string)
    (items : list (string * json)) (tag : string) :
  tag ∈ TAGS →
  clean_tag repr_str
    (map (λ kv, (fst kv, JStr (snd kv)))
         (map (λ t, (t, clean_tag repr_str items t)) TAGS)) tag
  = clean_tag repr_str items tag.
Proof.
  intros Htag. rewrite map_map. cbn [fst snd]. unfold clean_tag at 1.
  rewrite (dict_get_tabulate (λ t, JStr (clean_tag repr_str items t)) TAGS tag Htag).
  cbn [default convert_value py_str]. unfold str_in.
  rewrite bool_decide_eq_false_2; [reflexivity|]. apply clean_tag_never_empty.
Qed.

(** X16.  Cleaning is idempotent: a cleaned mapping, given back to the
    cleaner as content, comes out unchanged. *)
Theorem cleaning_twice_changes_nothing (repr_str : string → string)
    (data : list (string * json)) (cleaned : list (string * string)) :
  clean_analyzed_data repr_str data = Ok cleaned →
  clean_analyzed_data repr_str (as_content cleaned) = Ok cleaned.
Proof.
  unfold clean_analyzed_data at 1.
  destruct (default (JDict []) (dict_get data "content")); try discriminate.
  intros [= <-].
  change (Ok (map (λ tag, (tag, clean_tag repr_str
                     (map (λ kv, (fst kv, JStr (snd kv)))
                          (map (λ t, (t, clean_tag repr_str items t)) TAGS)) tag)) TAGS)
          = Ok (E := unit) (map (λ t, (t, clean_tag repr_str items t)) TAGS)).
  f_equal. apply map_ext_in. intros tag Htag. f_equal.
  apply clean_tag_of_cleaned. by apply list_elem_of_In.
Qed.

Section ReplyFacts.

Variable json_loads : string → option json.

Local Abbreviation analyze_reply := (analyze_reply json_loads).

(** X17.  [analyze] returns a dict exactly when the response has a first
    choice whose message content is a text that decodes to a JSON object,
    and then it is that object with normalized keys.  A response without
    "choices" raises KeyError, an empty list of choices IndexError, a content
    that is not JSON a decode error: nothing is put in its place. *)
Theorem analyze_needs_the_whole_reply (data : json) :
  (∀ normalized,
     analyze_reply data = Ok normalized ↔
     ∃ top choice rest message result_text result,
       data = JDict top ∧
       dict_get top "choices" = Some (JList (JDict choice :: rest)) ∧
       dict_get choice "message" = Some (JDict message) ∧
       dict_get message "content" = Some (JStr result_text) ∧
       json_loads result_text = Some (JDict result) ∧
       normalized = normalize_keys result) ∧
  (∀ top, data = JDict top → dict_get top "choices" = None →
          analyze_reply data = Raise KeyError) ∧
  (∀ top, data = JDict top → dict_get top "choices" = Some (JList []) →
          analyze_reply data = Raise IndexError) ∧
  (∀ top choice rest message result_text,
     data = JDict top →
     dict_get top "choices" = Some (JList (JDict choice :: rest)) →
     dict_get choice "message" = Some (JDict message) →
     dict_get message "content" = Some (JStr result_text) →
     json_loads result_text = None →
     analyze_reply data = Raise JSONDecodeError).
Proof.
  split; [|split; [|split]].
  - intros normalized. split.
    + unfold Analyze.analyze_reply, subscript, subscript_0.
      intros H. repeat (case_match; simplify_eq/=; try done).
      eauto 12.
    + intros (top & choice & rest & message & text & result
              & -> & Hc & Hm & Ht & Hj & ->).
      unfold Analyze.analyze_reply, subscript, subscript_0.
      rewrite Hc. simpl. rewrite Hm, Ht, Hj. reflexivity.
  - intros top -> Hc. unfold Analyze.analyze_reply, subscript. by rewrite Hc.
  - intros top -> Hc. unfold Analyze.analyze_reply, subscript, subscript_0.
    by rewrite Hc.
  - intros top choice rest message text -> Hc Hm Ht Hj.
    unfold Analyze.analyze_reply, subscript, subscript_0.
    rewrite Hc. simpl. rewrite Hm, Ht, Hj. reflexivity.
Qed.

End ReplyFacts.

Lemma analyze_needs_the_whole_reply_witness :
  analyze_reply (λ _, None) (JDict [("choices", JList [])]) = Raise IndexError ∧
  analyze_reply (λ _, None) (JDict [("error", JStr "quota")]) = Raise KeyError.
Proof.
  split.
  - destruct (analyze_needs_the_whole_reply (λ _, None) (JDict [("choices", JList [])]))
      as (_ & _ & Hempty & _).
    apply (Hempty [("choices", JList [])]); reflexivity.
  - destruct (analyze_needs_the_whole_reply (λ _, None) (JDict [("error", JStr "quota")]))
      as (_ & Hmissing & _).
    apply (Hmissing [("error", JStr "quota")]); reflexivity.
Defined.

Lemma spaced_tag_is_cleaned_witness :
  clean_tag (λ s, s)
    (normalize_keys [("생년월일", JStr "x"); ("생년 월일 ", JStr "1950");
                     ("이 름", JStr "홍길동"); ("거주지", JNull)])
    "생년월일" = "1950".
Proof.
  apply (spaced_tag_is_cleaned (λ s, s) [("생년월일", JStr "x")]
           [("이 름", JStr "홍길동"); ("거주지", JNull)] "생년 월일 " "1950").
  - vm_compute. reflexivity.
  - unfold EMPTY_VALUES. rewrite !elem_of_cons, elem_of_nil.
    intros [H | [H | [H | []]]]; discriminate H.
  - repeat constructor; vm_compute; discriminate.
Defined.

Lemma cleaning_twice_changes_nothing_witness :
  ∃ cleaned,
    clean_analyzed_data (λ s, s) (analyze_raw_data_result "u" 0 demo_content) = Ok cleaned ∧
    clean_analyzed_data (λ s, s) (as_content cleaned) = Ok cleaned.
Proof.
  eexists. split; [vm_compute; reflexivity|].
  apply (cleaning_twice_changes_nothing (λ s, s) (analyze_raw_data_result "u" 0 demo_content)).
  vm_compute. reflexivity.
Defined.

End AnalyzeFacts.

(** ** More about the message: escaping, numbered lines, district tables *)

Module MessageFacts.
Import Py Config Telegram GptAnalyzer GptAnalyzerFacts TextWords.

Lemma has_char_app c (a b : string) :
  has_char c (a +:+ b) = has_char c a || has_char c b.
Proof.
  induction a as [|x a IH]; [reflexivity|].
  change (has_char c (String x a +:+ b))
    with (bool_decide (x = c) || has_char c (a +:+ b)).
  rewrite IH. apply orb_assoc.
Qed.

(** What stands for one character holds none of < > and the quotes. *)
Lemma escape_char_is_clean (x c : Ascii.ascii) :
  c ∈ MARKUP_CHARS → c ≠ Ascii.ascii_of_nat 38 →
  has_char c (escape_char x) = false.
Proof.
  unfold MARKUP_CHARS. simpl map. rewrite !elem_of_cons, elem_of_nil.
  intros [-> | [-> | [-> | [-> | [-> | []]]]]] Hamp; [done| | | |];
    destruct x as [[] [] [] [] [] [] [] []]; vm_compute; reflexivity.
Qed.

Lemma escape_char_plain (x : Ascii.ascii) :
  x ∉ MARKUP_CHARS → escape_char x = String x EmptyString.
Proof.
  unfold MARKUP_CHARS. simpl map. rewrite !elem_of_cons, elem_of_nil.
  intros H. destruct x as [[] [] [] [] [] [] [] []]; try reflexivity;
    exfalso; apply H; vm_compute; auto 6.
Qed.

(** X19.  An escaped text holds no < > or quote character, and a text
    without any of the five markup characters is escaped to itself. *)
Theorem escaped_text_has_no_markup (s : string) :
  (∀ c, c ∈ MARKUP_CHARS → c ≠ Ascii.ascii_of_nat 38 →
        has_char c (html_escape s) = false) ∧
  ((∀ c, c ∈ MARKUP_CHARS → has_char c s = false) → html_escape s = s).
Proof.
  split.
  - intros c Hc Hamp. induction s as [|x s IH]; [reflexivity|].
    simpl html_escape. rewrite has_char_app, IH, orb_false_r.
    by apply escape_char_is_clean.
  - induction s as [|x s IH]; intros Hplain; [reflexivity|].
    simpl html_escape. rewrite escape_char_plain.
    + simpl. f_equal. apply IH. intros c Hc. specialize (Hplain c Hc).
      simpl in Hplain. by apply orb_false_iff in Hplain as [_ ?].
    + intros Hx. specialize (Hplain x Hx). simpl in Hplain.
      rewrite bool_decide_eq_true_2 in Hplain by done. discriminate.
Qed.

Lemma format_funeral_lines_spec (markers : list string) :
  ∀ data : list (string * string),
    length (format_funeral_lines markers data) = Nat.min (length markers) (length data) ∧
    ∀ i num key value,
      markers !! i = Some num → data !! i = Some (key, value) →
      format_funeral_lines markers data !! i = Some (funeral_info_item num key value).
Proof.
  induction markers as [|m markers IH]; intros data.
  - split; [reflexivity|]. intros i num key value H. by destruct i.
  - destruct data as [|[k v] data]; [split; [reflexivity|]; intros i ???? H; by destruct i|].
    destruct (IH data) as [Hlen Hline]. split; [simpl; by rewrite Hlen|].
    intros [|i] num key value Hm Hd; simpl in *.
    + by injection Hm as <-; injection Hd as <- <-.
    + by apply Hline.
Qed.

(** X20.  The numbered list has one line per entry up to ten and drops
    the entries after the tenth; line i carries marker i and entry i. *)
Theorem numbered_lines_stop_at_ten (data : list (string * string)) :
  length (format_funeral_lines numbered_markers data) = Nat.min 10 (length data) ∧
  (∀ i num key value,
     numbered_markers !! i = Some num → data !! i = Some (key, value) →
     format_funeral_lines numbered_markers data !! i
     = Some (funeral_info_item num key value)) ∧
  (∀ i, (10 <= i)%nat → format_funeral_lines numbered_markers data !! i = None).
Proof.
  destruct (format_funeral_lines_spec numbered_markers data) as [Hlen Hline].
  split; [exact Hlen|]. split; [exact Hline|].
  intros i Hi. apply lookup_ge_None. rewrite Hlen.
  change (length numbered_markers) with 10%nat. lia.
Qed.

(** X21.  A cleaned mapping loses nothing in the message: its nine tags
    give nine numbered lines, in the order of the tags, each with the escaped
    value the cleaner bound to the tag. *)
Theorem cleaned_mapping_fills_nine_lines (repr_str : string → string)
    (data : list (string * json)) (cleaned : list (string * string)) :
  clean_analyzed_data repr_str data = Ok cleaned →
  length (format_funeral_lines numbered_markers (escaped cleaned)) = 9%nat ∧
  ∀ i tag, TAGS !! i = Some tag →
    ∃ num value,
      numbered_markers !! i = Some num ∧ dict_get cleaned tag = Some value ∧
      format_funeral_lines numbered_markers (escaped cleaned) !! i
      = Some (funeral_info_item num tag (html_escape value)).
Proof.
  unfold clean_analyzed_data.
  destruct (default (JDict []) (dict_get data "content")); try discriminate.
  intros Heq.
  assert (Hc : cleaned = map (λ tag, (tag, clean_tag repr_str items tag)) TAGS)
    by congruence.
  clear Heq. rewrite Hc. clear Hc cleaned.
  destruct (format_funeral_lines_spec numbered_markers
              (escaped (map (λ tag, (tag, clean_tag repr_str items tag)) TAGS)))
    as [Hlen Hline].
  split.
  - rewrite Hlen. unfold escaped. rewrite !length_map. reflexivity.
  - intros i tag Htag.
    assert (Hi : (i < 9)%nat) by (apply lookup_lt_Some in Htag; exact Htag).
    destruct (lookup_lt_is_Some_2 numbered_markers i) as [num Hnum];
      [change (length numbered_markers) with 10%nat; lia|].
    exists num, (clean_tag repr_str items tag).
    split; [exact Hnum|]. split.
    + apply (dict_get_tabulate (clean_tag repr_str items)).
      by eapply list_elem_of_lookup_2.
    + apply Hline; [exact Hnum|]. unfold escaped.
      rewrite !list_lookup_fmap, Htag. reflexivity.
Qed.

(** X22.  The two district tables are inverse to each other, and with the
    channel table of config.py every one of the sixteen Korean district names
    resolves to a channel. *)
Theorem every_district_has_a_channel (config : TelegramConfig) :
  default_channels config →
  (∀ eng kor, (eng, kor) ∈ DISTRICT_NAMES_ENG_TO_KOR →
     dict_get DISTRICT_NAMES_KOR_TO_ENG kor = Some eng ∧
     dict_get DISTRICT_NAMES_ENG_TO_KOR eng = Some kor ∧
     ∃ channel_id, resolve_channel config kor = Some channel_id ∧
                   DISTRICT_CHANNEL_IDS !! eng = Some channel_id) ∧
  length DISTRICT_NAMES_ENG_TO_KOR = 16%nat.
Proof.
  intros Hch. split; [|reflexivity].
  intros eng kor Hin. unfold resolve_channel. rewrite Hch.
  unfold DISTRICT_NAMES_ENG_TO_KOR in Hin.
  rewrite !elem_of_cons, elem_of_nil in Hin.
  repeat (destruct Hin as [[= -> ->] | Hin];
          [split; [vm_compute; reflexivity|];
           split; [vm_compute; reflexivity|];
           eexists; split; vm_compute; reflexivity|]).
  destruct Hin.
Qed.

Lemma replace_go_absent (old new : string) : ∀ s,
  contains old s = false → replace_go old new s 0%nat = s.
Proof.
  induction s as [|c s IH]; intros Habsent; [reflexivity|].
  change (contains old (String c s))
    with (is_prefix old (String c s) || contains old s) in Habsent.
  apply orb_false_iff in Habsent as [Hhere Hlater].
  change (replace_go old new (String c s) 0%nat)
    with (if is_prefix old (String c s)
          then new +:+ replace_go old new s (String.length old - 1)%nat
          else String c (replace_go old new s 0%nat)).
  rewrite Hhere. f_equal. by apply IH.
Qed.

(** X28.  A url that holds no "&>&" stands in the link line of the
    message exactly as it was given: the message is the title, the numbered
    lines of the escaped values, and the link to that url. *)
Theorem url_without_marker_is_linked_as_given district_kor url update_count
    (analyzed_data : list (string * string)) :
  contains "&>&" url = false →
  funeral_message district_kor url update_count analyzed_data
  = format_funeral_title district_kor update_count +:+ NL
      +:+ format_funeral_info (escaped analyzed_data) +:+ funeral_link url.
Proof.
  intros Habsent. unfold funeral_message. cbv zeta.
  change (replace "&>&" "&" url) with (replace_go "&>&" "&" url 0%nat).
  rewrite (replace_go_absent "&>&" "&" url Habsent). reflexivity.
Qed.

Lemma url_without_marker_is_linked_as_given_witness :
  funeral_message "북구" "http://gu/a?x=1&y=2" 0 []
  = format_funeral_title "북구" 0 +:+ NL +:+ format_funeral_info (escaped [])
      +:+ funeral_link "http://gu/a?x=1&y=2".
Proof.
  apply url_without_marker_is_linked_as_given. vm_compute. reflexivity.
Defined.

Lemma escaped_text_has_no_markup_witness :
  has_char (Ascii.ascii_of_nat 60) (html_escape "a<b>c") = false ∧
  html_escape "plain text" = "plain text".
Proof.
  split.
  - apply (escaped_text_has_no_markup "a<b>c").
    + unfold MARKUP_CHARS. simpl map. apply list_elem_of_further, list_elem_of_here.
    + discriminate.
  - apply (escaped_text_has_no_markup "plain text").
    intros c Hc. unfold MARKUP_CHARS in Hc. simpl map in Hc.
    rewrite !elem_of_cons, elem_of_nil in Hc.
    destruct Hc as [-> | [-> | [-> | [-> | [-> | []]]]]]; reflexivity.
Defined.

Lemma numbered_lines_stop_at_ten_witness :
  format_funeral_lines numbered_markers [("이름", "홍길동")] !! 0%nat
  = Some (funeral_info_item "①" "이름" "홍길동").
Proof.
  apply (numbered_lines_stop_at_ten [("이름", "홍길동")]); reflexivity.
Defined.

Lemma cleaned_mapping_fills_nine_lines_witness :
  ∃ cleaned,
    clean_analyzed_data (λ s, s) (analyze_raw_data_result "u" 0 demo_content) = Ok cleaned ∧
    length (format_funeral_lines numbered_markers (escaped cleaned)) = 9%nat.
Proof.
  eexists. split; [vm_compute; reflexivity|].
  apply (cleaned_mapping_fills_nine_lines (λ s, s)
           (analyze_raw_data_result "u" 0 demo_content)).
  vm_compute. reflexivity.
Defined.

Lemma every_district_has_a_channel_witness :
  ∃ channel_id, resolve_channel (Telegram.Mock.config "main") "해운대구" = Some channel_id.
Proof.
  destruct (every_district_has_a_channel (Telegram.Mock.config "main") eq_refl)
    as [Hall _].
  destruct (Hall "HAEUNDAE" "해운대구") as (_ & _ & channel_id & Hres & _).
  - unfold DISTRICT_NAMES_ENG_TO_KOR. do 6 apply list_elem_of_further.
    apply list_elem_of_here.
  - exists channel_id. exact Hres.
Defined.

End MessageFacts.

(** ** The shortening of long messages *)

Module ShortenFacts.
Import Shorten.

Lemma last_chars_length n (s : list N) :
  (n <= length s)%nat → length (last_chars n s) = n.
Proof. intros H. unfold last_chars. rewrite length_drop. lia. Qed.

Lemma escape_code_point_length (c : N) :
  (1 <= length (escape_code_point c) <= 6)%nat.
Proof. unfold escape_code_point. repeat case_match; simpl; lia. Qed.

Lemma escape_text_length (s : list N) :
  (length s <= length (escape_text s) <= 6 * length s)%nat.
Proof.
  unfold escape_text. induction s as [|c s IH]; [simpl; lia|].
  cbn [map concat]. rewrite length_app. cbn [length].
  pose proof (escape_code_point_length c). lia.
Qed.

Lemma escape_text_app (a b : list N) :
  escape_text (a ++ b) = escape_text a ++ escape_text b.
Proof. unfold escape_text. by rewrite map_app, concat_app. Qed.

(** X23.  The error message is cut before it is escaped.  The cut leaves at
    most 1009 characters: up to 1000 characters the message is unchanged,
    beyond that it is the first 500 characters, the marker, and the last 500
    characters.  The escaped text that goes into the notification is at most
    six times as long as a message that was not cut, and at most 6009
    characters in any case, the marker being escaped to itself. *)
Theorem error_message_is_bounded (error_message : list N) :
  (length (shorten_error_message error_message) <= 1009)%nat ∧
  ((length error_message <= 1000)%nat →
   shorten_error_message error_message = error_message) ∧
  ((1000 < length error_message)%nat →
   length (shorten_error_message error_message) = 1009%nat ∧
   take 500 (shorten_error_message error_message) = take 500 error_message ∧
   drop 509 (shorten_error_message error_message)
   = drop (length error_message - 500) error_message) ∧
  Z.of_nat (length (error_text error_message)) <= 6009 ∧
  ((length error_message <= 1000)%nat →
   error_text error_message = escape_text error_message ∧
   (length error_message <= length (error_text error_message)
    <= 6 * length error_message)%nat) ∧
  ((1000 < length error_message)%nat →
   error_text error_message
   = escape_text (take 500 error_message) ++ ELLIPSIS
       ++ escape_text (drop (length error_message - 500) error_message)).
Proof.
  unfold error_text, shorten_error_message.
  destruct (Nat.ltb_spec 1000 (length error_message)) as [Hlong|Hshort].
  - assert (Hlen : length (take 500 error_message ++ ELLIPSIS
                             ++ last_chars 500 error_message) = 1009%nat).
    { rewrite !length_app, length_take, last_chars_length by lia.
      change (length ELLIPSIS) with 9%nat. lia. }
    assert (Hescaped :
      escape_text (take 500 error_message ++ ELLIPSIS ++ last_chars 500 error_message)
      = escape_text (take 500 error_message) ++ ELLIPSIS
          ++ escape_text (drop (length error_message - 500) error_message)).
    { by rewrite !escape_text_app. }
    split; [lia|]. split; [lia|]. split; [|split; [|split; [lia|by intros _]]].
    + intros _. split; [exact Hlen|]. split.
      * rewrite take_app_le by (rewrite length_take; lia).
        rewrite take_take. f_equal.
      * rewrite app_assoc. rewrite drop_app_length'; [reflexivity|].
        rewrite length_app, length_take. change (length ELLIPSIS) with 9%nat. lia.
    + rewrite Hescaped, !length_app. change (length ELLIPSIS) with 9%nat.
      pose proof (escape_text_length (take 500 error_message)) as Hhead.
      pose proof (escape_text_length (drop (length error_message - 500) error_message))
        as Htail.
      rewrite length_take in Hhead. rewrite length_drop in Htail. lia.
  - pose proof (escape_text_length error_message) as Hlen.
    split; [lia|]. split; [reflexivity|]. split; [lia|]. split; [lia|].
    split; [|lia]. intros _. split; [reflexivity|exact Hlen].
Qed.

(** X24.  What the log handler sends is never longer than 4013 characters:
    a record of up to 4000 characters goes out whole between the code tags,
    a longer one is cut to its first 2000 and last 1500 characters around
    the marker. *)
Theorem emitted_text_is_bounded (escaped_msg : list N) :
  (length (emit_text escaped_msg) <= 4013)%nat ∧
  ((length escaped_msg <= 4000)%nat →
   emit_text escaped_msg = CODE_OPEN ++ escaped_msg ++ CODE_CLOSE) ∧
  ((4000 < length escaped_msg)%nat →
   length (emit_text escaped_msg) = 3522%nat ∧
   shorten_log_message escaped_msg
   = take 2000 escaped_msg ++ ELLIPSIS
       ++ drop (length escaped_msg - 1500) escaped_msg).
Proof.
  unfold emit_text, shorten_log_message.
  destruct (Nat.ltb_spec 4000 (length escaped_msg)) as [Hlong|Hshort].
  - assert (Hlen : length (CODE_OPEN ++ (take 2000 escaped_msg ++ ELLIPSIS
                             ++ last_chars 1500 escaped_msg) ++ CODE_CLOSE) = 3522%nat).
    { rewrite !length_app, length_take, last_chars_length by lia.
      change (length ELLIPSIS) with 9%nat. change (length CODE_OPEN) with 6%nat.
      change (length CODE_CLOSE) with 7%nat. lia. }
    split; [lia|]. split; [lia|]. intros _. split; [exact Hlen|reflexivity].
  - split; [|split; [reflexivity|lia]].
    rewrite !length_app. change (length CODE_OPEN) with 6%nat.
    change (length CODE_CLOSE) with 7%nat. lia.
Qed.

(** A message of 1001 quote characters: 1009 characters after the cut,
    6009 after escaping. *)
Lemma error_message_is_bounded_witness :
  length (shorten_error_message (replicate 1001 34%N)) = 1009%nat ∧
  Z.of_nat (length (error_text (replicate 1001 34%N))) = 6009.
Proof.
  destruct (error_message_is_bounded (replicate 1001 34%N))
    as (_ & _ & Hcut & _ & _ & Hlong).
  assert (Hlen : (1000 < length (replicate 1001 34%N))%nat).
  { rewrite length_replicate. lia. }
  split; [apply (Hcut Hlen)|].
  rewrite (Hlong Hlen). vm_compute. reflexivity.
Defined.

Lemma emitted_text_is_bounded_witness :
  length (emit_text (replicate 4001 65%N)) = 3522%nat.
Proof.
  apply (emitted_text_is_bounded (replicate 4001 65%N)).
  rewrite length_replicate. lia.
Defined.

End ShortenFacts.

(** ** More about the migration: counts and running it twice *)

Module MigrationRuns.
Import Store Migration MigrationFacts.

Lemma mark_all_run to_migrate : ∀ count db,
  mark_all to_migrate (count, db)
  = (count + Z.of_nat (length to_migrate),
     mk_db (funeral_raw db) (funeral_analyzed db) (funeral_sent db ++ to_migrate)).
Proof.
  unfold mark_all.
  induction to_migrate as [|h rest IH]; intros count db; simpl.
  - rewrite app_nil_r. destruct db. simpl. f_equal. lia.
  - rewrite IH. simpl. rewrite <- app_assoc. simpl. f_equal. lia.
Qed.

(** X25.  Over the store modelled from the spec, [migrate_sent_data]
    returns the number of markers it wrote, one for each given hash that was
    not marked before, leaves the raw and analyzed records alone, and run
    again on its own result writes nothing and returns 0. *)
Theorem migrate_sent_data_counts_and_settles (hashes : list string) (db : Db) :
  let run := migrate_sent_data hashes db in
  fst run = Z.of_nat (length (filter (λ h, is_already_sent db h = false) hashes)) ∧
  Z.of_nat (length (funeral_sent (snd run)))
  = Z.of_nat (length (funeral_sent db)) + fst run ∧
  funeral_raw (snd run) = funeral_raw db ∧
  funeral_analyzed (snd run) = funeral_analyzed db ∧
  migrate_sent_data hashes (snd run) = (0, snd run).
Proof.
  cbv zeta.
  assert (Hfilter : ∀ d : Db,
    filter (λ h, h ∉ (list_to_set (get_sent_hashes d) : gset string)) hashes
    = filter (λ h, is_already_sent d h = false) hashes).
  { intros d. apply list_filter_iff. intros h. unfold is_already_sent.
    rewrite elem_of_list_to_set, bool_decide_eq_false. reflexivity. }
  set (new := filter (λ h, is_already_sent db h = false) hashes).
  set (db' := mk_db (funeral_raw db) (funeral_analyzed db) (funeral_sent db ++ new)).
  assert (Hrun : migrate_sent_data hashes db = (Z.of_nat (length new), db')).
  { unfold migrate_sent_data. rewrite Hfilter, mark_all_run. reflexivity. }
  assert (Hnone : filter (λ h, is_already_sent db' h = false) hashes = []).
  { destruct (filter (λ h, is_already_sent db' h = false) hashes) as [|h rest] eqn:Hf;
      [reflexivity|]. exfalso.
    assert (Hh : h ∈ filter (λ h, is_already_sent db' h = false) hashes)
      by (rewrite Hf; apply list_elem_of_here).
    apply list_elem_of_filter in Hh as [Hnot Hin].
    unfold is_already_sent, get_sent_hashes in Hnot. simpl in Hnot.
    apply bool_decide_eq_false in Hnot. apply Hnot.
    apply elem_of_app.
    destruct (is_already_sent db h) eqn:Hs.
    - left. unfold is_already_sent, get_sent_hashes in Hs.
      by apply bool_decide_eq_true in Hs.
    - right. apply list_elem_of_filter. done. }
  rewrite Hrun. simpl.
  split; [reflexivity|]. split; [rewrite length_app; lia|]. split; [reflexivity|].
  split; [reflexivity|].
  unfold migrate_sent_data. rewrite Hfilter, Hnone. reflexivity.
Qed.

Section RawRuns.

Variable content_hash : string → string.

Local Abbreviation raw_exists := (raw_exists content_hash).
Local Abbreviation migrate_raw_item := (migrate_raw_item content_hash).
Local Abbreviation migrate_raw_district := (migrate_raw_district content_hash).
Local Abbreviation migrate_raw_data := (migrate_raw_data content_hash).

Lemma migrate_raw_item_step district it count db :
  let r := migrate_raw_item district it (count, db) in
  Z.of_nat (length (funeral_raw (snd r))) - fst r
  = Z.of_nat (length (funeral_raw db)) - count ∧
  count <= fst r ∧
  funeral_analyzed (snd r) = funeral_analyzed db ∧
  funeral_sent (snd r) = funeral_sent db ∧
  ∃ added, funeral_raw (snd r) = funeral_raw db ++ added.
Proof.
  cbv zeta. unfold Migration.migrate_raw_item.
  destruct (raw_exists db _ district); simpl.
  - repeat split; try lia. exists []. by rewrite app_nil_r.
  - rewrite length_app. simpl. repeat split; try lia. eauto.
Qed.

Lemma migrate_raw_items_step district items : ∀ count db,
  let r := fold_left (λ acc it, migrate_raw_item district it acc) items (count, db) in
  Z.of_nat (length (funeral_raw (snd r))) - fst r
  = Z.of_nat (length (funeral_raw db)) - count ∧
  count <= fst r ∧
  funeral_analyzed (snd r) = funeral_analyzed db ∧
  funeral_sent (snd r) = funeral_sent db ∧
  ∃ added, funeral_raw (snd r) = funeral_raw db ++ added.
Proof.
  induction items as [|it items IH]; intros count db; cbn [fold_left]; cbv zeta.
  - simpl. split; [lia|]. split; [lia|]. split; [done|]. split; [done|].
    exists []. by rewrite app_nil_r.
  - destruct (migrate_raw_item_step district it count db)
      as (H1 & H2 & H3 & H4 & added1 & H5).
    destruct (migrate_raw_item district it (count, db)) as [count1 db1].
    cbn [fst snd] in *.
    destruct (IH count1 db1) as (K1 & K2 & K3 & K4 & added2 & K5).
    split; [lia|]. split; [lia|]. split; [congruence|]. split; [congruence|].
    exists (added1 ++ added2). rewrite K5, H5. by rewrite app_assoc.
Qed.

Lemma migrate_raw_fold_step data : ∀ count db,
  let r := fold_left migrate_raw_district data (count, db) in
  Z.of_nat (length (funeral_raw (snd r))) - fst r
  = Z.of_nat (length (funeral_raw db)) - count ∧
  count <= fst r ∧
  funeral_analyzed (snd r) = funeral_analyzed db ∧
  funeral_sent (snd r) = funeral_sent db ∧
  ∃ added, funeral_raw (snd r) = funeral_raw db ++ added.
Proof.
  induction data as [|[district items] data IH]; intros count db.
  - simpl. split; [lia|]. split; [lia|]. split; [done|]. split; [done|].
    exists []. by rewrite app_nil_r.
  - change (fold_left migrate_raw_district ((district, items) :: data) (count, db))
      with (fold_left migrate_raw_district data
              (fold_left (λ acc it, migrate_raw_item district it acc) items (count, db))).
    destruct (migrate_raw_items_step district items count db)
      as (H1 & H2 & H3 & H4 & added1 & H5).
    destruct (fold_left (λ acc it, migrate_raw_item district it acc) items (count, db))
      as [count1 db1].
    cbv zeta. cbn [fst snd] in *.
    destruct (IH count1 db1) as (K1 & K2 & K3 & K4 & added2 & K5).
    split; [lia|]. split; [lia|]. split; [congruence|]. split; [congruence|].
    exists (added1 ++ added2). rewrite K5, H5. by rewrite app_assoc.
Qed.

Lemma migrate_raw_items_settled district items count db :
  (∀ it, it ∈ items → raw_exists db (default "" (j_content it)) district = true) →
  fold_left (λ acc it, migrate_raw_item district it acc) items (count, db) = (count, db).
Proof.
  induction items as [|it items IH]; intros Hall; cbn [fold_left]; [reflexivity|].
  assert (Hstep : migrate_raw_item district it (count, db) = (count, db)).
  { unfold Migration.migrate_raw_item. by rewrite (Hall it (list_elem_of_here _ _)). }
  rewrite Hstep. apply IH. intros it' Hin. apply Hall. by apply list_elem_of_further.
Qed.

Lemma migrate_raw_fold_settled data count db :
  (∀ district items it, (district, items) ∈ data → it ∈ items →
     raw_exists db (default "" (j_content it)) district = true) →
  fold_left migrate_raw_district data (count, db) = (count, db).
Proof.
  induction data as [|[district items] data IH]; intros Hall; [reflexivity|].
  change (fold_left migrate_raw_district ((district, items) :: data) (count, db))
    with (fold_left migrate_raw_district data
            (fold_left (λ acc it, migrate_raw_item district it acc) items (count, db))).
  rewrite migrate_raw_items_settled.
  - apply IH. intros d its it Hin Hit. apply (Hall d its it); [|exact Hit].
    by apply list_elem_of_further.
  - intros it Hit. apply (Hall district items it); [apply list_elem_of_here|exact Hit].
Qed.

(** X26.  Over the store modelled from the spec, [migrate_raw_data]
    returns the number of raw records it added, only appends to the raw
    records, leaves analyzed records and sent markers alone, and run again on
    its own result adds nothing and returns 0. *)
Theorem migrate_raw_data_counts_and_settles (data : list (string * list raw_item))
    (db : Db) :
  let run := migrate_raw_data data db in
  Z.of_nat (length (funeral_raw (snd run)))
  = Z.of_nat (length (funeral_raw db)) + fst run ∧
  0 <= fst run ∧
  (∃ added, funeral_raw (snd run) = funeral_raw db ++ added) ∧
  funeral_analyzed (snd run) = funeral_analyzed db ∧
  funeral_sent (snd run) = funeral_sent db ∧
  migrate_raw_data data (snd run) = (0, snd run).
Proof.
  cbv zeta.
  destruct (migrate_raw_data_keys content_hash data db) as [Hall _].
  unfold Migration.migrate_raw_data in *.
  destruct data as [|entry data].
  - simpl. split; [lia|]. split; [lia|]. split; [exists []; by rewrite app_nil_r|].
    done.
  - destruct (migrate_raw_fold_step (entry :: data) 0 db)
      as (H1 & H2 & H3 & H4 & added & H5).
    split; [lia|]. split; [lia|]. split; [by exists added|].
    split; [exact H3|]. split; [exact H4|].
    apply migrate_raw_fold_settled. exact Hall.
Qed.

End RawRuns.

Lemma raw_migration_of_two_districts :
  let data := [("북구", [mk_raw_item (Some "u1") (Some "text") None;
                         mk_raw_item (Some "u2") (Some "text") (Some 1)]);
               ("동구", [mk_raw_item (Some "u3") (Some "text") None])] in
  fst (migrate_raw_data (λ c, c) data (mk_db [] [] [])) = 2 ∧
  raw_keys (snd (migrate_raw_data (λ c, c) data (mk_db [] [] [])))
  = [("text", "북구"); ("text", "동구")].
Proof. vm_compute. split; reflexivity. Qed.

End MigrationRuns.

(** ** The blog-style scraper *)

Module BlogStyleFacts.
Import Py Scraper ScraperFacts BlogStyle.

Example blog_scrape_demo :
  BlogStyle.Mock.scrape 5 ((), [])
  = (Ok [mk_item "http://gu/board/view?id=1" "first"],
     ((), [Fetch Discover "http://gu/list?startPage=1" false;
           Fetch (Listing 1) "http://gu/list?startPage=1" false])).
Proof. vm_compute. reflexivity. Qed.

Section BlogFacts.

Context {site : Site}.
Variable World : Type.
Variable client_get : string → bool → World → result exn HttpClient.response * World.
Variable decode : string → string → string.
Variable BeautifulSoup : string → result exn node.
Variable select_one : node → string → option node.
Variable strip : string → string.
Variable content_class : string.
Variable find_span : node → string → option node.

Local Abbreviation runs := (runs World).
Local Abbreviation text := (text decode).
Local Abbreviation list_item := (list_item strip content_class find_span).
Local Abbreviation parse_list_items :=
  (parse_list_items World BeautifulSoup select_one strip content_class find_span).
Local Abbreviation scrape_pages :=
  (BlogStyle.scrape_pages World client_get decode BeautifulSoup select_one strip
     content_class find_span).
Local Abbreviation scrape :=
  (BlogStyle.scrape World client_get decode BeautifulSoup select_one strip
     content_class find_span).
Local Abbreviation get_last_page_num := (get_last_page_num BeautifulSoup select_one).

(** What [parse_list_items] lets through. *)
Lemma list_item_is_filled link it :
  list_item link = Some it →
  item_content it ≠ "" ∧ is_prefix (base_url +:+ "/board/") (item_url it) = true.
Proof.
  unfold BlogStyle.list_item. cbv zeta.
  destruct (decide (_ = "")) as [|Hne]; [discriminate|].
  intros [= <-]. simpl. split; [exact Hne|].
  rewrite <- GptAnalyzerFacts.append_assoc. apply ScraperEdges.is_prefix_refl_app.
Qed.

Lemma parse_list_items_runs html (st : state World) :
  ∃ r evs,
    runs (parse_list_items html) st r (fst st) evs ∧ Forall is_warning evs ∧
    ∀ items, r = Ok items →
      Forall (λ it, item_content it ≠ "" ∧
                    is_prefix (base_url +:+ "/board/") (item_url it) = true) items.
Proof.
  unfold Scraper.runs, BlogStyle.parse_list_items, soup, bind, lift.
  destruct (BeautifulSoup html) as [root|e].
  - destruct (select_one root list_selector) as [container|].
    + eexists _, []. rewrite app_nil_r. destruct st.
      split; [reflexivity|]. split; [constructor|].
      intros items [= <-]. apply Forall_forall. intros it Hin.
      apply list_elem_of_omap in Hin as (link & _ & Hit).
      by eapply list_item_is_filled.
    + eexists (Ok []), [_]. simpl. split; [reflexivity|].
      split; [repeat constructor|]. intros items [= <-]. constructor.
  - eexists (Raise e), []. rewrite app_nil_r. destruct st.
    split; [reflexivity|]. split; [constructor|]. discriminate.
Qed.

Lemma blog_pages_runs pages : ∀ results (st : state World),
  ∃ r w' evs,
    runs (scrape_pages pages results) st r w' evs ∧
    detail_urls evs = [] ∧ error_urls evs = [] ∧
    listing_pages evs `prefix_of` pages ∧
    ∀ results', r = Ok results' →
      listing_pages evs = pages ∧
      ∃ more, results' = results ++ more ∧
              Forall (λ it, item_content it ≠ "" ∧
                            is_prefix (base_url +:+ "/board/") (item_url it) = true) more.
Proof.
  induction pages as [|page rest IH]; intros results st.
  - exists (Ok results), (fst st), []. unfold Scraper.runs. simpl.
    rewrite app_nil_r. destruct st. repeat split; try done.
    injection H as <-. exists []. by rewrite app_nil_r.
  - unfold Scraper.runs in *. simpl. unfold bind at 1.
    rewrite (client_get_text_runs World client_get decode (Listing page)
               (get_list_url page) st).
    destruct (fst (client_get (get_list_url page) force_tor (fst st))) as [response|e].
    + set (w1 := snd (client_get (get_list_url page) force_tor (fst st))).
      destruct (parse_list_items_runs (text response)
                  (w1, snd st ++ [Fetch (Listing page) (get_list_url page) force_tor]))
        as (r1 & evs1 & Hrun1 & Hwarn & Hitems).
      destruct (warnings_are_silent evs1 Hwarn) as (Hl1 & Hd1 & He1 & _).
      unfold Scraper.runs in Hrun1. unfold bind at 1. fold (text response).
      rewrite Hrun1. simpl fst. simpl snd.
      destruct r1 as [items|e].
      * destruct (IH (results ++ items)
                    (w1, (snd st ++ [Fetch (Listing page) (get_list_url page) force_tor])
                           ++ evs1))
          as (r & w' & evs2 & Hrun2 & Hd2 & He2 & Hpre & Hok).
        simpl snd in Hrun2.
        exists r, w', (Fetch (Listing page) (get_list_url page) force_tor :: evs1 ++ evs2).
        split; [rewrite Hrun2; by rewrite <- !app_assoc|].
        change (detail_urls (Fetch (Listing page) (get_list_url page) force_tor
                  :: evs1 ++ evs2)) with (detail_urls (evs1 ++ evs2)).
        change (error_urls (Fetch (Listing page) (get_list_url page) force_tor
                  :: evs1 ++ evs2)) with (error_urls (evs1 ++ evs2)).
        change (listing_pages (Fetch (Listing page) (get_list_url page) force_tor
                  :: evs1 ++ evs2)) with (page :: listing_pages (evs1 ++ evs2)).
        rewrite detail_urls_app, error_urls_app, listing_pages_app, Hl1, Hd1, He1.
        split; [exact Hd2|]. split; [exact He2|]. split; [by apply prefix_cons|].
        intros results' Hr. destruct (Hok results' Hr) as (Hall & more & -> & Hmore).
        split; [simpl; by rewrite Hall|]. exists (items ++ more).
        split; [by rewrite app_assoc|]. apply Forall_app. split; [by apply Hitems|done].
      * exists (Raise e), w1,
          (Fetch (Listing page) (get_list_url page) force_tor :: evs1).
        split; [by rewrite <- app_assoc|].
        change (detail_urls (Fetch (Listing page) (get_list_url page) force_tor :: evs1))
          with (detail_urls evs1).
        change (error_urls (Fetch (Listing page) (get_list_url page) force_tor :: evs1))
          with (error_urls evs1).
        change (listing_pages (Fetch (Listing page) (get_list_url page) force_tor :: evs1))
          with (page :: listing_pages evs1).
        rewrite Hl1, Hd1, He1. split; [done|]. split; [done|].
        split; [apply prefix_cons, prefix_nil|]. discriminate.
    + eexists (Raise e), _, [Fetch (Listing page) (get_list_url page) force_tor].
      split; [reflexivity|]. split; [done|]. split; [done|].
      split; [apply prefix_cons, prefix_nil|]. discriminate.
Qed.

(** X27.  The blog-style scraper reads its items off the listing pages
    alone: after the first page it only fetches listing pages, never beyond
    min(discovered, max_page) and all of them when it returns, it fetches no
    posting and logs no error, and every item it returns has a non-empty
    content and a url under the board of the site. *)
Theorem blog_scrape_reads_listings_only max_page (st : state World)
    response w1 discovered :
  client_get (get_list_url 1) force_tor (fst st) = (Ok response, w1) →
  get_last_page_num (text response) = Ok discovered →
  ∃ r w' evs,
    runs (scrape max_page) st r w' (Fetch Discover (get_list_url 1) force_tor :: evs) ∧
    detail_urls evs = [] ∧ error_urls evs = [] ∧
    listing_pages evs `prefix_of` seqZ 1 (Z.min discovered max_page) ∧
    ∀ results, r = Ok results →
      listing_pages evs = seqZ 1 (Z.min discovered max_page) ∧
      Forall (λ it, item_content it ≠ "" ∧
                    is_prefix (base_url +:+ "/board/") (item_url it) = true) results.
Proof.
  intros Hget Hnum.
  destruct (blog_pages_runs (seqZ 1 (Z.min discovered max_page)) []
              (w1, snd st ++ [Fetch Discover (get_list_url 1) force_tor]))
    as (r & w' & evs & Hrun & Hd & He & Hpre & Hok).
  exists r, w', evs. split.
  - unfold Scraper.runs in *. unfold BlogStyle.scrape, bind.
    rewrite (client_get_text_runs World client_get decode Discover (get_list_url 1) st),
      Hget. simpl. unfold lift. fold (text response). rewrite Hnum. unfold range_from_1.
    replace (if max_page <? discovered then max_page else discovered)
      with (Z.min discovered max_page)
      by (destruct (Z.ltb_spec max_page discovered); lia).
    replace (Z.min discovered max_page + 1 - 1) with (Z.min discovered max_page) by lia.
    rewrite Hrun. simpl. by rewrite <- app_assoc.
  - split; [exact Hd|]. split; [exact He|]. split; [exact Hpre|].
    intros results Hr. destruct (Hok results Hr) as (Hall & more & -> & Hmore).
    split; [exact Hall|exact Hmore].
Qed.

End BlogFacts.

Lemma blog_scrape_reads_listings_only_witness :
  ∃ r w' evs,
    BlogStyle.Mock.scrape 5 ((), [])
    = (r, (w', Fetch Discover "http://gu/list?startPage=1" false :: evs)) ∧
    detail_urls evs = [].
Proof.
  destruct (blog_scrape_reads_listings_only (site := Scraper.Mock.site) unit
              (Scraper.Mock.client_get BlogStyle.Mock.web) Scraper.Mock.decode
              BlogStyle.Mock.BeautifulSoup Scraper.Mock.select_one Scraper.Mock.strip
              "stxt" BlogStyle.Mock.find_span 5 ((), [])
              (Scraper.Mock.served "blog-1") () 1 eq_refl ltac:(vm_compute; reflexivity))
    as (r & w' & evs & Hrun & Hd & _).
  exists r, w', evs. split; [exact Hrun | exact Hd].
Defined.

End BlogStyleFacts.
